(** * TaskFlow frontend: the state / synchronisation / render engine of
    [src/frontend/app.js], as a shallow embedding.

    - JavaScript strings are [string]s (sequences of 8-bit code units; glyphs
      outside that range occur only inside message literals, which the code
      never inspects, and are written as their UTF-8 bytes).
    - Task ids and HTTP status codes are JavaScript numbers holding integers:
      [Z].  [null] / [undefined] is [None].
    - The module-level [state] object and the [DOM] references are records;
      handlers are computations in a state-and-exception monad over them.
    - The network is an oracle: the n-th call of [fetch] settles with the n-th
      outcome of the world, and every request is logged together with the
      state and the DOM as they were when it was sent.
    - A handler runs to completion before the next event is dispatched; what
      is in flight is observed through that log.  Timers (the removal of a
      toast) and scrolling are not represented. *)

From Stdlib Require Import ZArith Bool List String Ascii DecimalString.
From Stdlib Require Import Lia.
Import ListNotations.
Open Scope list_scope.
Open Scope string_scope.

(* ================================================================== *)
(** ** JavaScript strings *)

(** The double-quote character and a quoted attribute value. *)
Definition dq : string := String "034"%char "".
Definition q (s : string) : string := dq ++ s ++ dq.
Definition nl : string := String "010"%char "".

(** [s.replace(/c/g, r)] for a single-character pattern [c]. *)
Fixpoint replaceAll (c : ascii) (r s : string) : string :=
  match s with
  | "" => ""
  | String a s' => (if Ascii.eqb a c then r else String a "") ++ replaceAll c r s'
  end.

(** ECMAScript WhiteSpace and LineTerminator code units below 256:
    TAB, LF, VT, FF, CR, SP and NBSP. *)
Definition isWhiteSpace (a : ascii) : bool :=
  let n := nat_of_ascii a in
  ((9 <=? n) && (n <=? 13) || (n =? 32) || (n =? 160))%nat.

Fixpoint trimStart (s : string) : string :=
  match s with
  | "" => ""
  | String a s' => if isWhiteSpace a then trimStart s' else s
  end.

Fixpoint trimEnd (s : string) : string :=
  match s with
  | "" => ""
  | String a s' =>
      let r := trimEnd s' in
      if isWhiteSpace a && (r =? "") then "" else String a r
  end.

(** [s.trim()] *)
Definition trim (s : string) : string := trimEnd (trimStart s).

(** Template interpolation of an integer-valued number (of magnitude below
    1e21, from where on a template prints an exponent). *)
Definition show_int (z : Z) : string := NilEmpty.string_of_int (Z.to_int z).

(** [arr.join("")] *)
Definition join (l : list string) : string := String.concat "" l.

(** Truthiness of the values the code tests. *)
Definition truthy_str (s : string) : bool := negb (s =? "").
Definition truthy_opt_str (o : option string) : bool :=
  match o with Some s => truthy_str s | None => false end.
Definition truthy_num (o : option Z) : bool :=
  match o with Some z => negb (z =? 0)%Z | None => false end.

(* ================================================================== *)
(** ** 11. UI utilities: [escHtml] *)

(** [escHtml(str)]: the argument is a string or [null]/[undefined]. *)
Definition escHtml (str : option string) : string :=
  match str with
  | None => ""
  | Some s =>
      if negb (truthy_str s) then ""
      else
        replaceAll "'" "&#39;"
          (replaceAll "034" "&quot;"
             (replaceAll ">" "&gt;"
                (replaceAll "<" "&lt;"
                   (replaceAll "&" "&amp;" s))))
  end.

(** The five entities [escHtml] produces. *)
Definition entities : list string :=
  ["&amp;"; "&lt;"; "&gt;"; "&quot;"; "&#39;"].

(** The characters that must not appear raw in escaped text. *)
Definition markup_char (a : ascii) : bool :=
  Ascii.eqb a "<" || Ascii.eqb a ">" || Ascii.eqb a "034" || Ascii.eqb a "'".

(* ================================================================== *)
(** ** Data model *)

(** A task as the client reads it (the server-managed [created_at] and
    [updated_at] are never read by the client). *)
Record Task := {
  id : Z;
  title : string;
  description : option string;
  status : string;
  priority : string;
  is_completed : bool;
  due_date : option string;
}.

(** The object [readForm] returns and the create/update requests carry. *)
Record Payload := {
  payload_title : string;
  payload_description : option string;
  payload_priority : string;
  payload_due_date : option string;
}.

(** [const state = { ... }] *)
Record State := {
  tasks : list Task;
  activeStatus : string;
  activePriority : string;
  editingId : option Z;
  pendingDeleteId : option Z;
}.

Definition initial_state : State :=
  {| tasks := []; activeStatus := "all"; activePriority := "all";
     editingId := None; pendingDeleteId := None |}.

(* ================================================================== *)
(** ** 1. Config and the host environment *)

(** What the page gets from its host and that the source does not fix:
    the endpoint selected from [window.location] and the behaviour of the
    [Date] object (locale, time zone and clock). *)
Record Env := {
  BASE_URL : string;
  (** [new Date(s).toLocaleDateString(undefined, {...})] *)
  toLocaleDateString : string -> string;
  (** [new Date(s) < new Date()] *)
  isPast : string -> bool;
  (** [new Date(s).toISOString()], of the value of the [datetime-local]
      control, which is empty or a date *)
  toISOString : string -> string;
  (** the [datetime-local] rendering computed by [populateForm]: [None]
      when the string is not a date, for which [toISOString] throws a
      [RangeError] *)
  toLocalInput : string -> option string;
}.

Definition TASKS_PATH : string := "/tasks".

Module API.
Definition tasks (env : Env) : string := BASE_URL env ++ TASKS_PATH ++ "/".
Definition task (env : Env) (i : Z) : string :=
  BASE_URL env ++ TASKS_PATH ++ "/" ++ show_int i.
Definition complete (env : Env) (i : Z) : string :=
  BASE_URL env ++ TASKS_PATH ++ "/" ++ show_int i ++ "/complete".
End API.

(* ================================================================== *)
(** ** 5. Render: pure functions from data to markup *)

Record Chip := { label : string; cls : string }.

(** The lookup tables with their default branch (keys inherited from
    [Object.prototype] are not represented). *)
Definition statusChip (s : string) : Chip :=
  if s =? "todo" then {| label := "To Do"; cls := "chip-todo" |}
  else if s =? "in_progress" then {| label := "In Progress"; cls := "chip-in_progress" |}
  else if s =? "done" then {| label := "Done"; cls := "chip-done" |}
  else {| label := s; cls := "" |}.

Definition priorityChip (p : string) : Chip :=
  if p =? "low" then {| label := "🟢 Low"; cls := "chip-low" |}
  else if p =? "medium" then {| label := "🟡 Medium"; cls := "chip-medium" |}
  else if p =? "high" then {| label := "🔴 High"; cls := "chip-high" |}
  else {| label := p; cls := "" |}.

Definition formatDate (env : Env) (iso : option string) : string :=
  match iso with
  | Some s => if truthy_str s then toLocaleDateString env s else ""
  | None => ""
  end.

Definition isOverdue (env : Env) (iso : option string) : bool :=
  match iso with
  | Some s => truthy_str s && isPast env s
  | None => false
  end.

(** The inner template of the description paragraph. *)
Definition descriptionHtml (d : option string) : string :=
  if truthy_opt_str d
  then "<p class=" ++ q "task-description" ++ ">" ++ escHtml d ++ "</p>"
  else "".

Definition dueHtml (dueTxt overdueClass : string) : string :=
  if truthy_str dueTxt
  then "<span class=" ++ q ("task-due" ++ overdueClass) ++ " title=" ++ q "Due date"
       ++ ">📅 " ++ dueTxt ++ (if truthy_str overdueClass then " (overdue)" else "")
       ++ "</span>"
  else "".

Definition actionButton (kind : string) (i : Z) (tip aria text : string)
                        (ind1 ind2 : string) : string :=
  "<button class=" ++ q ("btn btn-icon " ++ kind) ++ nl
  ++ ind1 ++ "data-id=" ++ q (show_int i) ++ " title=" ++ q tip
  ++ " aria-label=" ++ q aria ++ ">" ++ nl
  ++ ind1 ++ text ++ nl
  ++ ind2 ++ "</button>".

(** [buildCard(task)]: the markup of one task card. *)
Definition buildCard (env : Env) (task : Task) : string :=
  let sc := statusChip (status task) in
  let pc := priorityChip (priority task) in
  let doneClass := if is_completed task then " is-done" else "" in
  let dueTxt := formatDate env (due_date task) in
  let overdueClass :=
    if isOverdue env (due_date task) && negb (is_completed task)
    then " overdue" else "" in
  trim
    (nl
     ++ "    <li class=" ++ q ("task-card" ++ doneClass)
     ++ " data-task-id=" ++ q (show_int (id task)) ++ " role=" ++ q "listitem" ++ ">" ++ nl
     ++ "      <div class=" ++ q "task-card-top" ++ ">" ++ nl
     ++ "        <h3 class=" ++ q "task-title" ++ ">"
     ++ escHtml (Some (title task)) ++ "</h3>" ++ nl
     ++ "      </div>" ++ nl
     ++ nl
     ++ "      " ++ descriptionHtml (description task) ++ nl
     ++ nl
     ++ "      <div class=" ++ q "task-meta" ++ ">" ++ nl
     ++ "        <span class=" ++ q ("chip " ++ cls sc) ++ ">" ++ label sc ++ "</span>" ++ nl
     ++ "        <span class=" ++ q ("chip " ++ cls pc) ++ ">" ++ label pc ++ "</span>" ++ nl
     ++ "        " ++ dueHtml dueTxt overdueClass ++ nl
     ++ "      </div>" ++ nl
     ++ nl
     ++ "      <div class=" ++ q "task-actions" ++ ">" ++ nl
     ++ "        "
     ++ (if negb (is_completed task)
         then actionButton "btn-ghost btn-complete" (id task) "Mark complete"
                "Mark task complete" "✓ Complete" "               " "             "
         else "") ++ nl
     ++ "        "
     ++ actionButton "btn-ghost btn-edit" (id task) "Edit task" "Edit task"
          "✏ Edit" "          " "        " ++ nl
     ++ "        "
     ++ actionButton "btn-danger btn-delete" (id task) "Delete task" "Delete task"
          "🗑 Delete" "          " "        " ++ nl
     ++ "      </div>" ++ nl
     ++ "    </li>").

(** The predicate of [state.tasks.filter(...)] in [renderTaskList]. *)
Definition filterOk (st : State) (t : Task) : bool :=
  let statusOk := (activeStatus st =? "all") || (status t =? activeStatus st) in
  let priorityOk := (activePriority st =? "all") || (priority t =? activePriority st) in
  statusOk && priorityOk.

(** [const filtered = state.tasks.filter(...)]: the view that is rendered. *)
Definition filtered (st : State) : list Task := filter (filterOk st) (tasks st).

(** The task-count badge text. *)
Definition badgeText (st : State) : string :=
  show_int (Z.of_nat (List.length (tasks st))) ++ " task"
  ++ (if Nat.eqb (List.length (tasks st)) 1 then "" else "s").

(** Assignments to the fields of [state]. *)
Definition set_tasks (v : list Task) (st : State) : State :=
  {| tasks := v; activeStatus := activeStatus st; activePriority := activePriority st;
     editingId := editingId st; pendingDeleteId := pendingDeleteId st |}.
Definition set_activeStatus (v : string) (st : State) : State :=
  {| tasks := tasks st; activeStatus := v; activePriority := activePriority st;
     editingId := editingId st; pendingDeleteId := pendingDeleteId st |}.
Definition set_activePriority (v : string) (st : State) : State :=
  {| tasks := tasks st; activeStatus := activeStatus st; activePriority := v;
     editingId := editingId st; pendingDeleteId := pendingDeleteId st |}.
Definition set_editingId (v : option Z) (st : State) : State :=
  {| tasks := tasks st; activeStatus := activeStatus st; activePriority :=
     activePriority st; editingId := v; pendingDeleteId := pendingDeleteId st |}.
Definition set_pendingDeleteId (v : option Z) (st : State) : State :=
  {| tasks := tasks st; activeStatus := activeStatus st; activePriority :=
     activePriority st; editingId := editingId st; pendingDeleteId := v |}.

(* ================================================================== *)
(** ** 3. DOM references *)

(** The four controls of the task form that [form.reset()] restores. *)
Record FormFields := {
  f_title : string;
  f_description : string;
  f_priority : string;
  f_dueDate : string;
}.

(** A toast element appended by [showToast]. *)
Record Toast := {
  toast_className : string;
  toast_dur : string;
  toast_innerHTML : string;
  toast_role : string;
}.

(** A status filter pill ([data-filter-status], class [active], [aria-pressed]). *)
Record Pill := {
  filterStatus : string;
  pill_active : bool;
  aria_pressed : string;
}.

Inductive Element := ElTitle | ElOther.

Record Form := {
  taskId_value : string;  (* the hidden input [#task-id] *)
  fields : FormFields;  (* current values of the form controls *)
  defaults : FormFields;  (* what [form.reset()] restores (from the page markup) *)
  title_invalid : bool;  (* class [is-invalid] on the title input *)
  titleError_text : string;
  titleError_hidden : bool;
  submitBtn_disabled : bool;
  submitLabel_text : string;
  cancelEditBtn_hidden : bool;  (* class [hidden] on the cancel-edit button *)
  formHeading_text : string;
  formPanel_editing : bool;  (* class [editing] on the form panel *)
}.

Definition set_taskId_value (v : string) (f : Form) : Form :=
  {| taskId_value := v; fields := fields f; defaults := defaults f; title_invalid :=
     title_invalid f; titleError_text := titleError_text f; titleError_hidden :=
     titleError_hidden f; submitBtn_disabled := submitBtn_disabled f; submitLabel_text :=
     submitLabel_text f; cancelEditBtn_hidden := cancelEditBtn_hidden f; formHeading_text
     := formHeading_text f; formPanel_editing := formPanel_editing f |}.
Definition set_fields (v : FormFields) (f : Form) : Form :=
  {| taskId_value := taskId_value f; fields := v; defaults := defaults f;
     title_invalid := title_invalid f; titleError_text := titleError_text f;
     titleError_hidden := titleError_hidden f; submitBtn_disabled := submitBtn_disabled
     f; submitLabel_text := submitLabel_text f; cancelEditBtn_hidden :=
     cancelEditBtn_hidden f; formHeading_text := formHeading_text f; formPanel_editing :=
     formPanel_editing f |}.
Definition set_title_invalid (v : bool) (f : Form) : Form :=
  {| taskId_value := taskId_value f; fields := fields f; defaults := defaults f;
     title_invalid := v; titleError_text := titleError_text f; titleError_hidden :=
     titleError_hidden f; submitBtn_disabled := submitBtn_disabled f; submitLabel_text :=
     submitLabel_text f; cancelEditBtn_hidden := cancelEditBtn_hidden f; formHeading_text
     := formHeading_text f; formPanel_editing := formPanel_editing f |}.
Definition set_titleError_text (v : string) (f : Form) : Form :=
  {| taskId_value := taskId_value f; fields := fields f; defaults := defaults f;
     title_invalid := title_invalid f; titleError_text := v; titleError_hidden :=
     titleError_hidden f; submitBtn_disabled := submitBtn_disabled f; submitLabel_text :=
     submitLabel_text f; cancelEditBtn_hidden := cancelEditBtn_hidden f; formHeading_text
     := formHeading_text f; formPanel_editing := formPanel_editing f |}.
Definition set_titleError_hidden (v : bool) (f : Form) : Form :=
  {| taskId_value := taskId_value f; fields := fields f; defaults := defaults f;
     title_invalid := title_invalid f; titleError_text := titleError_text f;
     titleError_hidden := v; submitBtn_disabled := submitBtn_disabled f; submitLabel_text
     := submitLabel_text f; cancelEditBtn_hidden := cancelEditBtn_hidden f;
     formHeading_text := formHeading_text f; formPanel_editing := formPanel_editing f |}.
Definition set_submitBtn_disabled (v : bool) (f : Form) : Form :=
  {| taskId_value := taskId_value f; fields := fields f; defaults := defaults f;
     title_invalid := title_invalid f; titleError_text := titleError_text f;
     titleError_hidden := titleError_hidden f; submitBtn_disabled := v; submitLabel_text
     := submitLabel_text f; cancelEditBtn_hidden := cancelEditBtn_hidden f;
     formHeading_text := formHeading_text f; formPanel_editing := formPanel_editing f |}.
Definition set_submitLabel_text (v : string) (f : Form) : Form :=
  {| taskId_value := taskId_value f; fields := fields f; defaults := defaults f;
     title_invalid := title_invalid f; titleError_text := titleError_text f;
     titleError_hidden := titleError_hidden f; submitBtn_disabled := submitBtn_disabled
     f; submitLabel_text := v; cancelEditBtn_hidden := cancelEditBtn_hidden f;
     formHeading_text := formHeading_text f; formPanel_editing := formPanel_editing f |}.
Definition set_cancelEditBtn_hidden (v : bool) (f : Form) : Form :=
  {| taskId_value := taskId_value f; fields := fields f; defaults := defaults f;
     title_invalid := title_invalid f; titleError_text := titleError_text f;
     titleError_hidden := titleError_hidden f; submitBtn_disabled := submitBtn_disabled
     f; submitLabel_text := submitLabel_text f; cancelEditBtn_hidden := v;
     formHeading_text := formHeading_text f; formPanel_editing := formPanel_editing f |}.
Definition set_formHeading_text (v : string) (f : Form) : Form :=
  {| taskId_value := taskId_value f; fields := fields f; defaults := defaults f;
     title_invalid := title_invalid f; titleError_text := titleError_text f;
     titleError_hidden := titleError_hidden f; submitBtn_disabled := submitBtn_disabled
     f; submitLabel_text := submitLabel_text f; cancelEditBtn_hidden :=
     cancelEditBtn_hidden f; formHeading_text := v; formPanel_editing :=
     formPanel_editing f |}.
Definition set_formPanel_editing (v : bool) (f : Form) : Form :=
  {| taskId_value := taskId_value f; fields := fields f; defaults := defaults f;
     title_invalid := title_invalid f; titleError_text := titleError_text f;
     titleError_hidden := titleError_hidden f; submitBtn_disabled := submitBtn_disabled
     f; submitLabel_text := submitLabel_text f; cancelEditBtn_hidden :=
     cancelEditBtn_hidden f; formHeading_text := formHeading_text f; formPanel_editing :=
     v |}.

Record ListArea := {
  taskList_innerHTML : string;
  loading_hidden : bool;
  emptyState_hidden : bool;
  taskCountBadge_text : string;
}.

Definition set_taskList_innerHTML (v : string) (l : ListArea) : ListArea :=
  {| taskList_innerHTML := v; loading_hidden := loading_hidden l; emptyState_hidden :=
     emptyState_hidden l; taskCountBadge_text := taskCountBadge_text l |}.
Definition set_loading_hidden (v : bool) (l : ListArea) : ListArea :=
  {| taskList_innerHTML := taskList_innerHTML l; loading_hidden := v;
     emptyState_hidden := emptyState_hidden l; taskCountBadge_text := taskCountBadge_text
     l |}.
Definition set_emptyState_hidden (v : bool) (l : ListArea) : ListArea :=
  {| taskList_innerHTML := taskList_innerHTML l; loading_hidden := loading_hidden l;
     emptyState_hidden := v; taskCountBadge_text := taskCountBadge_text l |}.
Definition set_taskCountBadge_text (v : string) (l : ListArea) : ListArea :=
  {| taskList_innerHTML := taskList_innerHTML l; loading_hidden := loading_hidden l;
     emptyState_hidden := emptyState_hidden l; taskCountBadge_text := v |}.

Record Dom := {
  form : Form;
  listArea : ListArea;
  filterPills : list Pill;
  priorityFilter_value : string;
  confirmModal_show : bool;  (* class [show] on the modal overlay *)
  confirmModal_hidden : bool;  (* the overlay's [hidden] attribute (from the page markup) *)
  toastContainer : list Toast;  (* toasts in order of insertion *)
  activeElement : Element;  (* the element holding focus *)
}.

Definition set_form (v : Form) (d : Dom) : Dom :=
  {| form := v; listArea := listArea d; filterPills := filterPills d;
     priorityFilter_value := priorityFilter_value d; confirmModal_show :=
     confirmModal_show d; confirmModal_hidden := confirmModal_hidden d; toastContainer :=
     toastContainer d; activeElement := activeElement d |}.
Definition set_listArea (v : ListArea) (d : Dom) : Dom :=
  {| form := form d; listArea := v; filterPills := filterPills d; priorityFilter_value
     := priorityFilter_value d; confirmModal_show := confirmModal_show d;
     confirmModal_hidden := confirmModal_hidden d; toastContainer := toastContainer d;
     activeElement := activeElement d |}.
Definition set_filterPills (v : list Pill) (d : Dom) : Dom :=
  {| form := form d; listArea := listArea d; filterPills := v; priorityFilter_value :=
     priorityFilter_value d; confirmModal_show := confirmModal_show d;
     confirmModal_hidden := confirmModal_hidden d; toastContainer := toastContainer d;
     activeElement := activeElement d |}.
Definition set_priorityFilter_value (v : string) (d : Dom) : Dom :=
  {| form := form d; listArea := listArea d; filterPills := filterPills d;
     priorityFilter_value := v; confirmModal_show := confirmModal_show d;
     confirmModal_hidden := confirmModal_hidden d; toastContainer := toastContainer d;
     activeElement := activeElement d |}.
Definition set_confirmModal_show (v : bool) (d : Dom) : Dom :=
  {| form := form d; listArea := listArea d; filterPills := filterPills d;
     priorityFilter_value := priorityFilter_value d; confirmModal_show := v;
     confirmModal_hidden := confirmModal_hidden d; toastContainer := toastContainer d;
     activeElement := activeElement d |}.
Definition set_toastContainer (v : list Toast) (d : Dom) : Dom :=
  {| form := form d; listArea := listArea d; filterPills := filterPills d;
     priorityFilter_value := priorityFilter_value d; confirmModal_show :=
     confirmModal_show d; confirmModal_hidden := confirmModal_hidden d; toastContainer :=
     v; activeElement := activeElement d |}.
Definition set_activeElement (v : Element) (d : Dom) : Dom :=
  {| form := form d; listArea := listArea d; filterPills := filterPills d;
     priorityFilter_value := priorityFilter_value d; confirmModal_show :=
     confirmModal_show d; confirmModal_hidden := confirmModal_hidden d; toastContainer :=
     toastContainer d; activeElement := v |}.

Definition on_form (g : Form -> Form) (d : Dom) : Dom := set_form (g (form d)) d.
Definition on_listArea (g : ListArea -> ListArea) (d : Dom) : Dom :=
  set_listArea (g (listArea d)) d.

(* ================================================================== *)
(** ** The network and the world *)

(** The fields of a JSON response body that the client reads: [detail]
    (the error shape) and [data.tasks] (the list envelope).  [{}] has
    neither. *)
Record Body := {
  detail : option string;
  data_tasks : option (list Task);
}.

Definition emptyObject : Body := {| detail := None; data_tasks := None |}.

(** A [Response]; [res_json = None] when [res.json()] rejects (the body is
    not well-formed JSON). *)
Record Response := {
  res_status : Z;
  res_statusText : string;
  res_json : option Body;
}.

(** [res.ok] *)
Definition res_ok (res : Response) : bool :=
  ((200 <=? res_status res) && (res_status res <=? 299))%Z.

(** How the promise returned by [fetch] settles. *)
Inductive Settled :=
| Rejected (message : string)
| Resolved (res : Response).

(** A request as handed to [fetch].  The query string is kept as the list of
    parameters set on the [URLSearchParams] (empty: no query string). *)
Record Request := {
  req_method : string;
  req_url : string;
  req_query : list (string * string);
  req_body : option Payload;
}.

(** A request together with what was displayed and held when it was sent. *)
Record Sent := {
  request : Request;
  state_at_send : State;
  dom_at_send : Dom;
}.

Record World := {
  state : State;
  DOM : Dom;
  sent : list Sent;               (* chronological *)
  network : nat -> Settled;       (* how the n-th request settles *)
}.

(* ================================================================== *)
(** ** The monad of handlers: state plus exceptions *)

Inductive Completion (A : Type) :=
| Normal (a : A)
| Throw (message : string).
Arguments Normal {A} a.
Arguments Throw {A} message.

Definition JS (A : Type) : Type := World -> Completion A * World.

Definition ret {A} (a : A) : JS A := fun w => (Normal a, w).

Definition bind {A B} (m : JS A) (k : A -> JS B) : JS B :=
  fun w =>
    match m w with
    | (Normal a, w') => k a w'
    | (Throw e, w') => (Throw e, w')
    end.

Definition throw {A} (message : string) : JS A := fun w => (Throw message, w).

(** [try { body } catch (err) { handler(err.message) }] *)
Definition try_catch {A} (body : JS A) (handler : string -> JS A) : JS A :=
  fun w =>
    match body w with
    | (Normal a, w') => (Normal a, w')
    | (Throw e, w') => handler e w'
    end.

(** [try { body } finally { fin }] *)
Definition try_finally {A} (body : JS A) (fin : JS unit) : JS A :=
  fun w =>
    match body w with
    | (c, w') =>
        match fin w' with
        | (Normal _, w'') => (c, w'')
        | (Throw e, w'') => (Throw e, w'')
        end
    end.

Declare Scope js_scope.
Delimit Scope js_scope with js.
Notation "x <- m ;; k" := (bind m (fun x => k))
  (at level 61, m at next level, right associativity) : js_scope.
Notation "m ;; k" := (bind m (fun _ => k))
  (at level 61, right associativity) : js_scope.
Open Scope js_scope.

Definition getState : JS State := fun w => (Normal (state w), w).
Definition getDOM : JS Dom := fun w => (Normal (DOM w), w).

Definition setState (g : State -> State) : JS unit :=
  fun w => (Normal tt,
            {| state := g (state w); DOM := DOM w; sent := sent w; network := network w |}).

Definition setDOM (g : Dom -> Dom) : JS unit :=
  fun w => (Normal tt,
            {| state := state w; DOM := g (DOM w); sent := sent w; network := network w |}).

(** [await fetch(url, config)]: the request is logged, then the promise
    settles as the network decides. *)
Definition logged (r : Request) (w : World) : World :=
  {| state := state w; DOM := DOM w;
     sent := (sent w ++ [ {| request := r; state_at_send := state w;
                            dom_at_send := DOM w |} ])%list;
     network := network w |}.

Definition fetch (r : Request) : JS Response :=
  fun w =>
    match network w (List.length (sent w)) with
    | Rejected e => (Throw e, logged r w)
    | Resolved res => (Normal res, logged r w)
    end.

(** The world a handler leaves behind. *)
Definition exec {A} (m : JS A) (w : World) : World := snd (m w).

Section Handlers.

Variable env : Env.

(* ================================================================== *)
(** ** 4. API helpers *)

Definition genericMessage (res : Response) : string :=
  "HTTP " ++ show_int (res_status res) ++ ": " ++ res_statusText res.

(** [data?.detail || `HTTP ${res.status}: ${res.statusText}`] *)
Definition errorMessage (res : Response) (data : Body) : string :=
  match detail data with
  | Some d => if truthy_str d then d else genericMessage res
  | None => genericMessage res
  end.

(** [fetchJSON(url, options)]; the constant JSON headers are left out. *)
Definition fetchJSON (method url : string) (query : list (string * string))
                     (body : option Payload) : JS Body :=
  res <- fetch {| req_method := method; req_url := url;
                  req_query := query; req_body := body |} ;;
  let data := match res_json res with Some b => b | None => emptyObject end in
  if negb (res_ok res) then throw (errorMessage res data)
  else ret data.

(** The parameters [apiGetTasks] sets on its [URLSearchParams]. *)
Definition listParams (status priority : string) : list (string * string) :=
  ((if truthy_str status && negb (status =? "all") then [("status", status)] else [])
   ++ (if truthy_str priority && negb (priority =? "all")
       then [("priority", priority)] else []))%list.

Definition apiGetTasks (status priority : string) : JS Body :=
  fetchJSON "GET" (API.tasks env) (listParams status priority) None.

Definition apiCreateTask (payload : Payload) : JS Body :=
  fetchJSON "POST" (API.tasks env) [] (Some payload).

Definition apiUpdateTask (i : Z) (payload : Payload) : JS Body :=
  fetchJSON "PUT" (API.task env i) [] (Some payload).

Definition apiCompleteTask (i : Z) : JS Body :=
  fetchJSON "PATCH" (API.complete env i) [] None.

Definition apiDeleteTask (i : Z) : JS Body :=
  fetchJSON "DELETE" (API.task env i) [] None.

(* ================================================================== *)
(** ** 11. UI utilities *)

Definition toastIcon (type : string) : string :=
  if type =? "success" then "✓"
  else if type =? "error" then "✕"
  else "ℹ".

(** The element [showToast(message, type)] creates. *)
Definition toastOf (message type : string) : Toast :=
  {| toast_className := "toast toast-" ++ type;
     toast_dur := "2.7s";
     toast_innerHTML := "<span class=" ++ q "toast-icon" ++ ">" ++ toastIcon type
                        ++ "</span>" ++ escHtml (Some message);
     toast_role := "status" |}.

(** [showToast]: the timed removal of the toast is outside the model. *)
Definition showToast (message type : string) : JS unit :=
  setDOM (fun d => set_toastContainer (toastContainer d ++ [toastOf message type])%list d).

Definition setLoading (visible : bool) : JS unit :=
  setDOM (on_listArea (set_loading_hidden (negb visible))) ;;
  if visible then setDOM (on_listArea (set_taskList_innerHTML "")) else ret tt.

Definition setSubmitting (active : bool) : JS unit :=
  setDOM (on_form (set_submitBtn_disabled active)) ;;
  st <- getState ;;
  setDOM (on_form (set_submitLabel_text
    (if active
     then (if truthy_num (editingId st) then "Saving…" else "Creating…")
     else (if truthy_num (editingId st) then "Save Changes" else "Create Task")))).

(* ================================================================== *)
(** ** 5. Render (continued) and 6. data loading *)

Definition renderTaskList : JS unit :=
  st <- getState ;;
  let shown := filtered st in
  setDOM (on_listArea (set_taskList_innerHTML (join (map (buildCard env) shown)))) ;;
  setDOM (on_listArea (set_emptyState_hidden (negb (Nat.eqb (List.length shown) 0)))) ;;
  setDOM (on_listArea (set_taskCountBadge_text (badgeText st))).

Definition loadTasks : JS unit :=
  setLoading true ;;
  try_finally
    (try_catch
       (st <- getState ;;
        res <- apiGetTasks (activeStatus st) (activePriority st) ;;
        setState (set_tasks (match data_tasks res with Some l => l | None => [] end)) ;;
        renderTaskList)
       (fun err => showToast ("Failed to load tasks: " ++ err) "error"))
    (setLoading false).

(* ================================================================== *)
(** ** 7. Form handlers *)

Definition clearValidation : JS unit :=
  setDOM (on_form (set_title_invalid false)) ;;
  setDOM (on_form (set_titleError_hidden true)).

(** [readForm()]: [None] is the [null] returned when validation fails. *)
Definition readForm : JS (option Payload) :=
  d <- getDOM ;;
  let title := trim (f_title (fields (form d))) in
  if negb (truthy_str title) then
    setDOM (on_form (set_title_invalid true)) ;;
    setDOM (on_form (set_titleError_text "Title is required.")) ;;
    setDOM (on_form (set_titleError_hidden false)) ;;
    setDOM (set_activeElement ElTitle) ;;
    ret None
  else
    clearValidation ;;
    d <- getDOM ;;
    let due := f_dueDate (fields (form d)) in
    let desc := trim (f_description (fields (form d))) in
    ret (Some {| payload_title := title;
                 payload_description := if truthy_str desc then Some desc else None;
                 payload_priority := f_priority (fields (form d));
                 payload_due_date :=
                   if truthy_str due then Some (toISOString env due) else None |}).

Definition resetForm : JS unit :=
  setDOM (on_form (fun f => set_fields (defaults f) f)) ;;
  setDOM (on_form (set_taskId_value "")) ;;
  setState (set_editingId None) ;;
  setDOM (on_form (set_formHeading_text "Add New Task")) ;;
  setDOM (on_form (set_submitLabel_text "Create Task")) ;;
  setDOM (on_form (set_cancelEditBtn_hidden true)) ;;
  setDOM (on_form (set_formPanel_editing false)) ;;
  clearValidation.

(** [DOM.dueDate.value = v] *)
Definition set_dueDate_value (v : string) (f : Form) : Form :=
  set_fields {| f_title := f_title (fields f);
                f_description := f_description (fields f);
                f_priority := f_priority (fields f);
                f_dueDate := v |} f.

(** [populateForm(task)].  The conversion of the due date is not guarded:
    for a string that is not a date it throws after [editingId] and the
    first four controls have been written and before the rest is. *)
Definition populateForm (task : Task) : JS unit :=
  setState (set_editingId (Some (id task))) ;;
  setDOM (on_form (set_taskId_value (show_int (id task)))) ;;
  setDOM (on_form (fun f => set_fields
    {| f_title := title task;
       f_description := match description task with Some s => s | None => "" end;
       f_priority := priority task;
       f_dueDate := f_dueDate (fields f) |} f)) ;;
  match due_date task with
  | Some s =>
      if truthy_str s then
        match toLocalInput env s with
        | Some local => setDOM (on_form (set_dueDate_value local))
        | None => throw "Invalid time value"
        end
      else setDOM (on_form (set_dueDate_value ""))
  | None => setDOM (on_form (set_dueDate_value ""))
  end ;;
  setDOM (on_form (set_formHeading_text "Edit Task")) ;;
  setDOM (on_form (set_submitLabel_text "Save Changes")) ;;
  setDOM (on_form (set_cancelEditBtn_hidden false)) ;;
  setDOM (on_form (set_formPanel_editing true)) ;;
  setDOM (set_activeElement ElTitle).

Definition handleFormSubmit : JS unit :=
  payload <- readForm ;;
  match payload with
  | None => ret tt
  | Some payload =>
      setSubmitting true ;;
      try_finally
        (try_catch
           (st <- getState ;;
            let create :=
              apiCreateTask payload ;;
              showToast "Task created! ✓" "success" in
            (* [if (state.editingId)]: neither [null] nor the number 0 *)
            match editingId st with
            | Some i =>
                if (i =? 0)%Z then create
                else
                  apiUpdateTask i payload ;;
                  showToast "Task updated successfully! ✓" "success"
            | None => create
            end ;;
            resetForm ;;
            loadTasks)
           (fun err => showToast ("Error: " ++ err) "error"))
        (setSubmitting false)
  end.

(* ================================================================== *)
(** ** 8. Task list handlers and 9. the delete modal *)

Definition handleComplete (i : Z) : JS unit :=
  try_catch
    (apiCompleteTask i ;;
     showToast "Task marked as done! 🎉" "success" ;;
     loadTasks)
    (fun err => showToast ("Could not complete task: " ++ err) "error").

Definition handleEdit (i : Z) : JS unit :=
  st <- getState ;;
  match find (fun t => (id t =? i)%Z) (tasks st) with
  | None => showToast "Task not found in local state." "error"
  | Some task => populateForm task
  end.

Definition openDeleteModal (i : Z) : JS unit :=
  setState (set_pendingDeleteId (Some i)) ;;
  setDOM (set_confirmModal_show true).

Definition closeDeleteModal : JS unit :=
  setState (set_pendingDeleteId None) ;;
  setDOM (set_confirmModal_show false).

Definition confirmDelete : JS unit :=
  st <- getState ;;
  (* [if (!id) return]: [null] or the number 0 *)
  match pendingDeleteId st with
  | None => ret tt
  | Some i =>
      if (i =? 0)%Z then ret tt
      else
        closeDeleteModal ;;
        try_catch
          (apiDeleteTask i ;;
           showToast "Task deleted." "info" ;;
           loadTasks)
          (fun err => showToast ("Could not delete task: " ++ err) "error")
  end.

(** What a click inside the task list hits: for each of the three button
    classes, [Number(btn.dataset.id)] of the closest such button, if any. *)
Record ListClick := {
  completeBtn : option Z;
  editBtn : option Z;
  deleteBtn : option Z;
}.

Definition handleTaskListClick (e : ListClick) : JS unit :=
  match completeBtn e, editBtn e, deleteBtn e with
  | Some i, _, _ => handleComplete i
  | None, Some i, _ => handleEdit i
  | None, None, Some i => openDeleteModal i
  | None, None, None => ret tt
  end.

(* ================================================================== *)
(** ** 10. Filter handlers *)

(** The [forEach] over [DOM.filterPills], from position [j] on: the pill at
    position [k] becomes the only active one ([active = p === pill]). *)
Fixpoint togglePillsFrom (j k : nat) (ps : list Pill) : list Pill :=
  match ps with
  | [] => []
  | p :: ps' =>
      let active := Nat.eqb j k in
      {| filterStatus := filterStatus p; pill_active := active;
         aria_pressed := if active then "true" else "false" |}
      :: togglePillsFrom (S j) k ps'
  end%list.

Definition togglePills (k : nat) (ps : list Pill) : list Pill :=
  togglePillsFrom 0 k ps.

(** [pill] is the index in [DOM.filterPills] of the closest pill to the
    click target, if any. *)
Definition handleStatusPillClick (pill : option nat) : JS unit :=
  d <- getDOM ;;
  match pill with
  | None => ret tt
  | Some k =>
      match nth_error (filterPills d) k with
      | None => ret tt
      | Some p =>
          setState (set_activeStatus (filterStatus p)) ;;
          setDOM (fun d => set_filterPills (togglePills k (filterPills d)) d) ;;
          renderTaskList
      end
  end.

Definition handlePriorityFilterChange : JS unit :=
  d <- getDOM ;;
  setState (set_activePriority (priorityFilter_value d)) ;;
  renderTaskList.

(* ================================================================== *)
(** ** 12. Initialisation: the listeners wired by [init] *)

Inductive Field := FTitle | FDescription | FPriority | FDueDate.

Definition setField (fld : Field) (v : string) (x : FormFields) : FormFields :=
  match fld with
  | FTitle => {| f_title := v; f_description := f_description x;
                 f_priority := f_priority x; f_dueDate := f_dueDate x |}
  | FDescription => {| f_title := f_title x; f_description := v;
                       f_priority := f_priority x; f_dueDate := f_dueDate x |}
  | FPriority => {| f_title := f_title x; f_description := f_description x;
                    f_priority := v; f_dueDate := f_dueDate x |}
  | FDueDate => {| f_title := f_title x; f_description := f_description x;
                   f_priority := f_priority x; f_dueDate := v |}
  end.

(** The events the page reacts to. *)
Inductive Event :=
| DOMContentLoaded
| Submit                                  (* [submit] on the form *)
| CancelEditClick
| TaskListClick (e : ListClick)
| FilterPillsClick (pill : option nat)
| PriorityFilterChange (v : string)       (* the user selects [v] *)
| RefreshClick
| ModalCancelClick
| ModalConfirmClick
| ModalClick (onOverlay : bool)           (* [e.target === DOM.confirmModal] *)
| Input (fld : Field) (v : string)        (* the user edits a form control *)
| KeyDown (key : string).

Definition dispatch (ev : Event) : JS unit :=
  match ev with
  | DOMContentLoaded => loadTasks
  | Submit => handleFormSubmit
  | CancelEditClick => resetForm
  | TaskListClick e => handleTaskListClick e
  | FilterPillsClick pill => handleStatusPillClick pill
  | PriorityFilterChange v =>
      setDOM (set_priorityFilter_value v) ;;
      handlePriorityFilterChange
  | RefreshClick => loadTasks
  | ModalCancelClick => closeDeleteModal
  | ModalConfirmClick => confirmDelete
  | ModalClick onOverlay => if onOverlay then closeDeleteModal else ret tt
  | Input fld v =>
      setDOM (on_form (fun f => set_fields (setField fld v (fields f)) f)) ;;
      match fld with FTitle => clearValidation | _ => ret tt end
  | KeyDown key =>
      d <- getDOM ;;
      if (key =? "Escape") && negb (confirmModal_hidden d)
      then closeDeleteModal else ret tt
  end.

(** Running a sequence of events, each handler to completion. *)
Fixpoint run (evs : list Event) (w : World) : World :=
  match evs with
  | [] => w
  | ev :: evs' => run evs' (exec (dispatch ev) w)
  end%list.

End Handlers.

(* ================================================================== *)
(** ** A concrete page, used by the examples *)

Definition sample_env : Env :=
  {| BASE_URL := "http://127.0.0.1:8000";
     toLocaleDateString := fun s => s;
     isPast := fun _ => false;
     toISOString := fun s => s;
     toLocalInput := fun s => Some s |}.

Definition blank_fields : FormFields :=
  {| f_title := ""; f_description := ""; f_priority := "medium"; f_dueDate := "" |}.

Definition pill (s : string) (active : bool) : Pill :=
  {| filterStatus := s; pill_active := active;
     aria_pressed := if active then "true" else "false" |}.

(** The document before any listener has run. *)
Definition initial_dom : Dom :=
  {| form := {| taskId_value := ""; fields := blank_fields; defaults := blank_fields;
                title_invalid := false; titleError_text := "";
                titleError_hidden := true; submitBtn_disabled := false;
                submitLabel_text := "Create Task"; cancelEditBtn_hidden := true;
                formHeading_text := "Add New Task"; formPanel_editing := false |};
     listArea := {| taskList_innerHTML := ""; loading_hidden := true;
                    emptyState_hidden := true; taskCountBadge_text := "" |};
     filterPills := [pill "all" true; pill "todo" false; pill "in_progress" false;
                     pill "done" false];
     priorityFilter_value := "all";
     confirmModal_show := false;
     confirmModal_hidden := false;
     toastContainer := [];
     activeElement := ElOther |}.

(** The page at load time, facing a network that answers as scripted:
    request number [n] settles with the [n]-th outcome, and every request
    beyond the script is rejected. *)
Definition scripted (script : list Settled) : nat -> Settled :=
  fun n => nth n script (Rejected "Failed to fetch").

Definition page (script : list Settled) : World :=
  {| state := initial_state; DOM := initial_dom; sent := [];
     network := scripted script |}.

Definition task1 : Task :=
  {| id := 1; title := "A"; description := None; status := "todo";
     priority := "medium"; is_completed := false; due_date := None |}.

Definition task5 : Task :=
  {| id := 5; title := "Write <report>"; description := Some "Q3 & Q4";
     status := "in_progress"; priority := "high"; is_completed := false;
     due_date := None |}.

Definition ok (b : Body) : Settled :=
  Resolved {| res_status := 200; res_statusText := "OK"; res_json := Some b |}.

Definition listing (l : list Task) : Settled :=
  ok {| detail := None; data_tasks := Some l |}.

Definition unavailable : Settled :=
  Resolved {| res_status := 503; res_statusText := "Service Unavailable";
              res_json := None |}.

Definition not_found : Settled :=
  Resolved {| res_status := 404; res_statusText := "Not Found";
              res_json := Some {| detail := Some "Task not found";
                                  data_tasks := None |} |}.

(** A well-received response whose body is not JSON. *)
Definition garbled : Settled :=
  Resolved {| res_status := 200; res_statusText := "OK"; res_json := None |}.

Definition clickComplete (i : Z) : Event :=
  TaskListClick {| completeBtn := Some i; editBtn := None; deleteBtn := None |}.
Definition clickEdit (i : Z) : Event :=
  TaskListClick {| completeBtn := None; editBtn := Some i; deleteBtn := None |}.
Definition clickDelete (i : Z) : Event :=
  TaskListClick {| completeBtn := None; editBtn := None; deleteBtn := Some i |}.

(** The page after its initial load of two tasks, facing [script] next. *)
Definition loaded (script : list Settled) : World :=
  run sample_env [DOMContentLoaded] (page (listing [task1; task5] :: script)).

Definition created : Settled :=
  Resolved {| res_status := 201; res_statusText := "Created";
              res_json := Some emptyObject |}.

Definition taskB : Task :=
  {| id := 6; title := "B"; description := None; status := "todo";
     priority := "medium"; is_completed := false; due_date := None |}.

(** The user has typed the title B into the form of the loaded page. *)
Definition typing_B (script : list Settled) : World :=
  run sample_env [Input FTitle "B"] (loaded script).

(** The user has asked to delete task 5: the modal is open. *)
Definition confirming_5 (script : list Settled) : World :=
  run sample_env [clickDelete 5] (loaded script).

(* ================================================================== *)
(** ** Specification-side definitions *)

(** One pass doing the work of the five [replace] calls of [escHtml]. *)
Definition escChar (a : ascii) : string :=
  if Ascii.eqb a "&" then "&amp;"
  else if Ascii.eqb a "<" then "&lt;"
  else if Ascii.eqb a ">" then "&gt;"
  else if Ascii.eqb a "034" then "&quot;"
  else if Ascii.eqb a "'" then "&#39;"
  else String a "".

Fixpoint escape (s : string) : string :=
  match s with
  | "" => ""
  | String a s' => escChar a ++ escape s'
  end.

(** [s.startsWith(e)] *)
Fixpoint startsWith (e s : string) : bool :=
  match e with
  | "" => true
  | String a e' =>
      match s with
      | "" => false
      | String b s' => Ascii.eqb a b && startsWith e' s'
      end
  end.

(** Escaped text: no raw markup character, and every ampersand opens one of
    the five entities. *)
Fixpoint html_safe (s : string) : bool :=
  match s with
  | "" => true
  | String a s' =>
      negb (markup_char a)
      && (if Ascii.eqb a "&" then existsb (fun e => startsWith e s) entities else true)
      && html_safe s'
  end.

(** The card of [buildCard] around its two text holes: everything but the
    title and the description of the task, which come in as the markup
    [titleHtml] and [descHtml] put in their places. *)
Definition cardFrame (env : Env) (i : Z) (st pr : string) (done : bool)
                     (due : option string) (titleHtml descHtml : string) : string :=
  let sc := statusChip st in
  let pc := priorityChip pr in
  let doneClass := if done then " is-done" else "" in
  let dueTxt := formatDate env due in
  let overdueClass := if isOverdue env due && negb done then " overdue" else "" in
  "<li class=" ++ q ("task-card" ++ doneClass)
  ++ " data-task-id=" ++ q (show_int i) ++ " role=" ++ q "listitem" ++ ">" ++ nl
  ++ "      <div class=" ++ q "task-card-top" ++ ">" ++ nl
  ++ "        <h3 class=" ++ q "task-title" ++ ">"
  ++ titleHtml ++ "</h3>" ++ nl
  ++ "      </div>" ++ nl
  ++ nl
  ++ "      " ++ descHtml ++ nl
  ++ nl
  ++ "      <div class=" ++ q "task-meta" ++ ">" ++ nl
  ++ "        <span class=" ++ q ("chip " ++ cls sc) ++ ">" ++ label sc ++ "</span>" ++ nl
  ++ "        <span class=" ++ q ("chip " ++ cls pc) ++ ">" ++ label pc ++ "</span>" ++ nl
  ++ "        " ++ dueHtml dueTxt overdueClass ++ nl
  ++ "      </div>" ++ nl
  ++ nl
  ++ "      <div class=" ++ q "task-actions" ++ ">" ++ nl
  ++ "        "
  ++ (if negb done
      then actionButton "btn-ghost btn-complete" i "Mark complete"
             "Mark task complete" "✓ Complete" "               " "             "
      else "") ++ nl
  ++ "        "
  ++ actionButton "btn-ghost btn-edit" i "Edit task" "Edit task"
       "✏ Edit" "          " "        " ++ nl
  ++ "        "
  ++ actionButton "btn-danger btn-delete" i "Delete task" "Delete task"
       "🗑 Delete" "          " "        " ++ nl
  ++ "      </div>" ++ nl
  ++ "    </li>".

(** The paragraph of the description, around the escaped text. *)
Definition descriptionFrame (escaped : string) : string :=
  "<p class=" ++ q "task-description" ++ ">" ++ escaped ++ "</p>".

(** The number of markup characters ([<], [>], double quote, apostrophe) of
    a string. *)
Fixpoint markupCount (s : string) : nat :=
  match s with
  | "" => 0
  | String a s' => (if markup_char a then 1 else 0) + markupCount s'
  end%nat.

(** A string that [trimEnd] leaves alone and that is not empty. *)
Definition endsFirm (s : string) : Prop := trimEnd s = s /\ s <> "".

(** How the next request of a world will settle. *)
Definition next (w : World) : Settled := network w (List.length (sent w)).

(** What [fetchJSON] makes of a settled request. *)
Definition fetchResult (o : Settled) : Completion Body :=
  match o with
  | Rejected e => Throw e
  | Resolved res =>
      let data := match res_json res with Some b => b | None => emptyObject end in
      if res_ok res then Normal data else Throw (errorMessage res data)
  end.

(** A log entry: request [r] sent from world [w]. *)
Definition entry (r : Request) (w : World) : Sent :=
  {| request := r; state_at_send := state w; dom_at_send := DOM w |}.

(** The requests of the five API operations. *)
Definition listRequest (env : Env) (status priority : string) : Request :=
  {| req_method := "GET"; req_url := API.tasks env;
     req_query := listParams status priority; req_body := None |}.
Definition createRequest (env : Env) (p : Payload) : Request :=
  {| req_method := "POST"; req_url := API.tasks env; req_query := [];
     req_body := Some p |}.
Definition updateRequest (env : Env) (i : Z) (p : Payload) : Request :=
  {| req_method := "PUT"; req_url := API.task env i; req_query := [];
     req_body := Some p |}.
Definition completeRequest (env : Env) (i : Z) : Request :=
  {| req_method := "PATCH"; req_url := API.complete env i; req_query := [];
     req_body := None |}.
Definition deleteRequest (env : Env) (i : Z) : Request :=
  {| req_method := "DELETE"; req_url := API.task env i; req_query := [];
     req_body := None |}.

(** The list area as the user sees it. *)
Definition displayed (w : World) : string := taskList_innerHTML (listArea (DOM w)).
Definition displayed_at (s : Sent) : string :=
  taskList_innerHTML (listArea (dom_at_send s)).

(** A task matches a filter pair: the value [all] matches everything, any
    other value only the task whose field equals it. *)
Definition matchesFilters (statusFilter priorityFilter : string) (t : Task) : Prop :=
  (statusFilter = "all" \/ status t = statusFilter)
  /\ (priorityFilter = "all" \/ priority t = priorityFilter).

(** [selection P l v]: [v] is [l] with exactly the elements satisfying [P]
    kept, in their original order. *)
Inductive selection {A : Type} (P : A -> Prop) : list A -> list A -> Prop :=
| sel_nil : selection P [] []
| sel_keep x l v : P x -> selection P l v -> selection P (x :: l) (x :: v)
| sel_drop x l v : ~ P x -> selection P l v -> selection P (x :: l) v.

(** The requests sent between world [w] and a later world [w']. *)
Definition newEntries (w w' : World) : list Sent :=
  skipn (List.length (sent w)) (sent w').

(** The payload [readForm] builds from a form whose title is not blank. *)
Definition formPayload (env : Env) (d : Dom) : Payload :=
  let x := fields (form d) in
  {| payload_title := trim (f_title x);
     payload_description :=
       if truthy_str (trim (f_description x)) then Some (trim (f_description x))
       else None;
     payload_priority := f_priority x;
     payload_due_date :=
       if truthy_str (f_dueDate x) then Some (toISOString env (f_dueDate x))
       else None |}.

(** The five operations of the API client. *)
Inductive ApiCall :=
| GetTasks (status priority : string)
| CreateTask (payload : Payload)
| UpdateTask (i : Z) (payload : Payload)
| CompleteTask (i : Z)
| DeleteTask (i : Z).

Definition callApi (env : Env) (c : ApiCall) : JS Body :=
  match c with
  | GetTasks s p => apiGetTasks env s p
  | CreateTask p => apiCreateTask env p
  | UpdateTask i p => apiUpdateTask env i p
  | CompleteTask i => apiCompleteTask env i
  | DeleteTask i => apiDeleteTask env i
  end.

Definition requestOf (env : Env) (c : ApiCall) : Request :=
  match c with
  | GetTasks s p => listRequest env s p
  | CreateTask p => createRequest env p
  | UpdateTask i p => updateRequest env i p
  | CompleteTask i => completeRequest env i
  | DeleteTask i => deleteRequest env i
  end.

(** The user-initiated mutations and the events that start them. *)
Inductive Mutation :=
| SubmitForm
| CompleteItem (i : Z)
| ConfirmDelete.

Definition mutationEvent (m : Mutation) : Event :=
  match m with
  | SubmitForm => Submit
  | CompleteItem i => clickComplete i
  | ConfirmDelete => ModalConfirmClick
  end.

(** The mutation passes its local checks and reaches the network. *)
Definition attempted (m : Mutation) (w : World) : Prop :=
  match m with
  | SubmitForm => trim (f_title (fields (form (DOM w)))) <> ""
  | CompleteItem _ => True
  | ConfirmDelete => exists i, pendingDeleteId (state w) = Some i /\ i <> 0%Z
  end.

Definition failurePrefix (m : Mutation) : string :=
  match m with
  | SubmitForm => "Error: "
  | CompleteItem _ => "Could not complete task: "
  | ConfirmDelete => "Could not delete task: "
  end.

Definition successToast (m : Mutation) (w : World) : Toast :=
  match m with
  | SubmitForm =>
      toastOf (if truthy_num (editingId (state w))
               then "Task updated successfully! ✓" else "Task created! ✓") "success"
  | CompleteItem _ => toastOf "Task marked as done! 🎉" "success"
  | ConfirmDelete => toastOf "Task deleted." "info"
  end.


(** What a request sent while handling event [ev] from world [w] can be:
    a list load, sent with the list area cleared, or the request of a
    mutation, sent with the list area and the snapshot as they were. *)
Definition entryKind (env : Env) (ev : Event) (w : World) (s : Sent) : Prop :=
  (req_method (request s) = "GET" /\ displayed_at s = "")
  \/ (displayed_at s = displayed w
      /\ tasks (state_at_send s) = tasks (state w)
      /\ ((ev = Submit
           /\ (req_method (request s) = "POST" \/ req_method (request s) = "PUT"))
          \/ (exists e i, ev = TaskListClick e /\ completeBtn e = Some i
                          /\ request s = completeRequest env i)
          \/ (exists i, ev = ModalConfirmClick
                        /\ pendingDeleteId (state w) = Some i
                        /\ request s = deleteRequest env i))).

Definition sendsOnly (env : Env) (ev : Event) (w w' : World) : Prop :=
  exists news,
    sent w' = (sent w ++ news)%list
    /\ forall s, In s news -> entryKind env ev w s.

(** The mutation request fails. *)
Definition requestFailed (m : Mutation) (w w' : World) (e : string) : Prop :=
  (exists s, sent w' = (sent w ++ [s])%list /\ req_method (request s) <> "GET")
  /\ editingId (state w') = editingId (state w)
  /\ tasks (state w') = tasks (state w)
  /\ displayed w' = displayed w
  /\ toastContainer (DOM w')
     = (toastContainer (DOM w) ++ [toastOf (failurePrefix m ++ e) "error"])%list.

(** The mutation succeeds and its reload fails. *)
Definition reloadFailed (m : Mutation) (w w' : World) (e : string) : Prop :=
  tasks (state w') = tasks (state w)
  /\ displayed w' = ""
  /\ toastContainer (DOM w')
     = (toastContainer (DOM w)
        ++ [successToast m w; toastOf ("Failed to load tasks: " ++ e) "error"])%list.

(* ================================================================== *)
(** ** Further specification-side definitions *)

Definition present {A : Type} (o : option A) : bool :=
  match o with Some _ => true | None => false end.

(** The modal is shown exactly while a delete is pending. *)
Definition modalConsistent (w : World) : Prop :=
  confirmModal_show (DOM w) = present (pendingDeleteId (state w)).

(** The chrome of the form follows the presence of [editingId] (the number
    0 counts as present here, although a submit reads it as absent). *)
Definition formModeConsistent (w : World) : Prop :=
  formPanel_editing (form (DOM w)) = present (editingId (state w))
  /\ cancelEditBtn_hidden (form (DOM w)) = negb (present (editingId (state w)))
  /\ formHeading_text (form (DOM w))
     = (if present (editingId (state w)) then "Edit Task" else "Add New Task")
  /\ taskId_value (form (DOM w))
     = match editingId (state w) with Some i => show_int i | None => "" end.

(** No busy indicator is on: the submit button is enabled and the spinner
    hidden. *)
Definition idle (w : World) : Prop :=
  submitBtn_disabled (form (DOM w)) = false
  /\ loading_hidden (listArea (DOM w)) = true.

(** The two events that change a filter. *)
Definition isFilterEvent (ev : Event) : bool :=
  match ev with
  | FilterPillsClick _ | PriorityFilterChange _ => true
  | _ => false
  end.

(** The tasks a list response carries ([res.data?.tasks ?? []]). *)
Definition tasksOf (b : Body) : list Task :=
  match data_tasks b with Some l => l | None => [] end.



(** A string without any of the five characters [escHtml] replaces. *)
Fixpoint plainText (s : string) : bool :=
  match s with
  | "" => true
  | String a s' => negb (Ascii.eqb a "&") && negb (markup_char a) && plainText s'
  end.

(** A mutation and its reload both succeeded: what the page holds then. *)
Definition synchronised (env : Env) (m : Mutation) (w w' : World) (b' : Body) : Prop :=
  tasks (state w') = tasksOf b'
  /\ displayed w' = join (map (buildCard env) (filter (filterOk (state w)) (tasksOf b')))
  /\ toastContainer (DOM w') = (toastContainer (DOM w) ++ [successToast m w])%list
  /\ loading_hidden (listArea (DOM w')) = true
  /\ activeStatus (state w') = activeStatus (state w)
  /\ activePriority (state w') = activePriority (state w).

(** What the handlers of the list and of the form never touch of the
    filters and of the gate. *)
Definition sameFiltersAndGate (w w' : World) : Prop :=
  activeStatus (state w') = activeStatus (state w)
  /\ activePriority (state w') = activePriority (state w)
  /\ filterPills (DOM w') = filterPills (DOM w)
  /\ pendingDeleteId (state w') = pendingDeleteId (state w)
  /\ confirmModal_show (DOM w') = confirmModal_show (DOM w).

(** The form controller and its controls are as they were. *)
Definition sameForm (w w' : World) : Prop :=
  editingId (state w') = editingId (state w)
  /\ form (DOM w') = form (DOM w).

(** The spinner is hidden afterwards if it was hidden before. *)
Definition spinnerReleased (w w' : World) : Prop :=
  loading_hidden (listArea (DOM w)) = true ->
  loading_hidden (listArea (DOM w')) = true.

(** What a form submit leaves behind: the gate and the filters are left
    alone, the submit button ends enabled, and the mode either stays with
    its controls or is reset to Create. *)
Definition submitKeeps (w w' : World) : Prop :=
  sameFiltersAndGate w w'
  /\ spinnerReleased w w'
  /\ (submitBtn_disabled (form (DOM w)) = false ->
      submitBtn_disabled (form (DOM w')) = false)
  /\ ((editingId (state w') = editingId (state w)
       /\ formPanel_editing (form (DOM w')) = formPanel_editing (form (DOM w))
       /\ cancelEditBtn_hidden (form (DOM w')) = cancelEditBtn_hidden (form (DOM w))
       /\ formHeading_text (form (DOM w')) = formHeading_text (form (DOM w))
       /\ taskId_value (form (DOM w')) = taskId_value (form (DOM w)))
      \/ (editingId (state w') = None
          /\ formPanel_editing (form (DOM w')) = false
          /\ cancelEditBtn_hidden (form (DOM w')) = true
          /\ formHeading_text (form (DOM w')) = "Add New Task"
          /\ taskId_value (form (DOM w')) = "")).

(** The view of a task list under a pair of filter values. *)
Definition viewOf (statusFilter priorityFilter : string) (l : list Task) : list Task :=
  filter (filterOk {| tasks := l; activeStatus := statusFilter;
                      activePriority := priorityFilter;
                      editingId := None; pendingDeleteId := None |}) l.

(** The value [populateForm] computes for the due-date control of a task;
    [None] when the conversion throws. *)
Definition localInput (env : Env) (t : Task) : option string :=
  match due_date t with
  | Some s => if s =? "" then Some "" else toLocalInput env s
  | None => Some ""
  end.

(** The values [populateForm] puts into the form controls for a task, the
    due-date control holding [due]. *)
Definition fieldsOf (t : Task) (due : string) : FormFields :=
  {| f_title := title t;
     f_description := match description t with Some s => s | None => "" end;
     f_priority := priority t;
     f_dueDate := due |}.

(** The event is a click on the edit button of a task of the snapshot whose
    due date does not convert. *)
Definition editFails (env : Env) (ev : Event) (w : World) : bool :=
  match ev with
  | TaskListClick e =>
      match completeBtn e, editBtn e with
      | None, Some i =>
          match find (fun t => (id t =? i)%Z) (tasks (state w)) with
          | Some t => negb (present (localInput env t))
          | None => false
          end
      | _, _ => false
      end
  | _ => false
  end.

(** No event of the sequence is such a click. *)
Fixpoint editsConvert (env : Env) (evs : list Event) (w : World) : bool :=
  match evs with
  | [] => true
  | ev :: evs' =>
      negb (editFails env ev w) && editsConvert env evs' (exec (dispatch env ev) w)
  end.

(** A host that takes no string for a date, and a task with a due date. *)
Definition dateless_env : Env :=
  {| BASE_URL := "http://127.0.0.1:8000";
     toLocaleDateString := fun _ => "Invalid Date";
     isPast := fun _ => false;
     toISOString := fun s => s;
     toLocalInput := fun _ => None |}.

Definition task7 : Task :=
  {| id := 7; title := "C"; description := Some "c"; status := "todo";
     priority := "high"; is_completed := false; due_date := Some "soon" |}.

(** The dateless page after its initial load of that task, the user having
    typed a due date into the form. *)
Definition dateless_page : World :=
  run dateless_env [DOMContentLoaded; Input FDueDate "2030-01-01T10:00"]
    (page [listing [task7]]).

(** A list request, as opposed to a mutation request. *)
Definition isGet (s : Sent) : bool := req_method (request s) =? "GET".

(** The requests one event may cause: nothing, one list request, or one
    mutation request followed by at most one list request. *)
Definition traffic (news : list Sent) : Prop :=
  news = []
  \/ (exists g, news = [g] /\ isGet g = true)
  \/ (exists s, news = [s] /\ isGet s = false)
  \/ (exists s g, news = [s; g] /\ isGet s = false /\ isGet g = true).

(** The request a valid submit sends first. *)
Definition submitRequest (env : Env) (w : World) : Request :=
  match editingId (state w) with
  | Some i => if (i =? 0)%Z then createRequest env (formPayload env (DOM w))
              else updateRequest env i (formPayload env (DOM w))
  | None => createRequest env (formPayload env (DOM w))
  end.


(** A task with the id 0 is being edited. *)
Definition task0 : Task :=
  {| id := 0; title := "Z"; description := None; status := "todo";
     priority := "low"; is_completed := false; due_date := None |}.

Definition editing_zero : World :=
  run sample_env [DOMContentLoaded; clickEdit 0] (page [listing [task0]; created]).


(** Between [w] and [w'] the snapshot is kept, or it is the task list of a
    successful answer to a list request sent in between, the last request
    sent. *)
Definition snapshotFrom (w w' : World) : Prop :=
  tasks (state w') = tasks (state w)
  \/ exists pre g b,
       sent w' = (pre ++ [g])%list
       /\ (List.length (sent w) <= List.length pre)%nat
       /\ isGet g = true
       /\ fetchResult (network w (List.length pre)) = Normal b
       /\ tasks (state w') = tasksOf b.

(** The validation message is shown exactly while the title is marked. *)
Definition validationConsistent (w : World) : Prop :=
  titleError_hidden (form (DOM w)) = negb (title_invalid (form (DOM w))).

(** The list on screen is blank or shows the cards of the snapshot's tasks
    that pass the filters. *)
Definition viewConsistent (env : Env) (w : World) : Prop :=
  displayed w = ""
  \/ displayed w = join (map (buildCard env) (filtered (state w))).

(* ================================================================== *)
(** * Properties *)

(* ================================================================== *)
(** ** Strings and escaping *)

Lemma append_assoc (a b c : string) : (a ++ b) ++ c = a ++ (b ++ c).
Proof. induction a as [|x a IH]; simpl; [reflexivity | now rewrite IH]. Qed.

Lemma append_nil_r (a : string) : a ++ "" = a.
Proof. induction a as [|x a IH]; simpl; [reflexivity | now rewrite IH]. Qed.

Lemma replaceAll_app c r s1 s2 :
  replaceAll c r (s1 ++ s2) = replaceAll c r s1 ++ replaceAll c r s2.
Proof.
  induction s1 as [|a s1 IH]; simpl; [reflexivity|].
  now rewrite IH, append_assoc.
Qed.

Lemma replace_chain_cons a s :
  replaceAll "'" "&#39;" (replaceAll "034" "&quot;" (replaceAll ">" "&gt;"
    (replaceAll "<" "&lt;" (replaceAll "&" "&amp;" (String a s)))))
  = escChar a ++
    replaceAll "'" "&#39;" (replaceAll "034" "&quot;" (replaceAll ">" "&gt;"
      (replaceAll "<" "&lt;" (replaceAll "&" "&amp;" s)))).
Proof.
  cbn [replaceAll]. rewrite !replaceAll_app. f_equal.
  unfold escChar.
  destruct (Ascii.eqb a "&") eqn:E1; [reflexivity|].
  cbn [replaceAll]. rewrite append_nil_r.
  destruct (Ascii.eqb a "<") eqn:E2; [reflexivity|].
  cbn [replaceAll]. rewrite append_nil_r.
  destruct (Ascii.eqb a ">") eqn:E3; [reflexivity|].
  cbn [replaceAll]. rewrite append_nil_r.
  destruct (Ascii.eqb a "034") eqn:E4; [reflexivity|].
  cbn [replaceAll]. rewrite append_nil_r.
  destruct (Ascii.eqb a "'") eqn:E5; reflexivity.
Qed.

Lemma replace_chain_escape s :
  replaceAll "'" "&#39;" (replaceAll "034" "&quot;" (replaceAll ">" "&gt;"
    (replaceAll "<" "&lt;" (replaceAll "&" "&amp;" s)))) = escape s.
Proof.
  induction s as [|a s IH]; [reflexivity|].
  rewrite replace_chain_cons, IH. reflexivity.
Qed.

Lemma escHtml_escape s : escHtml (Some s) = escape s.
Proof.
  unfold escHtml, truthy_str. destruct s as [|a s]; [reflexivity|].
  cbn [String.eqb negb]. apply replace_chain_escape.
Qed.

Lemma html_safe_escape s : html_safe (escape s) = true.
Proof.
  induction s as [|a s IH]; [reflexivity|].
  cbn [escape]. unfold escChar.
  destruct (Ascii.eqb a "&") eqn:E1; [cbn; now rewrite IH|].
  destruct (Ascii.eqb a "<") eqn:E2; [cbn; now rewrite IH|].
  destruct (Ascii.eqb a ">") eqn:E3; [cbn; now rewrite IH|].
  destruct (Ascii.eqb a "034") eqn:E4; [cbn; now rewrite IH|].
  destruct (Ascii.eqb a "'") eqn:E5; [cbn; now rewrite IH|].
  cbn [append html_safe]. unfold markup_char.
  now rewrite E1, E2, E3, E4, E5, IH.
Qed.

Lemma html_safe_suffix pre s : html_safe (pre ++ s) = true -> html_safe s = true.
Proof.
  induction pre as [|a pre IH]; [trivial|].
  cbn [append html_safe]. intros H.
  apply andb_true_iff in H. apply IH, H.
Qed.

Lemma startsWith_split e s : startsWith e s = true -> exists rest, s = e ++ rest.
Proof.
  revert s. induction e as [|a e IH]; intros s H.
  - now exists s.
  - destruct s as [|b s]; [discriminate|]. cbn in H.
    apply andb_true_iff in H. destruct H as [Hab H].
    apply Ascii.eqb_eq in Hab. subst b.
    destruct (IH _ H) as [rest ->]. now exists rest.
Qed.

Lemma escape_nonempty a s : escape (String a s) <> "".
Proof.
  cbn [escape]. unfold escChar.
  repeat match goal with |- context [if ?b then _ else _] => destruct b end;
    discriminate.
Qed.

Lemma escHtml_empty_iff d : escHtml d = "" <-> truthy_opt_str d = false.
Proof.
  destruct d as [s|]; [|split; reflexivity].
  rewrite escHtml_escape. destruct s as [|a s]; [split; reflexivity|].
  split; [intros H; now apply escape_nonempty in H | discriminate].
Qed.




Lemma endsFirm_app s t : endsFirm t -> endsFirm (s ++ t).
Proof.
  intros [Ht Hn]. induction s as [|a s [IH1 IH2]]; [split; assumption|].
  split; [|discriminate].
  cbn [append trimEnd]. rewrite IH1.
  destruct (s ++ t) as [|b r] eqn:E; [now elim IH2|].
  cbn [String.eqb]. now rewrite andb_false_r.
Qed.

Lemma endsFirm_close : endsFirm "    </li>".
Proof. split; [reflexivity | discriminate]. Qed.

Lemma trim_template rest :
  endsFirm rest -> trim (nl ++ "    <li class=" ++ rest) = "<li class=" ++ rest.
Proof.
  intros H. unfold trim.
  change (trimStart (nl ++ "    <li class=" ++ rest)) with ("<li class=" ++ rest).
  now apply (endsFirm_app "<li class=").
Qed.

Lemma buildCard_frame env t :
  buildCard env t
  = cardFrame env (id t) (status t) (priority t) (is_completed t) (due_date t)
      (escHtml (Some (title t)))
      (if truthy_opt_str (description t)
       then descriptionFrame (escHtml (description t)) else "").
Proof.
  unfold buildCard, cardFrame, descriptionHtml, descriptionFrame. cbv zeta.
  apply trim_template.
  repeat apply endsFirm_app. exact endsFirm_close.
Qed.

Lemma markupCount_app s t : markupCount (s ++ t) = (markupCount s + markupCount t)%nat.
Proof.
  induction s as [|a s IH]; [reflexivity|].
  cbn [append markupCount]. rewrite IH. apply Nat.add_assoc.
Qed.

Lemma markupCount_safe s : html_safe s = true -> markupCount s = 0%nat.
Proof.
  induction s as [|a s IH]; [reflexivity|]. cbn [html_safe markupCount].
  intros H. apply andb_true_iff in H. destruct H as [H Hs].
  apply andb_true_iff in H. destruct H as [Hm _].
  apply negb_true_iff in Hm. rewrite Hm. now apply IH.
Qed.

Lemma markupCount_escHtml d : markupCount (escHtml d) = 0%nat.
Proof.
  destruct d as [s|]; [|reflexivity].
  rewrite escHtml_escape. apply markupCount_safe, html_safe_escape.
Qed.

Lemma markupCount_card env t t' :
  id t = id t' -> status t = status t' -> priority t = priority t' ->
  is_completed t = is_completed t' -> due_date t = due_date t' ->
  truthy_opt_str (description t) = truthy_opt_str (description t') ->
  markupCount (buildCard env t) = markupCount (buildCard env t').
Proof.
  intros Hi Hs Hp Hc Hd Ht. rewrite !buildCard_frame, Hi, Hs, Hp, Hc, Hd, Ht.
  unfold cardFrame, descriptionFrame. cbv zeta.
  destruct (truthy_opt_str (description t'));
    rewrite !markupCount_app, !markupCount_escHtml; reflexivity.
Qed.

(** C10. [escHtml] never leaves a raw [<], [>], double quote or apostrophe in
    its output, every ampersand of the output starts one of the five entities
    it produces, and a falsy argument gives the empty string.  The user
    controlled strings put into markup go through it: the toast built by
    [showToast] holds [escHtml(message)]; the card built by [buildCard] is
    the frame of the card with [escHtml(title)] in the heading and, for a
    description that is not empty, the paragraph around
    [escHtml(description)], so that the number of markup characters of a
    card depends neither on the title nor on the text of the
    description. *)
Theorem escHtml_output_safe_and_used :
  (forall str pre a post,
      escHtml str = pre ++ String a post ->
      markup_char a = false /\
      (a = "&"%char -> exists e rest, In e entities /\ String a post = e ++ rest))
  /\ (forall str, truthy_opt_str str = false -> escHtml str = "")
  /\ (forall message type w,
        toastContainer (DOM (exec (showToast message type) w))
        = (toastContainer (DOM w) ++ [toastOf message type])%list
        /\ toast_innerHTML (toastOf message type)
           = "<span class=" ++ q "toast-icon" ++ ">" ++ toastIcon type ++ "</span>"
             ++ escHtml (Some message))
  /\ (forall env t,
        buildCard env t
        = cardFrame env (id t) (status t) (priority t) (is_completed t) (due_date t)
            (escHtml (Some (title t)))
            (if truthy_opt_str (description t)
             then descriptionFrame (escHtml (description t)) else ""))
  /\ (forall env t t',
        id t = id t' -> status t = status t' -> priority t = priority t' ->
        is_completed t = is_completed t' -> due_date t = due_date t' ->
        truthy_opt_str (description t) = truthy_opt_str (description t') ->
        markupCount (buildCard env t) = markupCount (buildCard env t')).
Proof.
  split; [|split; [|split; [|split]]].
  - intros str pre a post H.
    assert (S : html_safe (String a post) = true).
    { apply html_safe_suffix with (pre := pre). rewrite <- H.
      destruct str as [s|]; [|reflexivity].
      rewrite escHtml_escape. apply html_safe_escape. }
    cbn [html_safe] in S.
    apply andb_true_iff in S. destruct S as [S _].
    apply andb_true_iff in S. destruct S as [S1 S2].
    split; [now apply negb_true_iff in S1|].
    intros ->. cbn [Ascii.eqb Bool.eqb] in S2.
    apply existsb_exists in S2. destruct S2 as [e [He Hp]].
    apply startsWith_split in Hp. destruct Hp as [rest Hr].
    now exists e, rest.
  - intros str H. now apply escHtml_empty_iff.
  - intros message type w. split; reflexivity.
  - exact buildCard_frame.
  - exact markupCount_card.
Qed.

Lemma escHtml_output_safe_and_used_witness :
  escHtml (Some "a<b & 'c'") = "a&lt;b &amp; &#39;c&#39;"
  /\ buildCard sample_env task5
     = cardFrame sample_env 5 "in_progress" "high" false None
         "Write &lt;report&gt;" (descriptionFrame "Q3 &amp; Q4")
  /\ markupCount (buildCard sample_env task5)
     = markupCount
         (buildCard sample_env
            {| id := 5; title := "Write report"; description := Some "Q3";
               status := "in_progress"; priority := "high"; is_completed := false;
               due_date := None |}).
Proof.
  destruct escHtml_output_safe_and_used as (_ & _ & _ & F & M).
  split; [reflexivity|]. split; [exact (F sample_env task5)|].
  apply M; reflexivity.
Defined.

(* ================================================================== *)
(** ** Running handlers *)

Lemma fetchJSON_run method url query body w :
  fetchJSON method url query body w
  = (fetchResult (next w),
     logged {| req_method := method; req_url := url; req_query := query;
               req_body := body |} w).
Proof.
  unfold fetchJSON, bind, fetch, fetchResult, next.
  destruct (network w (List.length (sent w))) as [e|res]; [reflexivity|].
  destruct (res_ok res); reflexivity.
Qed.

(** Reduction of the monad's plumbing, of the synchronous updates and of the
    helpers built from them, on a world given by its four components. *)
Ltac js_step :=
  cbv beta iota zeta delta
    [bind try_catch try_finally setDOM setState getState getDOM ret throw
     exec logged next entry state DOM sent network fst snd
     loadTasks apiGetTasks apiCreateTask apiUpdateTask apiCompleteTask
     apiDeleteTask setLoading setSubmitting showToast renderTaskList
     clearValidation resetForm closeDeleteModal openDeleteModal].

Ltac js_step_in H :=
  cbv beta iota zeta delta
    [bind try_catch try_finally setDOM setState getState getDOM ret throw
     exec logged next entry state DOM sent network fst snd
     loadTasks apiGetTasks apiCreateTask apiUpdateTask apiCompleteTask
     apiDeleteTask setLoading setSubmitting showToast renderTaskList
     clearValidation resetForm closeDeleteModal openDeleteModal] in H.

Ltac js_run := js_step; repeat (rewrite fetchJSON_run; js_step).

(** The paths through [handleEdit]: the task is found and [populateForm]
    completes (three ways) or throws, or the task is missing. *)
Ltac js_edit :=
  unfold handleEdit, populateForm; js_step;
  match goal with
  | |- context [find ?f ?l] =>
      let task := fresh "task" in
      let due := fresh "due" in
      destruct (find f l) as [task|];
      [ destruct (due_date task) as [due|];
        [ destruct (truthy_str due);
          [ match goal with
            | |- context [toLocalInput ?e due] => destruct (toLocalInput e due)
            end | ] | ];
        js_step
      | ]
  end.

(** Case analysis on how the pending request settles. *)
Ltac js_settle :=
  match goal with
  | |- context [fetchResult ?o] => destruct (fetchResult o) eqn:?
  end; js_run.

Lemma newEntries_app w w' news :
  sent w' = (sent w ++ news)%list -> newEntries w w' = news.
Proof.
  intros H. unfold newEntries. rewrite H.
  rewrite skipn_app, skipn_all, Nat.sub_diag. reflexivity.
Qed.


(** Reduction of field reads over field updates. *)
Ltac dom_simpl :=
  unfold displayed, displayed_at;
  cbn [tasks activeStatus activePriority editingId pendingDeleteId
       set_tasks set_activeStatus set_activePriority set_editingId set_pendingDeleteId
       taskId_value fields defaults title_invalid titleError_text titleError_hidden
       submitBtn_disabled submitLabel_text cancelEditBtn_hidden formHeading_text
       formPanel_editing
       set_taskId_value set_fields set_dueDate_value set_title_invalid
       set_titleError_text
       set_titleError_hidden set_submitBtn_disabled set_submitLabel_text
       set_cancelEditBtn_hidden set_formHeading_text set_formPanel_editing
       taskList_innerHTML loading_hidden emptyState_hidden taskCountBadge_text
       set_taskList_innerHTML set_loading_hidden set_emptyState_hidden
       set_taskCountBadge_text
       form listArea filterPills priorityFilter_value confirmModal_show
       confirmModal_hidden toastContainer activeElement
       set_form set_listArea set_filterPills set_priorityFilter_value
       set_confirmModal_show set_toastContainer set_activeElement
       on_form on_listArea request state_at_send dom_at_send
       state DOM sent network].

Ltac dom_simpl_in H :=
  unfold displayed, displayed_at in H;
  cbn [tasks activeStatus activePriority editingId pendingDeleteId
       set_tasks set_activeStatus set_activePriority set_editingId set_pendingDeleteId
       taskId_value fields defaults title_invalid titleError_text titleError_hidden
       submitBtn_disabled submitLabel_text cancelEditBtn_hidden formHeading_text
       formPanel_editing
       set_taskId_value set_fields set_dueDate_value set_title_invalid
       set_titleError_text
       set_titleError_hidden set_submitBtn_disabled set_submitLabel_text
       set_cancelEditBtn_hidden set_formHeading_text set_formPanel_editing
       taskList_innerHTML loading_hidden emptyState_hidden taskCountBadge_text
       set_taskList_innerHTML set_loading_hidden set_emptyState_hidden
       set_taskCountBadge_text
       form listArea filterPills priorityFilter_value confirmModal_show
       confirmModal_hidden toastContainer activeElement
       set_form set_listArea set_filterPills set_priorityFilter_value
       set_confirmModal_show set_toastContainer set_activeElement
       on_form on_listArea request state_at_send dom_at_send
       state DOM sent network] in H.

(* ================================================================== *)
(** ** The rendered view *)

Lemma filterOk_matches st t :
  filterOk st t = true <-> matchesFilters (activeStatus st) (activePriority st) t.
Proof.
  unfold filterOk, matchesFilters.
  rewrite andb_true_iff, !orb_true_iff, !String.eqb_eq. tauto.
Qed.

Lemma selection_filter {A} (P : A -> Prop) (f : A -> bool) (l : list A) :
  (forall x, f x = true <-> P x) -> selection P l (filter f l).
Proof.
  intros Hf. induction l as [|x l IH]; cbn [filter]; [constructor|].
  destruct (f x) eqn:E.
  - apply sel_keep; [now apply Hf | exact IH].
  - apply sel_drop; [|exact IH]. intros HP. apply Hf in HP. congruence.
Qed.

Lemma selection_unique {A} (P : A -> Prop) (l v v' : list A) :
  selection P l v -> selection P l v' -> v = v'.
Proof.
  intros H. revert v'. induction H as [|x l v Hx H IH|x l v Hx H IH]; intros v' H'.
  - now inversion H'.
  - inversion H'; subst; [f_equal; now apply IH | contradiction].
  - inversion H'; subst; [contradiction | now apply IH].
Qed.

(** C1. For every task list and every pair of active filters, the view that
    [renderTaskList] derives and renders is exactly the tasks of the
    in-memory list that match both filters (the value [all] matching
    unconditionally, any other value by equality with the field), in their
    original relative order. *)
Theorem renderTaskList_view :
  forall env w,
    let sf := activeStatus (state w) in
    let pf := activePriority (state w) in
    selection (matchesFilters sf pf) (tasks (state w)) (filtered (state w))
    /\ (forall v, selection (matchesFilters sf pf) (tasks (state w)) v ->
                  v = filtered (state w))
    /\ displayed (exec (renderTaskList env) w)
       = join (map (buildCard env) (filtered (state w)))
    /\ state (exec (renderTaskList env) w) = state w.
Proof.
  intros env w sf pf.
  assert (S : selection (matchesFilters sf pf) (tasks (state w)) (filtered (state w))).
  { apply selection_filter. intros t. apply filterOk_matches. }
  split; [exact S|]. split; [|split; reflexivity].
  intros v Hv. exact (selection_unique _ _ _ _ Hv S).
Qed.

(* ================================================================== *)
(** ** The API client *)

Lemma listParams_cases s p :
  listParams s p
  = ((if (s =? "") || (s =? "all") then [] else [("status", s)])
     ++ (if (p =? "") || (p =? "all") then [] else [("priority", p)]))%list.
Proof.
  unfold listParams, truthy_str.
  destruct (s =? ""), (s =? "all"), (p =? ""), (p =? "all"); reflexivity.
Qed.

(** C8. For every pair of filter values (every filter value of the data
    model is a non-empty string), the list request carries the parameter
    [status] iff the status filter is not [all], with the filter value as
    its value, likewise for [priority], and no parameter has the value
    [all]. *)
Theorem apiGetTasks_query :
  forall env w s p,
    s <> "" -> p <> "" ->
    exists e,
      sent (exec (apiGetTasks env s p) w) = (sent w ++ [e])%list
      /\ req_method (request e) = "GET"
      /\ (forall v, In ("status", v) (req_query (request e)) <-> s <> "all" /\ v = s)
      /\ (forall v, In ("priority", v) (req_query (request e)) <-> p <> "all" /\ v = p)
      /\ (forall k, ~ In (k, "all") (req_query (request e))).
Proof.
  intros env w s p Hs Hp.
  exists (entry (listRequest env s p) w).
  split; [unfold exec, apiGetTasks; rewrite fetchJSON_run; reflexivity|].
  cbn [entry request listRequest req_method req_query].
  split; [reflexivity|].
  rewrite listParams_cases.
  apply String.eqb_neq in Hs, Hp. rewrite Hs, Hp. cbn [orb].
  destruct (String.eqb_spec s "all") as [->|Ns];
    destruct (String.eqb_spec p "all") as [->|Np];
    cbn [app In]; repeat split; try intros v; try intros k; unfold not; intros;
    repeat match goal with
           | H : _ \/ _ |- _ => destruct H
           | H : _ /\ _ |- _ => destruct H
           | H : False |- _ => destruct H
           | H : (_, _) = (_, _) |- _ => injection H as ? ?; subst
           end;
    try congruence; try discriminate; subst; auto.
Qed.

Lemma apiGetTasks_query_witness :
  exists e,
    sent (exec (apiGetTasks sample_env "todo" "all") (page [])) = [e]
    /\ In ("status", "todo") (req_query (request e))
    /\ ~ In ("priority", "all") (req_query (request e)).
Proof.
  destruct (apiGetTasks_query sample_env (page []) "todo" "all")
    as (e & Hs & _ & Hst & _ & Hall); [discriminate | discriminate |].
  exists e. split; [exact Hs|]. split; [|apply Hall].
  apply Hst. split; [discriminate | reflexivity].
Defined.

Lemma callApi_run env c w :
  callApi env c w = (fetchResult (next w), logged (requestOf env c) w).
Proof.
  destruct c; cbn [callApi];
    unfold apiGetTasks, apiCreateTask, apiUpdateTask, apiCompleteTask, apiDeleteTask;
    apply fetchJSON_run.
Qed.

(** C5, as the code has it.  Every API operation sends exactly one request.
    It fails exactly when the request is rejected by the transport (with the
    transport's message) or the HTTP status is outside 200..299; a body that
    is not well-formed JSON is read as the empty object and never causes a
    failure by itself.  On a non-2xx status the message is the body's
    [detail] when that is present and non-empty, and the generic
    HTTP status line otherwise; on a 2xx status the operation returns the
    decoded body, or the empty object when the body is malformed. *)
Theorem api_operation_outcome :
  forall env c w,
    snd (callApi env c w) = logged (requestOf env c) w
    /\ sent (snd (callApi env c w)) = (sent w ++ [entry (requestOf env c) w])%list
    /\ match next w with
       | Rejected e => fst (callApi env c w) = Throw e
       | Resolved res =>
           let generic :=
             "HTTP " ++ show_int (res_status res) ++ ": " ++ res_statusText res in
           if ((200 <=? res_status res) && (res_status res <=? 299))%Z then
             fst (callApi env c w)
             = Normal (match res_json res with Some b => b | None => emptyObject end)
           else
             fst (callApi env c w)
             = Throw (match res_json res with
                      | Some b =>
                          match detail b with
                          | Some d => if d =? "" then generic else d
                          | None => generic
                          end
                      | None => generic
                      end)
       end.
Proof.
  intros env c w. rewrite callApi_run. cbn [fst snd].
  split; [reflexivity|]. split; [reflexivity|].
  unfold fetchResult. destruct (next w) as [e|res]; [reflexivity|].
  cbv zeta. unfold res_ok, errorMessage, genericMessage, truthy_str.
  destruct ((200 <=? res_status res) && (res_status res <=? 299))%Z; [reflexivity|].
  destruct (res_json res) as [b|]; [|reflexivity].
  destruct (detail b) as [d|]; [|reflexivity].
  destruct (d =? ""); reflexivity.
Qed.

(** C5 as stated fails: a 200 response whose body is not well-formed JSON
    does not make the wrapper fail; it returns the empty object. *)
Lemma malformed_body_is_not_an_error :
  garbled = Resolved {| res_status := 200; res_statusText := "OK"; res_json := None |}
  /\ fst (apiGetTasks sample_env "all" "all" (page [garbled])) = Normal emptyObject
  /\ ~ (exists e, fst (apiGetTasks sample_env "all" "all" (page [garbled])) = Throw e).
Proof.
  split; [reflexivity|]. split; [reflexivity|].
  intros [e H]. discriminate H.
Qed.

(* ================================================================== *)
(** ** The form controller *)

Lemma readForm_blank env w :
  trim (f_title (fields (form (DOM w)))) = "" ->
  readForm env w
  = (Normal None,
     exec (setDOM (set_activeElement ElTitle))
       (exec (setDOM (on_form (set_titleError_hidden false)))
          (exec (setDOM (on_form (set_titleError_text "Title is required.")))
             (exec (setDOM (on_form (set_title_invalid true))) w)))).
Proof.
  intros H. destruct w as [st d snt net]. cbn [DOM] in H.
  unfold readForm. js_step. rewrite H. reflexivity.
Qed.

Lemma readForm_valid env w :
  trim (f_title (fields (form (DOM w)))) <> "" ->
  readForm env w = (Normal (Some (formPayload env (DOM w))), exec clearValidation w).
Proof.
  intros H. destruct w as [st d snt net]. cbn [DOM] in H.
  unfold readForm, formPayload. js_step.
  apply String.eqb_neq in H. unfold truthy_str at 1. rewrite H. cbn [negb].
  js_run. reflexivity.
Qed.

(** C4. Submitting the form while the title is empty after trimming sends no
    request, leaves the state (the mode and [editingId] included) unchanged,
    marks the title field invalid, shows the field error and gives the title
    field the focus. *)
Theorem blank_title_blocks_submission :
  forall env w,
    trim (f_title (fields (form (DOM w)))) = "" ->
    let w' := exec (handleFormSubmit env) w in
    sent w' = sent w
    /\ state w' = state w
    /\ title_invalid (form (DOM w')) = true
    /\ titleError_hidden (form (DOM w')) = false
    /\ titleError_text (form (DOM w')) = "Title is required."
    /\ activeElement (DOM w') = ElTitle
    /\ fields (form (DOM w')) = fields (form (DOM w)).
Proof.
  intros env w H w'. subst w'.
  unfold handleFormSubmit, exec, bind. rewrite (readForm_blank env w H).
  repeat split.
Qed.

Lemma blank_title_blocks_submission_witness :
  trim (f_title (fields (form (DOM (run sample_env [Input FTitle "   "] (page [])))))) = ""
  /\ sent (exec (handleFormSubmit sample_env)
             (run sample_env [Input FTitle "   "] (page []))) = []
  /\ title_invalid
       (form (DOM (exec (handleFormSubmit sample_env)
                     (run sample_env [Input FTitle "   "] (page []))))) = true
  /\ activeElement
       (DOM (exec (handleFormSubmit sample_env)
               (run sample_env [Input FTitle "   "] (page [])))) = ElTitle.
Proof.
  split; [reflexivity|].
  destruct (blank_title_blocks_submission sample_env
              (run sample_env [Input FTitle "   "] (page [])) eq_refl)
    as (Hs & _ & Hi & _ & _ & Hf & _).
  split; [exact Hs|]. split; [exact Hi | exact Hf].
Defined.

(* ================================================================== *)
(** ** What each asynchronous handler does, by outcome of its requests *)

Section Cases.
Variable env : Env.

Lemma loadTasks_returns w :
  loadTasks env w = (Normal tt, exec (loadTasks env) w).
Proof. destruct w as [st d snt net]. js_run. js_settle; reflexivity. Qed.

(** [loadTasks]: the list area is cleared and the spinner shown, the list
    request is sent, and then either the snapshot is replaced and rendered,
    or the failure is notified; the spinner is hidden in both cases. *)
Lemma loadTasks_cases w :
  exec (loadTasks env) w =
  let w1 := logged (listRequest env (activeStatus (state w)) (activePriority (state w)))
                   (exec (setLoading true) w) in
  match fetchResult (next w) with
  | Normal res =>
      exec (setLoading false)
        (exec (renderTaskList env)
           (exec (setState (set_tasks match data_tasks res with
                                      | Some l => l
                                      | None => []
                                      end)) w1))
  | Throw e =>
      exec (setLoading false)
        (exec (showToast ("Failed to load tasks: " ++ e) "error") w1)
  end.
Proof.
  destruct w as [st d snt net]. unfold listRequest. js_run. js_settle; reflexivity.
Qed.

Lemma handleComplete_cases i w :
  exec (handleComplete env i) w =
  let w1 := logged (completeRequest env i) w in
  match fetchResult (next w) with
  | Normal _ =>
      exec (loadTasks env) (exec (showToast "Task marked as done! 🎉" "success") w1)
  | Throw e => exec (showToast ("Could not complete task: " ++ e) "error") w1
  end.
Proof.
  destruct w as [st d snt net].
  unfold handleComplete, completeRequest. js_run. js_settle; [|reflexivity].
  js_settle; reflexivity.
Qed.

Lemma confirmDelete_cases i w :
  pendingDeleteId (state w) = Some i -> i <> 0%Z ->
  exec (confirmDelete env) w =
  let w1 := logged (deleteRequest env i) (exec closeDeleteModal w) in
  match fetchResult (next w) with
  | Normal _ => exec (loadTasks env) (exec (showToast "Task deleted." "info") w1)
  | Throw e => exec (showToast ("Could not delete task: " ++ e) "error") w1
  end.
Proof.
  intros Hp Hi. apply Z.eqb_neq in Hi.
  destruct w as [st d snt net]. cbn [state] in Hp.
  unfold confirmDelete, deleteRequest. js_run. rewrite Hp, Hi. js_run.
  js_settle; [|reflexivity].
  js_settle; reflexivity.
Qed.

Lemma confirmDelete_idle w :
  pendingDeleteId (state w) = None \/ pendingDeleteId (state w) = Some 0%Z ->
  exec (confirmDelete env) w = w.
Proof.
  destruct w as [st d snt net]. cbn [state].
  intros [H|H]; unfold confirmDelete; js_run; rewrite H; reflexivity.
Qed.

Lemma handleFormSubmit_blank w :
  trim (f_title (fields (form (DOM w)))) = "" ->
  exec (handleFormSubmit env) w = snd (readForm env w).
Proof.
  intros H. unfold handleFormSubmit, exec, bind.
  rewrite (readForm_blank env w H). reflexivity.
Qed.

Lemma handleFormSubmit_cases w :
  trim (f_title (fields (form (DOM w)))) <> "" ->
  exec (handleFormSubmit env) w =
  let payload := formPayload env (DOM w) in
  let editing := truthy_num (editingId (state w)) in
  let w1 := logged (match editingId (state w) with
                    | Some i => if (i =? 0)%Z then createRequest env payload
                                else updateRequest env i payload
                    | None => createRequest env payload
                    end)
                   (exec (setSubmitting true) (exec clearValidation w)) in
  match fetchResult (next w) with
  | Normal _ =>
      exec (setSubmitting false)
        (exec (loadTasks env)
           (exec resetForm
              (exec (showToast (if editing then "Task updated successfully! ✓"
                                else "Task created! ✓") "success") w1)))
  | Throw e =>
      exec (setSubmitting false) (exec (showToast ("Error: " ++ e) "error") w1)
  end.
Proof.
  intros H. unfold handleFormSubmit, exec at 1. unfold bind at 1.
  rewrite (readForm_valid env w H).
  destruct w as [st d snt net]. cbn [state DOM].
  unfold createRequest, updateRequest, truthy_num.
  destruct (editingId st) as [i|] eqn:Eid;
    [destruct (i =? 0)%Z eqn:Ei|];
    js_run; rewrite ?Eid, ?Ei; js_run; cbn [negb];
    (js_settle; rewrite ?Eid; [|reflexivity]); js_settle; rewrite ?Eid; reflexivity.
Qed.

End Cases.

Section Loader.
Variable env : Env.

(** What [loadTasks] never touches, and the one request it sends. *)
Lemma loadTasks_frame w :
  let w' := exec (loadTasks env) w in
  sent w' = (sent w ++ [entry (listRequest env (activeStatus (state w))
                                            (activePriority (state w)))
                               (exec (setLoading true) w)])%list
  /\ network w' = network w
  /\ form (DOM w') = form (DOM w)
  /\ activeStatus (state w') = activeStatus (state w)
  /\ activePriority (state w') = activePriority (state w)
  /\ editingId (state w') = editingId (state w)
  /\ pendingDeleteId (state w') = pendingDeleteId (state w)
  /\ confirmModal_show (DOM w') = confirmModal_show (DOM w)
  /\ loading_hidden (listArea (DOM w')) = true.
Proof.
  cbv zeta. rewrite loadTasks_cases. cbv zeta.
  destruct w as [st d snt net].
  destruct (fetchResult _); repeat split.
Qed.

(** The two ways a load ends. *)
Lemma loadTasks_outcome w :
  let w' := exec (loadTasks env) w in
  match fetchResult (next w) with
  | Normal res =>
      tasks (state w') = match data_tasks res with Some l => l | None => [] end
      /\ displayed w' = join (map (buildCard env) (filtered (state w')))
      /\ toastContainer (DOM w') = toastContainer (DOM w)
  | Throw e =>
      tasks (state w') = tasks (state w)
      /\ displayed w' = ""
      /\ toastContainer (DOM w')
         = (toastContainer (DOM w) ++ [toastOf ("Failed to load tasks: " ++ e) "error"])%list
  end.
Proof.
  cbv zeta. rewrite loadTasks_cases. cbv zeta.
  destruct w as [st d snt net].
  destruct (fetchResult _); repeat split.
Qed.

End Loader.

(** Names the components of the world a nested [loadTasks] leaves, keeping
    what is known of them. *)
Ltac js_after_load :=
  match goal with
  | |- context [exec (loadTasks ?env) ?X] =>
      let F := fresh "Frame" in
      let O := fresh "Outcome" in
      let L := fresh "L" in
      pose proof (loadTasks_frame env X) as F;
      pose proof (loadTasks_outcome env X) as O;
      cbv zeta in F, O;
      generalize dependent (exec (loadTasks env) X);
      intros L F O; destruct L as [lst ld lsnt lnet];
      unfold displayed in O;
      js_step_in F; js_step_in O; dom_simpl_in F; dom_simpl_in O
  end.

(** C3, as the code has it.  For every valid form submission: without an
    [editingId] exactly one create request is issued, and while editing a
    task with a non-zero id exactly one update request for that id is issued.
    If the request succeeds, success is notified first, then the controller
    is reset to Create ([editingId] cleared, the form controls restored to
    their defaults) and one full reload of the list is requested.  If the
    request fails, no reload is requested, [editingId] and the entered
    values are unchanged and the failure is notified with the error
    message. *)
Theorem form_submission :
  forall env w,
    trim (f_title (fields (form (DOM w)))) <> "" ->
    editingId (state w) <> Some 0%Z ->
    let w' := exec (handleFormSubmit env) w in
    let payload := formPayload env (DOM w) in
    let mutation :=
      match editingId (state w) with
      | Some i => updateRequest env i payload
      | None => createRequest env payload
      end in
    let notice :=
      match editingId (state w) with
      | Some _ => "Task updated successfully! ✓"
      | None => "Task created! ✓"
      end in
    match fetchResult (next w) with
    | Normal _ =>
        exists m r,
          sent w' = (sent w ++ [m; r])%list
          /\ request m = mutation
          /\ request r
             = listRequest env (activeStatus (state w)) (activePriority (state w))
          /\ toastContainer (dom_at_send r)
             = (toastContainer (DOM w) ++ [toastOf notice "success"])%list
          /\ editingId (state_at_send r) = None
          /\ fields (form (dom_at_send r)) = defaults (form (DOM w))
          /\ editingId (state w') = None
          /\ fields (form (DOM w')) = defaults (form (DOM w))
          /\ taskId_value (form (DOM w')) = ""
    | Throw e =>
        exists m,
          sent w' = (sent w ++ [m])%list
          /\ request m = mutation
          /\ editingId (state w') = editingId (state w)
          /\ fields (form (DOM w')) = fields (form (DOM w))
          /\ toastContainer (DOM w')
             = (toastContainer (DOM w) ++ [toastOf ("Error: " ++ e) "error"])%list
    end.
Proof.
  intros env w Hvalid Hid. cbv zeta.
  rewrite (handleFormSubmit_cases env w Hvalid). cbv zeta.
  assert (Hreq :
    match editingId (state w) with
    | Some i => if (i =? 0)%Z then createRequest env (formPayload env (DOM w))
                else updateRequest env i (formPayload env (DOM w))
    | None => createRequest env (formPayload env (DOM w))
    end
    = match editingId (state w) with
      | Some i => updateRequest env i (formPayload env (DOM w))
      | None => createRequest env (formPayload env (DOM w))
      end).
  { destruct (editingId (state w)) as [i|]; [|reflexivity].
    destruct (Z.eqb_spec i 0); [congruence | reflexivity]. }
  assert (Hnote :
    (if truthy_num (editingId (state w))
     then "Task updated successfully! ✓" else "Task created! ✓")
    = match editingId (state w) with
      | Some _ => "Task updated successfully! ✓"
      | None => "Task created! ✓"
      end).
  { unfold truthy_num. destruct (editingId (state w)) as [i|]; [|reflexivity].
    destruct (Z.eqb_spec i 0); [congruence | reflexivity]. }
  rewrite Hreq, Hnote.
  destruct w as [st d snt net]. cbn [state DOM] in *.
  destruct (fetchResult _) as [b|e].
  - js_after_load.
    destruct Frame as (Fs & _ & Ff & _ & _ & Fe & _).
    eexists. eexists.
    split.
    { js_run. rewrite Fs. rewrite <- app_assoc. reflexivity. }
    js_run. dom_simpl. rewrite Fe, Ff.
    repeat split.
  - eexists. js_run. repeat split.
Qed.

Lemma form_submission_witness :
  exists m r,
    sent (exec (handleFormSubmit sample_env)
            (typing_B [created; listing [task1; task5; taskB]]))
    = (sent (typing_B [created; listing [task1; task5; taskB]]) ++ [m; r])%list
    /\ req_method (request m) = "POST"
    /\ req_method (request r) = "GET"
    /\ editingId (state (exec (handleFormSubmit sample_env)
                           (typing_B [created; listing [task1; task5; taskB]]))) = None.
Proof.
  pose proof (form_submission sample_env
                (typing_B [created; listing [task1; task5; taskB]])) as T.
  cbv zeta in T.
  assert (H1 : trim (f_title (fields (form (DOM (typing_B
                [created; listing [task1; task5; taskB]]))))) <> "").
  { intros H. vm_compute in H. discriminate H. }
  assert (H2 : editingId (state (typing_B [created; listing [task1; task5; taskB]]))
               <> Some 0%Z).
  { intros H. vm_compute in H. discriminate H. }
  specialize (T H1 H2).
  change (fetchResult (next (typing_B [created; listing [task1; task5; taskB]])))
    with (@Normal Body emptyObject) in T.
  destruct T as (m & r & Hs & Hm & Hr & _ & _ & _ & He & _).
  exists m, r. split; [exact Hs|]. split; [now rewrite Hm|]. split; [now rewrite Hr|].
  exact He.
Defined.

(** C3 as stated fails on the order of the effects: when the reload that
    follows a successful create is sent, the success toast is already
    displayed (and the controller already reset). *)
Lemma success_is_notified_before_the_reload :
  option_map
    (fun s => (req_method (request s), toastContainer (dom_at_send s),
               editingId (state_at_send s)))
    (nth_error
       (sent (exec (handleFormSubmit sample_env)
                (typing_B [created; listing [task1; task5; taskB]]))) 2)
  = Some ("GET", [toastOf "Task created! ✓" "success"], None).
Proof. vm_compute. reflexivity. Qed.

(* ================================================================== *)
(** ** The requests each event sends *)

Lemma sends_nothing env ev w w' : sent w' = sent w -> sendsOnly env ev w w'.
Proof.
  intros H. exists []. rewrite app_nil_r. split; [exact H | intros s []].
Qed.

Lemma loadTasks_sends env ev w : sendsOnly env ev w (exec (loadTasks env) w).
Proof.
  destruct (loadTasks_frame env w) as (Fs & _).
  eexists. split; [exact Fs|].
  intros s [<-|[]]. left. split; reflexivity.
Qed.

Lemma handleFormSubmit_sends env w :
  sendsOnly env Submit w (exec (handleFormSubmit env) w).
Proof.
  destruct (string_dec (trim (f_title (fields (form (DOM w))))) "") as [B|V].
  - apply sends_nothing. rewrite (handleFormSubmit_blank env w B).
    rewrite (readForm_blank env w B). reflexivity.
  - rewrite (handleFormSubmit_cases env w V). cbv zeta.
    assert (K : forall p,
      let r := match editingId (state w) with
               | Some i => if (i =? 0)%Z then createRequest env p
                           else updateRequest env i p
               | None => createRequest env p
               end in
      req_method r = "POST" \/ req_method r = "PUT").
    { intros p. destruct (editingId (state w)) as [i|]; [destruct (i =? 0)%Z|];
        cbn; auto. }
    specialize (K (formPayload env (DOM w))). cbv zeta in K.
    destruct w as [st d snt net]. cbn [state DOM] in K.
    destruct (fetchResult _) as [b|e].
    + js_after_load. destruct Frame as (Fs & _).
      eexists. split.
      { js_run. rewrite Fs, <- app_assoc. reflexivity. }
      intros s [<-|[<-|[]]].
      * right. dom_simpl. repeat split. left. split; [reflexivity | exact K].
      * left. split; reflexivity.
    + eexists. split; [js_run; reflexivity|].
      intros s [<-|[]].
      right. dom_simpl. repeat split. left. split; [reflexivity | exact K].
Qed.

Lemma handleComplete_sends env e i w :
  completeBtn e = Some i ->
  sendsOnly env (TaskListClick e) w (exec (handleComplete env i) w).
Proof.
  intros He. rewrite handleComplete_cases. cbv zeta.
  destruct w as [st d snt net].
  destruct (fetchResult _) as [b|msg].
  - js_after_load. destruct Frame as (Fs & _).
    eexists. split.
    { rewrite Fs, <- app_assoc. reflexivity. }
    intros s [<-|[<-|[]]].
    + right. dom_simpl. repeat split. right. left. now exists e, i.
    + left. split; reflexivity.
  - eexists. split; [js_run; reflexivity|].
    intros s [<-|[]].
    right. dom_simpl. repeat split. right. left. now exists e, i.
Qed.

Lemma confirmDelete_sends env w :
  sendsOnly env ModalConfirmClick w (exec (confirmDelete env) w).
Proof.
  destruct (pendingDeleteId (state w)) as [i|] eqn:Hp.
  2:{ apply sends_nothing. now rewrite confirmDelete_idle by auto. }
  destruct (Z.eq_dec i 0) as [->|Hi].
  { apply sends_nothing. now rewrite confirmDelete_idle by auto. }
  rewrite (confirmDelete_cases env i w Hp Hi). cbv zeta.
  destruct w as [st d snt net]. cbn [state] in Hp.
  destruct (fetchResult _) as [b|e].
  - js_after_load. destruct Frame as (Fs & _).
    eexists. split.
    { rewrite Fs, <- app_assoc. reflexivity. }
    intros s [<-|[<-|[]]].
    + right. dom_simpl. repeat split. right. right. now exists i.
    + left. split; reflexivity.
  - eexists. split; [js_run; reflexivity|].
    intros s [<-|[]].
    right. dom_simpl. repeat split. right. right. now exists i.
Qed.

Lemma handleEdit_sent env i w : sent (exec (handleEdit env i) w) = sent w.
Proof. destruct w as [st d snt net]. js_edit; reflexivity. Qed.

Lemma handleStatusPillClick_sent env pill w :
  sent (exec (handleStatusPillClick env pill) w) = sent w.
Proof.
  destruct w as [st d snt net]. unfold handleStatusPillClick. js_step.
  destruct pill as [k|]; [|reflexivity].
  destruct (nth_error _ _); reflexivity.
Qed.

(** Every request an event causes is a list load sent with a cleared list
    area, or the request of the mutation that the event stands for. *)
Lemma dispatch_sends env ev w : sendsOnly env ev w (exec (dispatch env ev) w).
Proof.
  destruct ev as [| | |e|pill|v| | | |onOverlay|fld v|key]; cbn [dispatch].
  - apply loadTasks_sends.
  - apply handleFormSubmit_sends.
  - apply sends_nothing. destruct w; reflexivity.
  - unfold handleTaskListClick.
    destruct (completeBtn e) as [c|] eqn:Ec; [now apply handleComplete_sends|].
    apply sends_nothing.
    destruct (editBtn e) as [i|]; [apply handleEdit_sent|].
    destruct (deleteBtn e) as [i|]; destruct w; reflexivity.
  - apply sends_nothing, handleStatusPillClick_sent.
  - apply sends_nothing. destruct w; reflexivity.
  - apply loadTasks_sends.
  - apply sends_nothing. destruct w; reflexivity.
  - apply confirmDelete_sends.
  - apply sends_nothing. destruct w, onOverlay; reflexivity.
  - apply sends_nothing. destruct w, fld; reflexivity.
  - apply sends_nothing. destruct w as [st d snt net]. js_step.
    destruct ((key =? "Escape") && negb (confirmModal_hidden d)); reflexivity.
Qed.

Lemma entryKind_method env ev w s :
  entryKind env ev w s ->
  (req_method (request s) = "GET" /\ displayed_at s = "")
  \/ (req_method (request s) <> "GET" /\ displayed_at s = displayed w
      /\ tasks (state_at_send s) = tasks (state w)).
Proof.
  intros [G|(D & T & K)]; [now left|]. right. split; [|now split].
  destruct K as [[_ [M|M]]|[(e & i & _ & _ & R)|(i & _ & _ & R)]];
    rewrite ?M, ?R; discriminate.
Qed.

(** A mutation that succeeds is followed by exactly one reload. *)
Lemma successful_mutation_reloads env m w b :
  attempted m w ->
  fetchResult (next w) = Normal b ->
  exists s r,
    sent (exec (dispatch env (mutationEvent m)) w) = (sent w ++ [s; r])%list
    /\ req_method (request s) <> "GET"
    /\ request r = listRequest env (activeStatus (state w)) (activePriority (state w)).
Proof.
  intros A F.
  destruct m as [|i|]; cbn [mutationEvent dispatch clickComplete handleTaskListClick
    completeBtn attempted] in *.
  - rewrite (handleFormSubmit_cases env w A). cbv zeta. rewrite F.
    destruct w as [st d snt net].
    js_after_load. destruct Frame as (Fs & _).
    eexists. eexists. split; [js_run; rewrite Fs, <- app_assoc; reflexivity|].
    dom_simpl. split; [|reflexivity].
    destruct (editingId st) as [i|]; [destruct (i =? 0)%Z|]; discriminate.
  - rewrite handleComplete_cases. cbv zeta. rewrite F.
    destruct w as [st d snt net].
    js_after_load. destruct Frame as (Fs & _).
    eexists. eexists. split; [rewrite Fs, <- app_assoc; reflexivity|].
    dom_simpl. split; [discriminate | reflexivity].
  - destruct A as (i & Hp & Hi).
    rewrite (confirmDelete_cases env i w Hp Hi). cbv zeta. rewrite F.
    destruct w as [st d snt net].
    js_after_load. destruct Frame as (Fs & _).
    eexists. eexists. split; [rewrite Fs, <- app_assoc; reflexivity|].
    dom_simpl. split; [discriminate | reflexivity].
Qed.

(** C6, as the code has it.  Whatever the event, a list request is sent with
    the list area already cleared, and the request of a mutation (create,
    update, complete, delete) is sent with the list area exactly as it was
    displayed before the event.  List requests are sent by the initial load,
    by a manual refresh, and as the reload that follows every successful
    mutation: the stale list is visible during the mutation request and gone
    while the reload is in flight. *)
Theorem list_area_while_in_flight :
  forall env w,
    (forall ev s,
        In s (newEntries w (exec (dispatch env ev) w)) ->
        (req_method (request s) = "GET" -> displayed_at s = "")
        /\ (req_method (request s) <> "GET" ->
            displayed_at s = displayed w
            /\ tasks (state_at_send s) = tasks (state w)))
    /\ (forall ev,
          ev = DOMContentLoaded \/ ev = RefreshClick ->
          exists r,
            newEntries w (exec (dispatch env ev) w) = [r]
            /\ req_method (request r) = "GET")
    /\ (forall m b,
          attempted m w ->
          fetchResult (next w) = Normal b ->
          exists s r,
            newEntries w (exec (dispatch env (mutationEvent m)) w) = [s; r]
            /\ req_method (request s) <> "GET"
            /\ req_method (request r) = "GET").
Proof.
  intros env w. split; [|split].
  - intros ev s Hin.
    destruct (dispatch_sends env ev w) as [news [Hs Hk]].
    rewrite (newEntries_app _ _ _ Hs) in Hin.
    destruct (entryKind_method _ _ _ _ (Hk s Hin)) as [[G D]|[G D]].
    + split; [intros _; exact D | intros N; contradiction].
    + split; [intros N; contradiction | intros _; exact D].
  - intros ev [->| ->]; cbn [dispatch];
      destruct (loadTasks_frame env w) as (Fs & _);
      eexists; (split; [exact (newEntries_app _ _ _ Fs) | reflexivity]).
  - intros m b A F.
    destruct (successful_mutation_reloads env m w b A F) as (s & r & Hs & Hm & Hr).
    exists s, r. split; [exact (newEntries_app _ _ _ Hs)|].
    split; [exact Hm | now rewrite Hr].
Qed.

Lemma list_area_while_in_flight_witness :
  map (fun s => (req_method (request s),
                 String.eqb (displayed_at s)
                   (displayed (loaded [ok emptyObject; listing [task1; task5]])),
                 String.eqb (displayed_at s) ""))
    (newEntries (loaded [ok emptyObject; listing [task1; task5]])
       (exec (dispatch sample_env (clickComplete 1))
          (loaded [ok emptyObject; listing [task1; task5]])))
  = [("PATCH", true, false); ("GET", false, true)]
  /\ Forall
       (fun s =>
          (req_method (request s) = "GET" -> displayed_at s = "")
          /\ (req_method (request s) <> "GET" ->
              displayed_at s = displayed (loaded [ok emptyObject; listing [task1; task5]])
              /\ tasks (state_at_send s)
                 = tasks (state (loaded [ok emptyObject; listing [task1; task5]]))))
       (newEntries (loaded [ok emptyObject; listing [task1; task5]])
          (exec (dispatch sample_env (clickComplete 1))
             (loaded [ok emptyObject; listing [task1; task5]]))).
Proof.
  split; [vm_compute; reflexivity|].
  apply Forall_forall. intros s Hin.
  exact (proj1 (list_area_while_in_flight sample_env
                  (loaded [ok emptyObject; listing [task1; task5]]))
           (clickComplete 1) s Hin).
Defined.

(** C6 as stated fails: after a successful completion of task 1, the reload
    is in flight over an empty list area, although a list of two cards was
    displayed before the click. *)
Lemma reload_is_sent_over_a_cleared_list :
  displayed (loaded [ok emptyObject; listing [task1; task5]]) <> ""
  /\ option_map
       (fun s => (req_method (request s), displayed_at s))
       (nth_error
          (sent (exec (dispatch sample_env (clickComplete 1))
                   (loaded [ok emptyObject; listing [task1; task5]]))) 2)
     = Some ("GET", "").
Proof.
  split; [intros H; vm_compute in H; discriminate H | vm_compute; reflexivity].
Qed.

(* ================================================================== *)
(** ** The delete confirmation gate *)

Lemma closing_events env i cancel w :
  In cancel [ModalCancelClick; ModalClick true; KeyDown "Escape"] ->
  let w' := run env [clickDelete i; cancel] w in
  sent w' = sent w /\ tasks (state w') = tasks (state w).
Proof.
  destruct w as [st d snt net].
  intros [<-|[<-|[<-|[]]]]; cbn [run dispatch clickDelete handleTaskListClick
    completeBtn editBtn deleteBtn]; js_step; dom_simpl; try (split; reflexivity).
  cbn [String.eqb Ascii.eqb Bool.eqb andb].
  destruct (negb (confirmModal_hidden d)); split; reflexivity.
Qed.

(** C2. A delete request is sent only while handling a click on the modal's
    confirm button, and it is the delete request for the id held in
    [pendingDeleteId], which is the id [openDeleteModal] stored when the
    delete button was clicked; opening the modal for any id and then
    cancelling (cancel button, click on the overlay, Escape) sends no request
    at all and leaves the task collection unchanged. *)
Theorem delete_only_after_confirmation :
  forall env w,
    (forall ev s,
        In s (newEntries w (exec (dispatch env ev) w)) ->
        req_method (request s) = "DELETE" ->
        ev = ModalConfirmClick
        /\ exists i, pendingDeleteId (state w) = Some i
                     /\ request s = deleteRequest env i)
    /\ (forall i, pendingDeleteId (state (exec (dispatch env (clickDelete i)) w)) = Some i)
    /\ (forall i cancel,
          In cancel [ModalCancelClick; ModalClick true; KeyDown "Escape"] ->
          sent (run env [clickDelete i; cancel] w) = sent w
          /\ tasks (state (run env [clickDelete i; cancel] w)) = tasks (state w)).
Proof.
  intros env w. split; [|split].
  - intros ev s Hin Hm.
    destruct (dispatch_sends env ev w) as [news [Hs Hk]].
    rewrite (newEntries_app _ _ _ Hs) in Hin.
    destruct (Hk s Hin) as [[G _]|(_ & _ & K)]; [rewrite G in Hm; discriminate|].
    destruct K as [[_ [M|M]]|[(e & i & _ & _ & R)|(i & E & P & R)]].
    + rewrite M in Hm; discriminate.
    + rewrite M in Hm; discriminate.
    + rewrite R in Hm; discriminate.
    + split; [exact E|]. now exists i.
  - intros i. destruct w; reflexivity.
  - intros i cancel Hc. exact (closing_events env i cancel w Hc).
Qed.

Lemma delete_only_after_confirmation_witness :
  map (fun s => req_method (request s))
    (newEntries (confirming_5 [ok emptyObject; listing [task1]])
       (exec (dispatch sample_env ModalConfirmClick)
          (confirming_5 [ok emptyObject; listing [task1]])))
  = ["DELETE"; "GET"]
  /\ (forall s,
        In s (newEntries (confirming_5 [ok emptyObject; listing [task1]])
                (exec (dispatch sample_env ModalConfirmClick)
                   (confirming_5 [ok emptyObject; listing [task1]]))) ->
        req_method (request s) = "DELETE" ->
        request s = deleteRequest sample_env 5).
Proof.
  split; [vm_compute; reflexivity|].
  intros s Hin Hm.
  destruct (delete_only_after_confirmation sample_env
              (confirming_5 [ok emptyObject; listing [task1]])) as (D & _).
  destruct (D ModalConfirmClick s Hin Hm) as (_ & i & Hp & Hr).
  injection Hp as <-. exact Hr.
Defined.










(* ================================================================== *)
(** ** Failure of a mutation *)

Lemma next_after_one snt (x : Sent) : List.length (snt ++ [x])%list = S (List.length snt).
Proof. rewrite length_app. cbn [List.length]. apply Nat.add_1_r. Qed.

Section Failures.
Variable env : Env.

Lemma submit_request_fails w e :
  trim (f_title (fields (form (DOM w)))) <> "" ->
  fetchResult (next w) = Throw e ->
  requestFailed SubmitForm w (exec (handleFormSubmit env) w) e.
Proof.
  intros A F. unfold requestFailed, failurePrefix.
  rewrite (handleFormSubmit_cases env w A). cbv zeta. rewrite F.
  destruct w as [st d snt net]. js_run. dom_simpl.
  split; [|repeat split].
  eexists. split; [reflexivity|]. dom_simpl.
  destruct (editingId st) as [i|]; [destruct (i =? 0)%Z|]; discriminate.
Qed.

Lemma complete_request_fails i w e :
  fetchResult (next w) = Throw e ->
  requestFailed (CompleteItem i) w (exec (handleComplete env i) w) e.
Proof.
  intros F. unfold requestFailed, failurePrefix.
  rewrite handleComplete_cases. cbv zeta. rewrite F.
  destruct w as [st d snt net]. js_run. dom_simpl.
  split; [|repeat split].
  eexists. split; [reflexivity|]. discriminate.
Qed.

Lemma delete_request_fails i w e :
  pendingDeleteId (state w) = Some i -> i <> 0%Z ->
  fetchResult (next w) = Throw e ->
  requestFailed ConfirmDelete w (exec (confirmDelete env) w) e.
Proof.
  intros Hp Hi F. unfold requestFailed, failurePrefix.
  rewrite (confirmDelete_cases env i w Hp Hi). cbv zeta. rewrite F.
  destruct w as [st d snt net]. js_run. dom_simpl.
  split; [|repeat split].
  eexists. split; [reflexivity|]. discriminate.
Qed.

Lemma submit_reload_fails w b e :
  trim (f_title (fields (form (DOM w)))) <> "" ->
  fetchResult (next w) = Normal b ->
  fetchResult (network w (S (List.length (sent w)))) = Throw e ->
  reloadFailed SubmitForm w (exec (handleFormSubmit env) w) e.
Proof.
  intros A F R. unfold reloadFailed, successToast.
  rewrite (handleFormSubmit_cases env w A). cbv zeta. rewrite F.
  destruct w as [st d snt net]. cbn [sent network state] in *.
  js_after_load. rewrite next_after_one, R in Outcome.
  destruct Outcome as (Ot & Od & Oc).
  js_run. dom_simpl. rewrite Ot, Od, Oc, <- app_assoc. repeat split.
Qed.

Lemma complete_reload_fails i w b e :
  fetchResult (next w) = Normal b ->
  fetchResult (network w (S (List.length (sent w)))) = Throw e ->
  reloadFailed (CompleteItem i) w (exec (handleComplete env i) w) e.
Proof.
  intros F R. unfold reloadFailed, successToast.
  rewrite handleComplete_cases. cbv zeta. rewrite F.
  destruct w as [st d snt net]. cbn [sent network state] in *.
  js_after_load. rewrite next_after_one, R in Outcome.
  destruct Outcome as (Ot & Od & Oc).
  dom_simpl. rewrite Ot, Od, Oc, <- app_assoc. repeat split.
Qed.

Lemma delete_reload_fails i w b e :
  pendingDeleteId (state w) = Some i -> i <> 0%Z ->
  fetchResult (next w) = Normal b ->
  fetchResult (network w (S (List.length (sent w)))) = Throw e ->
  reloadFailed ConfirmDelete w (exec (confirmDelete env) w) e.
Proof.
  intros Hp Hi F R. unfold reloadFailed, successToast.
  rewrite (confirmDelete_cases env i w Hp Hi). cbv zeta. rewrite F.
  destruct w as [st d snt net]. cbn [sent network state] in *.
  js_after_load. rewrite next_after_one, R in Outcome.
  destruct Outcome as (Ot & Od & Oc).
  dom_simpl. rewrite Ot, Od, Oc, <- app_assoc. repeat split.
Qed.

End Failures.

(** C7, as the code has it.  When a mutation fails before its reload (the
    form's title is blank, or the mutation request fails), no reload is
    requested, [editingId] is left alone, the failure is notified (the title
    field is marked invalid, or an error toast carries the message), and the
    snapshot and the displayed list are exactly as before the action.  When
    the mutation succeeds and the reload fails, the success and then the
    load failure are notified and the snapshot is unchanged, but the list
    area, cleared when the reload started, stays empty. *)
Theorem mutation_failure :
  forall env m w,
    let w' := exec (dispatch env (mutationEvent m)) w in
    (m = SubmitForm -> trim (f_title (fields (form (DOM w)))) = "" ->
     sent w' = sent w /\ state w' = state w /\ displayed w' = displayed w
     /\ title_invalid (form (DOM w')) = true
     /\ toastContainer (DOM w') = toastContainer (DOM w))
    /\ (attempted m w ->
        forall e, fetchResult (next w) = Throw e ->
        (exists s, sent w' = (sent w ++ [s])%list /\ req_method (request s) <> "GET")
        /\ editingId (state w') = editingId (state w)
        /\ tasks (state w') = tasks (state w)
        /\ displayed w' = displayed w
        /\ toastContainer (DOM w')
           = (toastContainer (DOM w) ++ [toastOf (failurePrefix m ++ e) "error"])%list)
    /\ (attempted m w ->
        forall b e, fetchResult (next w) = Normal b ->
        fetchResult (network w (S (List.length (sent w)))) = Throw e ->
        tasks (state w') = tasks (state w)
        /\ displayed w' = ""
        /\ toastContainer (DOM w')
           = (toastContainer (DOM w)
              ++ [successToast m w; toastOf ("Failed to load tasks: " ++ e) "error"])%list).
Proof.
  intros env m w. cbv zeta. split; [|split].
  - intros -> B. cbn [mutationEvent dispatch].
    rewrite (handleFormSubmit_blank env w B), (readForm_blank env w B).
    destruct w; repeat split.
  - intros A e F. destruct m as [|i|].
    + exact (submit_request_fails env w e A F).
    + exact (complete_request_fails env i w e F).
    + destruct A as (i & Hp & Hi). exact (delete_request_fails env i w e Hp Hi F).
  - intros A b e F R. destruct m as [|i|].
    + exact (submit_reload_fails env w b e A F R).
    + exact (complete_reload_fails env i w b e F R).
    + destruct A as (i & Hp & Hi). exact (delete_reload_fails env i w b e Hp Hi F R).
Qed.

Lemma mutation_failure_witness :
  displayed (exec (dispatch sample_env (clickComplete 5)) (loaded [not_found]))
  = displayed (loaded [not_found])
  /\ toastContainer (DOM (exec (dispatch sample_env (clickComplete 5))
                            (loaded [not_found])))
     = [toastOf "Could not complete task: Task not found" "error"].
Proof.
  destruct (mutation_failure sample_env (CompleteItem 5) (loaded [not_found]))
    as (_ & F & _).
  destruct (F I "Task not found" eq_refl) as (_ & _ & _ & Hd & Ht).
  split; [exact Hd | exact Ht].
Defined.

(** C7 as stated fails: task 1 is completed on the server but the reload is
    answered 503; the list area, which showed two cards, is left empty. *)
Lemma failed_reload_leaves_the_list_empty :
  fetchResult (network (loaded [ok emptyObject; unavailable]) 2)
  = Throw "HTTP 503: Service Unavailable"
  /\ displayed (loaded [ok emptyObject; unavailable]) <> ""
  /\ displayed (exec (dispatch sample_env (clickComplete 1))
                  (loaded [ok emptyObject; unavailable])) = ""
  /\ displayed (exec (dispatch sample_env (clickComplete 1))
                  (loaded [ok emptyObject; unavailable]))
     <> displayed (loaded [ok emptyObject; unavailable]).
Proof.
  split; [vm_compute; reflexivity|].
  split; [intros H; vm_compute in H; discriminate H|].
  split; [vm_compute; reflexivity|].
  intros H; vm_compute in H; discriminate H.
Qed.

(* ================================================================== *)
(** * Further properties of the handlers *)

(** ** No handler lets a failure escape *)

Lemma handleComplete_returns env i w : fst (handleComplete env i w) = Normal tt.
Proof.
  destruct w as [st d snt net]. unfold handleComplete. js_run.
  js_settle; [|reflexivity]. js_settle; reflexivity.
Qed.

Lemma confirmDelete_returns env w : fst (confirmDelete env w) = Normal tt.
Proof.
  destruct w as [st d snt net]. unfold confirmDelete. js_run.
  destruct (pendingDeleteId st) as [i|]; [|reflexivity].
  destruct (i =? 0)%Z; [reflexivity|]. js_run.
  js_settle; [|reflexivity]. js_settle; reflexivity.
Qed.

Lemma handleFormSubmit_returns env w : fst (handleFormSubmit env w) = Normal tt.
Proof.
  destruct (string_dec (trim (f_title (fields (form (DOM w))))) "") as [B|V].
  - unfold handleFormSubmit, bind. rewrite (readForm_blank env w B). reflexivity.
  - unfold handleFormSubmit. unfold bind at 1. rewrite (readForm_valid env w V).
    destruct w as [st d snt net].
    destruct (editingId st) as [i|] eqn:Eid; [destruct (i =? 0)%Z eqn:Ei|];
      js_run; rewrite ?Eid, ?Ei; js_run;
      (js_settle; [|reflexivity]); js_settle; reflexivity.
Qed.

Lemma handleEdit_completion env i w :
  fst (handleEdit env i w)
  = match find (fun t => (id t =? i)%Z) (tasks (state w)) with
    | Some t =>
        if present (localInput env t) then Normal tt else Throw "Invalid time value"
    | None => Normal tt
    end.
Proof.
  destruct w as [st d snt net].
  unfold handleEdit, populateForm, localInput, truthy_str. js_step.
  destruct (find _ _) as [t|]; [|reflexivity].
  destruct (due_date t) as [s|]; [|reflexivity].
  destruct (s =? ""); cbn [negb]; [reflexivity|].
  destruct (toLocalInput env s); reflexivity.
Qed.

Lemma handleStatusPillClick_returns env pill w :
  fst (handleStatusPillClick env pill w) = Normal tt.
Proof.
  destruct w as [st d snt net]. unfold handleStatusPillClick. js_step.
  destruct pill as [k|]; [|reflexivity].
  destruct (nth_error _ _); reflexivity.
Qed.

(** X1. Whatever the network does (rejection, any status, any body), no
    failure of a request escapes a listener wired by [init]: it is caught
    inside the handler.  A listener throws in one case only, which does not
    involve the network: a click on the edit button of a task of the
    snapshot whose due date is not a date lets the [RangeError] of the date
    conversion in [populateForm] escape.  Every other call completes
    normally (the due-date control being a [datetime-local] input, its
    value is empty or a date and the conversion in [readForm] succeeds). *)
Theorem only_a_failed_edit_throws :
  forall env ev w,
    fst (dispatch env ev w)
    = if editFails env ev w then Throw "Invalid time value" else Normal tt.
Proof.
  intros env ev w.
  destruct ev as [| | |e|pill|v| | | |onOverlay|fld v|key]; cbn [dispatch editFails].
  - now rewrite loadTasks_returns.
  - apply handleFormSubmit_returns.
  - destruct w; reflexivity.
  - unfold handleTaskListClick.
    destruct (completeBtn e); [apply handleComplete_returns|].
    destruct (editBtn e) as [i|].
    { rewrite handleEdit_completion.
      destruct (find _ _) as [t|]; [|reflexivity].
      destruct (present (localInput env t)); reflexivity. }
    destruct (deleteBtn e); destruct w; reflexivity.
  - apply handleStatusPillClick_returns.
  - destruct w; reflexivity.
  - now rewrite loadTasks_returns.
  - destruct w; reflexivity.
  - apply confirmDelete_returns.
  - destruct w, onOverlay; reflexivity.
  - destruct w, fld; reflexivity.
  - destruct w as [st d snt net]. js_step.
    destruct ((key =? "Escape") && negb (confirmModal_hidden d)); reflexivity.
Qed.

(** ** Loading *)

(** X2. [loadTasks] sends exactly one list request, for the filters held in
    the state, over a cleared list area, and always ends with the spinner
    hidden.  If the request succeeds the snapshot is replaced wholesale by
    the tasks of the response (by the empty list when the envelope carries
    none), the list area shows the cards of the tasks of that response that
    pass the filters, the empty-state notice is shown exactly when no card
    is, and nothing is notified.  If it fails, the snapshot, the notice and
    the badge stay as they were, the list area stays empty and one error
    toast carries the message. *)
Theorem loadTasks_installs_the_response :
  forall env w,
    newEntries w (exec (loadTasks env) w)
    = [entry (listRequest env (activeStatus (state w)) (activePriority (state w)))
             (exec (setLoading true) w)]
    /\ displayed (exec (setLoading true) w) = ""
    /\ loading_hidden (listArea (DOM (exec (loadTasks env) w))) = true
    /\ match fetchResult (next w) with
       | Normal b =>
           let shown := filter (filterOk (state w)) (tasksOf b) in
           tasks (state (exec (loadTasks env) w)) = tasksOf b
           /\ displayed (exec (loadTasks env) w) = join (map (buildCard env) shown)
           /\ emptyState_hidden (listArea (DOM (exec (loadTasks env) w)))
              = negb (Nat.eqb (List.length shown) 0)
           /\ toastContainer (DOM (exec (loadTasks env) w)) = toastContainer (DOM w)
       | Throw e =>
           tasks (state (exec (loadTasks env) w)) = tasks (state w)
           /\ displayed (exec (loadTasks env) w) = ""
           /\ emptyState_hidden (listArea (DOM (exec (loadTasks env) w)))
              = emptyState_hidden (listArea (DOM w))
           /\ taskCountBadge_text (listArea (DOM (exec (loadTasks env) w)))
              = taskCountBadge_text (listArea (DOM w))
           /\ toastContainer (DOM (exec (loadTasks env) w))
              = (toastContainer (DOM w)
                 ++ [toastOf ("Failed to load tasks: " ++ e) "error"])%list
       end.
Proof.
  intros env w.
  split.
  { apply newEntries_app. now destruct (loadTasks_frame env w) as (Fs & _). }
  split; [destruct w; reflexivity|].
  split; [now destruct (loadTasks_frame env w) as (_ & _ & _ & _ & _ & _ & _ & _ & Fl)|].
  rewrite loadTasks_cases. cbv zeta.
  destruct w as [st d snt net].
  destruct (fetchResult _) as [b|e]; repeat split.
Qed.

(** ** A mutation followed by its reload *)

Lemma filtered_as st st' l :
  tasks st' = l ->
  activeStatus st' = activeStatus st ->
  activePriority st' = activePriority st ->
  filtered st' = filter (filterOk st) l.
Proof.
  intros <- Ha Hp. unfold filtered. apply filter_ext.
  intros t. unfold filterOk. now rewrite Ha, Hp.
Qed.

Section Synchronised.
Variable env : Env.

Lemma submit_synchronises w b b' :
  trim (f_title (fields (form (DOM w)))) <> "" ->
  fetchResult (next w) = Normal b ->
  fetchResult (network w (S (List.length (sent w)))) = Normal b' ->
  synchronised env SubmitForm w (exec (handleFormSubmit env) w) b'.
Proof.
  intros A F R. unfold synchronised, successToast.
  rewrite (handleFormSubmit_cases env w A). cbv zeta. rewrite F.
  destruct w as [st d snt net]. cbn [sent network state] in *.
  js_after_load. rewrite next_after_one, R in Outcome.
  destruct Outcome as (Ot & Od & Oc).
  destruct Frame as (_ & _ & _ & Fa & Fp & _ & _ & _ & Fl).
  js_run. dom_simpl. rewrite Od, Oc, Fl, Fa, Fp.
  rewrite (filtered_as st lst _ Ot Fa Fp). repeat split. exact Ot.
Qed.

Lemma complete_synchronises i w b b' :
  fetchResult (next w) = Normal b ->
  fetchResult (network w (S (List.length (sent w)))) = Normal b' ->
  synchronised env (CompleteItem i) w (exec (handleComplete env i) w) b'.
Proof.
  intros F R. unfold synchronised, successToast.
  rewrite handleComplete_cases. cbv zeta. rewrite F.
  destruct w as [st d snt net]. cbn [sent network state] in *.
  js_after_load. rewrite next_after_one, R in Outcome.
  destruct Outcome as (Ot & Od & Oc).
  destruct Frame as (_ & _ & _ & Fa & Fp & _ & _ & _ & Fl).
  dom_simpl. rewrite Od, Oc, Fl, Fa, Fp.
  rewrite (filtered_as st lst _ Ot Fa Fp). repeat split. exact Ot.
Qed.

Lemma delete_synchronises i w b b' :
  pendingDeleteId (state w) = Some i -> i <> 0%Z ->
  fetchResult (next w) = Normal b ->
  fetchResult (network w (S (List.length (sent w)))) = Normal b' ->
  synchronised env ConfirmDelete w (exec (confirmDelete env) w) b'.
Proof.
  intros Hp Hi F R. unfold synchronised, successToast.
  rewrite (confirmDelete_cases env i w Hp Hi). cbv zeta. rewrite F.
  destruct w as [st d snt net]. cbn [sent network state] in *.
  js_after_load. rewrite next_after_one, R in Outcome.
  destruct Outcome as (Ot & Od & Oc).
  destruct Frame as (_ & _ & _ & Fa & Fp & _ & _ & _ & Fl).
  dom_simpl. rewrite Od, Oc, Fl, Fa, Fp.
  rewrite (filtered_as st lst _ Ot Fa Fp). repeat split. exact Ot.
Qed.

End Synchronised.

(** X3. When a mutation (form submit, complete, confirmed delete) and the
    reload that follows it both succeed, the page ends synchronised with the
    server: the snapshot is the list of the reload's response, the list area
    shows the cards of those of its tasks that pass the filters, which the
    mutation did not change, exactly one toast (the success notice) was
    added, and the spinner is hidden. *)
Theorem successful_mutation_synchronises :
  forall env m w b b',
    attempted m w ->
    fetchResult (next w) = Normal b ->
    fetchResult (network w (S (List.length (sent w)))) = Normal b' ->
    tasks (state (exec (dispatch env (mutationEvent m)) w)) = tasksOf b'
    /\ displayed (exec (dispatch env (mutationEvent m)) w)
       = join (map (buildCard env) (filter (filterOk (state w)) (tasksOf b')))
    /\ toastContainer (DOM (exec (dispatch env (mutationEvent m)) w))
       = (toastContainer (DOM w) ++ [successToast m w])%list
    /\ loading_hidden (listArea (DOM (exec (dispatch env (mutationEvent m)) w))) = true
    /\ activeStatus (state (exec (dispatch env (mutationEvent m)) w))
       = activeStatus (state w)
    /\ activePriority (state (exec (dispatch env (mutationEvent m)) w))
       = activePriority (state w).
Proof.
  intros env m w b b' A F R. destruct m as [|i|].
  - exact (submit_synchronises env w b b' A F R).
  - exact (complete_synchronises env i w b b' F R).
  - destruct A as (i & Hp & Hi). exact (delete_synchronises env i w b b' Hp Hi F R).
Qed.

Lemma successful_mutation_synchronises_witness :
  tasks (state (exec (dispatch sample_env (clickComplete 1))
                  (loaded [ok emptyObject; listing [task5]]))) = [task5]
  /\ displayed (exec (dispatch sample_env (clickComplete 1))
                  (loaded [ok emptyObject; listing [task5]]))
     = buildCard sample_env task5.
Proof.
  destruct (successful_mutation_synchronises sample_env (CompleteItem 1)
              (loaded [ok emptyObject; listing [task5]])
              emptyObject {| detail := None; data_tasks := Some [task5] |}
              I eq_refl eq_refl) as (Ht & Hd & _).
  split; [exact Ht|]. etransitivity; [exact Hd|]. vm_compute. reflexivity.
Defined.

(** ** What each handler leaves alone *)

Section Frames.
Variable env : Env.

Lemma loadTasks_keeps w :
  sameFiltersAndGate w (exec (loadTasks env) w)
  /\ sameForm w (exec (loadTasks env) w)
  /\ loading_hidden (listArea (DOM (exec (loadTasks env) w))) = true.
Proof.
  rewrite loadTasks_cases. cbv zeta. destruct w as [st d snt net].
  destruct (fetchResult _); repeat split.
Qed.

Lemma handleComplete_keeps i w :
  sameFiltersAndGate w (exec (handleComplete env i) w)
  /\ sameForm w (exec (handleComplete env i) w)
  /\ spinnerReleased w (exec (handleComplete env i) w).
Proof.
  rewrite handleComplete_cases. cbv zeta.
  destruct (fetchResult (next w)) as [b|e].
  - match goal with
    | |- context [exec (loadTasks env) ?X] =>
        destruct (loadTasks_keeps X) as ((Ka & Kp & Kf & Kd & Km) & (Ke & Ko) & Kl)
    end.
    unfold sameFiltersAndGate, sameForm, spinnerReleased.
    rewrite Ka, Kp, Kf, Kd, Km, Ke, Ko, Kl. destruct w; repeat split.
  - destruct w; repeat split. intros H; exact H.
Qed.

Lemma confirmDelete_keeps w :
  (activeStatus (state (exec (confirmDelete env) w)) = activeStatus (state w)
   /\ activePriority (state (exec (confirmDelete env) w)) = activePriority (state w)
   /\ filterPills (DOM (exec (confirmDelete env) w)) = filterPills (DOM w))
  /\ sameForm w (exec (confirmDelete env) w)
  /\ spinnerReleased w (exec (confirmDelete env) w)
  /\ (exec (confirmDelete env) w = w
      \/ (pendingDeleteId (state (exec (confirmDelete env) w)) = None
          /\ confirmModal_show (DOM (exec (confirmDelete env) w)) = false)).
Proof.
  destruct (pendingDeleteId (state w)) as [i|] eqn:Hp.
  2:{ rewrite confirmDelete_idle by auto. repeat split; auto. intros H; exact H. }
  destruct (Z.eq_dec i 0) as [->|Hi].
  { rewrite confirmDelete_idle by auto. repeat split; auto. intros H; exact H. }
  rewrite (confirmDelete_cases env i w Hp Hi). cbv zeta.
  destruct (fetchResult (next w)) as [b|e].
  - match goal with
    | |- context [exec (loadTasks env) ?X] =>
        destruct (loadTasks_keeps X) as ((Ka & Kp & Kf & Kd & Km) & (Ke & Ko) & Kl)
    end.
    unfold sameForm, spinnerReleased.
    rewrite Ka, Kp, Kf, Kd, Km, Ke, Ko, Kl. destruct w; repeat split.
    right. split; reflexivity.
  - destruct w; repeat split; [intros H; exact H|]. right. split; reflexivity.
Qed.

Lemma handleEdit_keeps i w :
  sameFiltersAndGate w (exec (handleEdit env i) w)
  /\ listArea (DOM (exec (handleEdit env i) w)) = listArea (DOM w)
  /\ tasks (state (exec (handleEdit env i) w)) = tasks (state w)
  /\ submitBtn_disabled (form (DOM (exec (handleEdit env i) w)))
     = submitBtn_disabled (form (DOM w)).
Proof. destruct w as [st d snt net]. js_edit; repeat split. Qed.

Lemma handleStatusPillClick_keeps pill w :
  sameForm w (exec (handleStatusPillClick env pill) w)
  /\ activePriority (state (exec (handleStatusPillClick env pill) w))
     = activePriority (state w)
  /\ pendingDeleteId (state (exec (handleStatusPillClick env pill) w))
     = pendingDeleteId (state w)
  /\ confirmModal_show (DOM (exec (handleStatusPillClick env pill) w))
     = confirmModal_show (DOM w)
  /\ tasks (state (exec (handleStatusPillClick env pill) w)) = tasks (state w)
  /\ loading_hidden (listArea (DOM (exec (handleStatusPillClick env pill) w)))
     = loading_hidden (listArea (DOM w)).
Proof.
  destruct w as [st d snt net]. unfold handleStatusPillClick. js_step.
  destruct pill as [k|]; [|repeat split].
  destruct (nth_error _ _); repeat split.
Qed.

End Frames.

(** Names the components of the world a nested [loadTasks] leaves, keeping
    what it left alone. *)
Ltac js_after_load_keeping K :=
  match goal with
  | |- context [exec (loadTasks ?env) ?X] =>
      let L := fresh "L" in
      pose proof (loadTasks_keeps env X) as K;
      unfold sameFiltersAndGate, sameForm in K;
      generalize dependent (exec (loadTasks env) X);
      intros L K; destruct L as [lst ld lsnt lnet];
      js_step_in K; dom_simpl_in K
  end.

Section SubmitFrames.
Variable env : Env.

Lemma submit_keeps_blank w :
  trim (f_title (fields (form (DOM w)))) = "" ->
  submitKeeps w (exec (handleFormSubmit env) w).
Proof.
  intros B. rewrite (handleFormSubmit_blank env w B), (readForm_blank env w B).
  destruct w; unfold submitKeeps. repeat split; try (intros H; exact H).
  left. repeat split.
Qed.

Lemma submit_keeps_failure w e :
  trim (f_title (fields (form (DOM w)))) <> "" ->
  fetchResult (next w) = Throw e ->
  submitKeeps w (exec (handleFormSubmit env) w).
Proof.
  intros V F. rewrite (handleFormSubmit_cases env w V). cbv zeta. rewrite F.
  destruct w as [st d snt net]. unfold submitKeeps, sameFiltersAndGate, spinnerReleased.
  js_run. dom_simpl. repeat split; try (intros H; exact H).
  left. repeat split.
Qed.

Lemma submit_keeps_success w b :
  trim (f_title (fields (form (DOM w)))) <> "" ->
  fetchResult (next w) = Normal b ->
  submitKeeps w (exec (handleFormSubmit env) w).
Proof.
  intros V F. rewrite (handleFormSubmit_cases env w V). cbv zeta. rewrite F.
  destruct w as [st d snt net]. unfold submitKeeps, sameFiltersAndGate, spinnerReleased.
  js_after_load_keeping K.
  destruct K as ((Fa & Fp & Fk & Fd & Fm) & (Fe & Ff) & Fl).
  js_run. dom_simpl. rewrite Ff, Fa, Fp, Fk, Fe, Fd, Fm, Fl. dom_simpl.
  split; [repeat split|]. split; [intros _; reflexivity|].
  split; [intros _; reflexivity|].
  right. repeat split.
Qed.

Lemma handleFormSubmit_keeps w : submitKeeps w (exec (handleFormSubmit env) w).
Proof.
  destruct (string_dec (trim (f_title (fields (form (DOM w))))) "") as [B|V].
  - exact (submit_keeps_blank w B).
  - destruct (fetchResult (next w)) as [b|e] eqn:F.
    + exact (submit_keeps_success w b V F).
    + exact (submit_keeps_failure w e V F).
Qed.

End SubmitFrames.

(** ** Filters *)

(** X4. Only the two filter controls change a filter: every other event,
    whatever the network answers, leaves the status filter, the priority
    filter and the pills as they were. *)
Theorem filters_change_only_by_filter_events :
  forall env ev w,
    isFilterEvent ev = false ->
    activeStatus (state (exec (dispatch env ev) w)) = activeStatus (state w)
    /\ activePriority (state (exec (dispatch env ev) w)) = activePriority (state w)
    /\ filterPills (DOM (exec (dispatch env ev) w)) = filterPills (DOM w).
Proof.
  intros env ev w Hev.
  destruct ev as [| | |e|pill|v| | | |onOverlay|fld v|key]; cbn [dispatch];
    try discriminate Hev.
  - now destruct (loadTasks_keeps env w) as ((Ka & Kp & Kf & _) & _).
  - now destruct (handleFormSubmit_keeps env w) as ((Ka & Kp & Kf & _) & _).
  - destruct w; repeat split.
  - unfold handleTaskListClick.
    destruct (completeBtn e) as [c|].
    { now destruct (handleComplete_keeps env c w) as ((Ka & Kp & Kf & _) & _). }
    destruct (editBtn e) as [c|].
    { now destruct (handleEdit_keeps env c w) as ((Ka & Kp & Kf & _) & _). }
    destruct (deleteBtn e); destruct w; repeat split.
  - now destruct (loadTasks_keeps env w) as ((Ka & Kp & Kf & _) & _).
  - destruct w; repeat split.
  - now destruct (confirmDelete_keeps env w) as ((Ka & Kp & Kf) & _).
  - destruct w, onOverlay; repeat split.
  - destruct w, fld; repeat split.
  - destruct w as [st d snt net]. js_step.
    destruct ((key =? "Escape") && negb (confirmModal_hidden d)); repeat split.
Qed.

Lemma filters_change_only_by_filter_events_witness :
  activeStatus (state (exec (dispatch sample_env (clickComplete 1))
                         (loaded [ok emptyObject; unavailable]))) = "all".
Proof.
  destruct (filters_change_only_by_filter_events sample_env (clickComplete 1)
              (loaded [ok emptyObject; unavailable]) eq_refl) as (Ha & _).
  exact Ha.
Defined.

(** ** Invariants of the two state machines and of the busy indicators *)

Lemma dispatch_modalConsistent env ev w :
  modalConsistent w -> modalConsistent (exec (dispatch env ev) w).
Proof.
  unfold modalConsistent. intros Inv.
  destruct ev as [| | |e|pill|v| | | |onOverlay|fld v|key]; cbn [dispatch].
  - destruct (loadTasks_keeps env w) as ((_ & _ & _ & Kd & Km) & _). now rewrite Kd, Km.
  - destruct (handleFormSubmit_keeps env w) as ((_ & _ & _ & Kd & Km) & _).
    now rewrite Kd, Km.
  - destruct w; exact Inv.
  - unfold handleTaskListClick.
    destruct (completeBtn e) as [c|].
    { destruct (handleComplete_keeps env c w) as ((_ & _ & _ & Kd & Km) & _).
      now rewrite Kd, Km. }
    destruct (editBtn e) as [c|].
    { destruct (handleEdit_keeps env c w) as ((_ & _ & _ & Kd & Km) & _).
      now rewrite Kd, Km. }
    destruct (deleteBtn e); destruct w; [reflexivity | exact Inv].
  - destruct (handleStatusPillClick_keeps env pill w) as (_ & _ & Kd & Km & _).
    now rewrite Kd, Km.
  - destruct w; exact Inv.
  - destruct (loadTasks_keeps env w) as ((_ & _ & _ & Kd & Km) & _). now rewrite Kd, Km.
  - destruct w; reflexivity.
  - destruct (confirmDelete_keeps env w) as (_ & _ & _ & [E|[Kd Km]]).
    + now rewrite E.
    + now rewrite Kd, Km.
  - destruct w, onOverlay; [reflexivity | exact Inv].
  - destruct w, fld; exact Inv.
  - destruct w as [st d snt net]. js_step.
    destruct ((key =? "Escape") && negb (confirmModal_hidden d));
      [reflexivity | exact Inv].
Qed.

(** X5. The modal is shown exactly while a delete is pending: if the overlay
    carries the class [show] iff [pendingDeleteId] is present, this still
    holds after any sequence of events, whatever the network answers. *)
Theorem modal_shown_iff_delete_pending :
  forall env evs w,
    modalConsistent w -> modalConsistent (run env evs w).
Proof.
  intros env evs. induction evs as [|ev evs IH]; intros w Inv; cbn [run]; [exact Inv|].
  apply IH, dispatch_modalConsistent, Inv.
Qed.

Lemma modal_shown_iff_delete_pending_witness :
  modalConsistent
    (run sample_env [DOMContentLoaded; clickDelete 5; KeyDown "Escape"; clickDelete 1;
                     ModalConfirmClick]
       (page [listing [task1; task5]; not_found])).
Proof.
  apply modal_shown_iff_delete_pending. reflexivity.
Defined.

Lemma handleEdit_mode env i w :
  (forall t, find (fun t => (id t =? i)%Z) (tasks (state w)) = Some t ->
             present (localInput env t) = true) ->
  formModeConsistent w -> formModeConsistent (exec (handleEdit env i) w).
Proof.
  destruct w as [st d snt net]. cbn [state].
  unfold handleEdit, populateForm, localInput, truthy_str. js_step.
  destruct (find _ _) as [t|]; [|intros _ Inv; exact Inv].
  intros C _. specialize (C t eq_refl).
  destruct (due_date t) as [s|]; [destruct (s =? ""); cbn [negb]|].
  - js_step. repeat split.
  - destruct (toLocalInput env s); [|discriminate C]. js_step. repeat split.
  - js_step. repeat split.
Qed.

Lemma dispatch_formModeConsistent env ev w :
  editFails env ev w = false ->
  formModeConsistent w -> formModeConsistent (exec (dispatch env ev) w).
Proof.
  intros Conv. unfold formModeConsistent at 1. intros Inv.
  assert (Same : forall w', sameForm w w' -> formModeConsistent w').
  { intros w' [Ke Kf]. unfold formModeConsistent. now rewrite Ke, Kf. }
  destruct ev as [| | |e|pill|v| | | |onOverlay|fld v|key]; cbn [dispatch].
  - apply Same. now destruct (loadTasks_keeps env w) as (_ & K & _).
  - destruct (handleFormSubmit_keeps env w)
      as (_ & _ & _ & [(Ke & K1 & K2 & K3 & K4)|(Ke & K1 & K2 & K3 & K4)]);
      unfold formModeConsistent; rewrite Ke, K1, K2, K3, K4;
      [exact Inv | repeat split].
  - destruct w; repeat split.
  - unfold handleTaskListClick. cbn [editFails] in Conv.
    destruct (completeBtn e) as [c|].
    { apply Same. now destruct (handleComplete_keeps env c w) as (_ & K & _). }
    destruct (editBtn e) as [c|].
    { apply handleEdit_mode; [|exact Inv].
      intros t F. rewrite F in Conv. now apply negb_false_iff in Conv. }
    destruct (deleteBtn e); destruct w; exact Inv.
  - apply Same. now destruct (handleStatusPillClick_keeps env pill w) as (K & _).
  - destruct w; exact Inv.
  - apply Same. now destruct (loadTasks_keeps env w) as (_ & K & _).
  - destruct w; exact Inv.
  - apply Same. now destruct (confirmDelete_keeps env w) as (_ & K & _).
  - destruct w, onOverlay; exact Inv.
  - destruct w, fld; exact Inv.
  - destruct w as [st d snt net]. js_step.
    destruct ((key =? "Escape") && negb (confirmModal_hidden d)); exact Inv.
Qed.

(** X6. The chrome of the form follows the presence of [editingId]: if the
    editing class of the panel, the visibility of the cancel button, the
    heading (Edit Task exactly when [editingId] is not [null], the number 0
    included) and the hidden id field agree with [editingId], they still
    agree after any sequence of events, whatever the network answers,
    provided no event of the sequence is a click on the edit button of a
    task whose due date is not a date: that click throws half-way through
    [populateForm] and leaves [editingId] set under the old chrome. *)
Theorem form_chrome_follows_editingId :
  forall env evs w,
    formModeConsistent w ->
    editsConvert env evs w = true ->
    formModeConsistent (run env evs w).
Proof.
  intros env evs. induction evs as [|ev evs IH]; intros w Inv Conv; cbn [run];
    [exact Inv|].
  cbn [editsConvert] in Conv. apply andb_true_iff in Conv. destruct Conv as [C1 C2].
  apply negb_true_iff in C1.
  apply IH; [now apply dispatch_formModeConsistent | exact C2].
Qed.

Lemma form_chrome_follows_editingId_witness :
  formModeConsistent
    (run sample_env [DOMContentLoaded; clickEdit 5; Submit; clickEdit 1; CancelEditClick;
                     clickEdit 5]
       (page [listing [task1; task5]; not_found])).
Proof.
  apply form_chrome_follows_editingId; [repeat split | vm_compute; reflexivity].
Defined.

Lemma dispatch_idle env ev w : idle w -> idle (exec (dispatch env ev) w).
Proof.
  unfold idle at 1. intros [Hs Hl].
  assert (Same : forall w',
             sameForm w w' -> spinnerReleased w w' -> idle w').
  { intros w' [_ Kf] Kl. unfold idle. rewrite Kf. split; [exact Hs | exact (Kl Hl)]. }
  destruct ev as [| | |e|pill|v| | | |onOverlay|fld v|key]; cbn [dispatch].
  - destruct (loadTasks_keeps env w) as (_ & K & Kl). apply Same; [exact K|].
    intros _; exact Kl.
  - destruct (handleFormSubmit_keeps env w) as (_ & Kl & Kb & _).
    split; [exact (Kb Hs) | exact (Kl Hl)].
  - destruct w; split; [exact Hs | exact Hl].
  - unfold handleTaskListClick.
    destruct (completeBtn e) as [c|].
    { destruct (handleComplete_keeps env c w) as (_ & K & Kl). now apply Same. }
    destruct (editBtn e) as [c|].
    { destruct (handleEdit_keeps env c w) as (_ & Ka & _ & Kb).
      unfold idle. rewrite Ka, Kb. now split. }
    destruct (deleteBtn e); destruct w; split; [exact Hs | exact Hl | exact Hs | exact Hl].
  - destruct (handleStatusPillClick_keeps env pill w) as ((_ & Kf) & _ & _ & _ & _ & Kl).
    unfold idle. rewrite Kf, Kl. now split.
  - destruct w; split; [exact Hs | exact Hl].
  - destruct (loadTasks_keeps env w) as (_ & K & Kl). apply Same; [exact K|].
    intros _; exact Kl.
  - destruct w; split; [exact Hs | exact Hl].
  - destruct (confirmDelete_keeps env w) as (_ & K & Kl & _). now apply Same.
  - destruct w, onOverlay; split; first [exact Hs | exact Hl].
  - destruct w, fld; split; first [exact Hs | exact Hl].
  - destruct w as [st d snt net]. js_step.
    destruct ((key =? "Escape") && negb (confirmModal_hidden d));
      split; first [exact Hs | exact Hl].
Qed.

(** X7. No busy indicator is left on: from a page whose submit button is
    enabled and whose spinner is hidden, any sequence of events, whatever
    the network answers (rejections and error statuses included), ends with
    the submit button enabled and the spinner hidden. *)
Theorem busy_indicators_are_released :
  forall env evs w, idle w -> idle (run env evs w).
Proof.
  intros env evs. induction evs as [|ev evs IH]; intros w Inv; cbn [run]; [exact Inv|].
  apply IH, dispatch_idle, Inv.
Qed.

Lemma busy_indicators_are_released_witness :
  idle (run sample_env [DOMContentLoaded; Input FTitle "B"; Submit; RefreshClick]
          (page [unavailable; created])).
Proof.
  apply busy_indicators_are_released. split; reflexivity.
Defined.

(** ** Changing a filter *)

Lemma togglePillsFrom_nth j k ps n :
  nth_error (togglePillsFrom j k ps) n
  = option_map
      (fun p => {| filterStatus := filterStatus p; pill_active := Nat.eqb (j + n) k;
                   aria_pressed := if Nat.eqb (j + n) k then "true" else "false" |})
      (nth_error ps n).
Proof.
  revert j n. induction ps as [|p ps IH]; intros j n.
  - destruct n; reflexivity.
  - destruct n as [|n]; cbn [togglePillsFrom nth_error option_map].
    + now rewrite Nat.add_0_r.
    + rewrite IH. now rewrite Nat.add_succ_r.
Qed.

(** X8. Changing a filter is purely local.  A click on the pill at position
    [k] makes that pill's value the status filter, makes it the only active
    pill (class and [aria-pressed] alike) without touching the pills'
    values, and a change of the priority control makes its value the
    priority filter; in both cases no request is sent, the snapshot is kept,
    and the list area shows the cards of the snapshot's tasks that pass the
    new filters.  A click that hits no pill changes nothing. *)
Theorem filter_change_is_local :
  forall env w,
    (forall k p,
        nth_error (filterPills (DOM w)) k = Some p ->
        let w' := exec (dispatch env (FilterPillsClick (Some k))) w in
        activeStatus (state w') = filterStatus p
        /\ activePriority (state w') = activePriority (state w)
        /\ (forall j,
              nth_error (filterPills (DOM w')) j
              = option_map
                  (fun q => {| filterStatus := filterStatus q;
                               pill_active := Nat.eqb j k;
                               aria_pressed := if Nat.eqb j k then "true" else "false" |})
                  (nth_error (filterPills (DOM w)) j))
        /\ sent w' = sent w
        /\ tasks (state w') = tasks (state w)
        /\ displayed w' = join (map (buildCard env) (filtered (state w'))))
    /\ (forall v,
          let w' := exec (dispatch env (PriorityFilterChange v)) w in
          activePriority (state w') = v
          /\ activeStatus (state w') = activeStatus (state w)
          /\ sent w' = sent w
          /\ tasks (state w') = tasks (state w)
          /\ displayed w' = join (map (buildCard env) (filtered (state w'))))
    /\ exec (dispatch env (FilterPillsClick None)) w = w.
Proof.
  intros env w. destruct w as [st d snt net]. split; [|split].
  - intros k p Hk. cbv zeta. cbn [dispatch]. unfold handleStatusPillClick.
    cbn [DOM] in Hk. js_step. rewrite Hk. js_step. dom_simpl.
    repeat split. intros j. unfold togglePills. now rewrite togglePillsFrom_nth.
  - intros v. cbv zeta. repeat split.
  - reflexivity.
Qed.

Lemma filter_change_is_local_witness :
  map pill_active
    (filterPills (DOM (exec (dispatch sample_env (FilterPillsClick (Some 2)))
                         (loaded []))))
  = [false; false; true; false]
  /\ activeStatus (state (exec (dispatch sample_env (FilterPillsClick (Some 2)))
                            (loaded []))) = "in_progress"
  /\ displayed (exec (dispatch sample_env (FilterPillsClick (Some 2))) (loaded []))
     = buildCard sample_env task5.
Proof.
  destruct (filter_change_is_local sample_env (loaded [])) as (P & _).
  destruct (P 2%nat (pill "in_progress" false) eq_refl) as (Ha & _ & _ & _ & _ & Hd).
  split; [vm_compute; reflexivity|]. split; [exact Ha|].
  etransitivity; [exact Hd|]. vm_compute. reflexivity.
Defined.

(** ** The view *)

Lemma filtered_viewOf st :
  filtered st = viewOf (activeStatus st) (activePriority st) (tasks st).
Proof. unfold viewOf. now apply filtered_as. Qed.

Lemma filter_filter {A} (f g : A -> bool) (l : list A) :
  filter g (filter f l) = filter (fun x => f x && g x) l.
Proof.
  induction l as [|x l IH]; [reflexivity|]. cbn [filter].
  destruct (f x); cbn [filter andb]; [destruct (g x)|]; now rewrite IH.
Qed.

Lemma filter_all {A} (f : A -> bool) (l : list A) :
  (forall x, f x = true) -> filter f l = l.
Proof.
  intros H. induction l as [|x l IH]; [reflexivity|]. cbn [filter].
  now rewrite H, IH.
Qed.

(** X9. The rendered view is the snapshot filtered by the two filters, and
    the filters compose: with both set to [all] every task is shown; the
    view under a pair of filters is the view under the status filter alone
    narrowed by the priority filter, and equally the other way round;
    filtering a view again by the same filters changes nothing; and every
    task shown is a task of the snapshot that matches both filters. *)
Theorem view_composition :
  forall s p l,
    (forall st, filtered st = viewOf (activeStatus st) (activePriority st) (tasks st))
    /\ viewOf "all" "all" l = l
    /\ viewOf s p l = viewOf "all" p (viewOf s "all" l)
    /\ viewOf s p l = viewOf s "all" (viewOf "all" p l)
    /\ viewOf s p (viewOf s p l) = viewOf s p l
    /\ (forall t, In t (viewOf s p l) <-> In t l /\ matchesFilters s p t)
    /\ (List.length (viewOf s p l) <= List.length l)%nat.
Proof.
  intros s p l. split; [exact filtered_viewOf|].
  unfold viewOf, filterOk. cbn [activeStatus activePriority].
  split.
  { apply filter_all. intros t. reflexivity. }
  split.
  { rewrite filter_filter. apply filter_ext. intros t.
    cbn [String.eqb Ascii.eqb Bool.eqb orb andb]. now rewrite andb_true_r. }
  split.
  { rewrite filter_filter. apply filter_ext. intros t.
    cbn [String.eqb Ascii.eqb Bool.eqb orb andb]. rewrite andb_true_r. apply andb_comm. }
  split.
  { rewrite filter_filter. apply filter_ext. intros t. now rewrite andb_diag. }
  split.
  { intros t. rewrite filter_In. unfold matchesFilters.
    rewrite andb_true_iff, !orb_true_iff, !String.eqb_eq. tauto. }
  apply filter_length_le.
Qed.

(** X10. After a render the empty-state notice is shown exactly when no task
    passes the filters (the list area is then empty), while the badge counts
    every task of the snapshot, filtered out or not, with the noun in the
    singular for exactly one task; rendering touches neither the state, nor
    the form, nor the network, and rendering twice is rendering once. *)
Theorem renderTaskList_notice_and_badge :
  forall env w,
    (emptyState_hidden (listArea (DOM (exec (renderTaskList env) w))) = false
     <-> filtered (state w) = [])
    /\ (filtered (state w) = [] -> displayed (exec (renderTaskList env) w) = "")
    /\ taskCountBadge_text (listArea (DOM (exec (renderTaskList env) w)))
       = show_int (Z.of_nat (List.length (tasks (state w))))
         ++ (if Nat.eqb (List.length (tasks (state w))) 1 then " task" else " tasks")
    /\ state (exec (renderTaskList env) w) = state w
    /\ form (DOM (exec (renderTaskList env) w)) = form (DOM w)
    /\ sent (exec (renderTaskList env) w) = sent w
    /\ exec (renderTaskList env) (exec (renderTaskList env) w)
       = exec (renderTaskList env) w.
Proof.
  intros env w. destruct w as [st d snt net].
  split.
  { cbn [state]. js_step. dom_simpl. destruct (filtered st) as [|t l]; cbn; split;
      intros H; first [reflexivity | discriminate H]. }
  split.
  { cbn [state]. intros H. js_step. dom_simpl. now rewrite H. }
  split.
  { js_step. dom_simpl. unfold badgeText.
    destruct (Nat.eqb (List.length (tasks st)) 1); reflexivity. }
  repeat split.
Qed.

(** ** Editing *)

Lemma handleEdit_found env i t w :
  find (fun t => (id t =? i)%Z) (tasks (state w)) = Some t ->
  exec (handleEdit env i) w = exec (populateForm env t) w.
Proof.
  intros H. destruct w as [st d snt net]. cbn [state] in H.
  unfold handleEdit. js_step. rewrite H. reflexivity.
Qed.

Lemma handleEdit_missing env i w :
  find (fun t => (id t =? i)%Z) (tasks (state w)) = None ->
  exec (handleEdit env i) w = exec (showToast "Task not found in local state." "error") w.
Proof.
  intros H. destruct w as [st d snt net]. cbn [state] in H.
  unfold handleEdit. js_step. rewrite H. reflexivity.
Qed.

(** [populateForm] when the due date converts to [due]: everything is
    written. *)
Lemma populateForm_completes env t due w :
  localInput env t = Some due ->
  let w' := exec (populateForm env t) w in
  editingId (state w') = Some (id t)
  /\ taskId_value (form (DOM w')) = show_int (id t)
  /\ fields (form (DOM w')) = fieldsOf t due
  /\ formHeading_text (form (DOM w')) = "Edit Task"
  /\ submitLabel_text (form (DOM w')) = "Save Changes"
  /\ cancelEditBtn_hidden (form (DOM w')) = false
  /\ formPanel_editing (form (DOM w')) = true
  /\ activeElement (DOM w') = ElTitle
  /\ toastContainer (DOM w') = toastContainer (DOM w).
Proof.
  destruct w as [st d snt net].
  unfold populateForm, localInput, truthy_str, fieldsOf. js_step.
  destruct (due_date t) as [s|]; [destruct (s =? ""); cbn [negb]|].
  - intros [= <-]. js_step. repeat split.
  - intros ->. js_step. repeat split.
  - intros [= <-]. js_step. repeat split.
Qed.

(** [populateForm] when the conversion throws: [editingId], the hidden id
    and the first three controls are written, the rest is as it was. *)
Lemma populateForm_throws env t w :
  localInput env t = None ->
  let w' := exec (populateForm env t) w in
  editingId (state w') = Some (id t)
  /\ taskId_value (form (DOM w')) = show_int (id t)
  /\ fields (form (DOM w')) = fieldsOf t (f_dueDate (fields (form (DOM w))))
  /\ formHeading_text (form (DOM w')) = formHeading_text (form (DOM w))
  /\ submitLabel_text (form (DOM w')) = submitLabel_text (form (DOM w))
  /\ cancelEditBtn_hidden (form (DOM w')) = cancelEditBtn_hidden (form (DOM w))
  /\ formPanel_editing (form (DOM w')) = formPanel_editing (form (DOM w))
  /\ activeElement (DOM w') = activeElement (DOM w)
  /\ toastContainer (DOM w') = toastContainer (DOM w).
Proof.
  destruct w as [st d snt net].
  unfold populateForm, localInput, truthy_str, fieldsOf. js_step.
  destruct (due_date t) as [s|]; [destruct (s =? ""); cbn [negb]|]; try discriminate.
  intros ->. js_step. repeat split.
Qed.

(** X11. A click on the edit button of id [i] sends no request and leaves
    the snapshot and the list area alone.  If the snapshot holds a task with
    that id, the first such task is taken: [editingId] becomes [i], the
    hidden id field holds [i] and nothing is notified.  When its due date
    converts (or it has none), the call completes, the controls hold the
    task's title, description (blank when absent), priority and converted
    due date (blank when absent), the form reads Edit Task / Save Changes
    with the cancel button shown, and the title has the focus.  When its
    due date is not a date, the call throws: title, description and priority
    are written, but the due-date control, the heading, the submit label,
    the cancel button, the panel class and the focus are as they were.  If
    the snapshot holds no such task, the call completes, the state and the
    form are untouched and one error toast says so. *)
Theorem begin_edit :
  forall env i w,
    let w' := exec (dispatch env (clickEdit i)) w in
    sent w' = sent w
    /\ tasks (state w') = tasks (state w)
    /\ listArea (DOM w') = listArea (DOM w)
    /\ match find (fun t => (id t =? i)%Z) (tasks (state w)) with
       | Some t =>
           id t = i /\ In t (tasks (state w))
           /\ editingId (state w') = Some i
           /\ taskId_value (form (DOM w')) = show_int i
           /\ toastContainer (DOM w') = toastContainer (DOM w)
           /\ match localInput env t with
              | Some due =>
                  fst (dispatch env (clickEdit i) w) = Normal tt
                  /\ fields (form (DOM w')) = fieldsOf t due
                  /\ formHeading_text (form (DOM w')) = "Edit Task"
                  /\ submitLabel_text (form (DOM w')) = "Save Changes"
                  /\ cancelEditBtn_hidden (form (DOM w')) = false
                  /\ formPanel_editing (form (DOM w')) = true
                  /\ activeElement (DOM w') = ElTitle
              | None =>
                  fst (dispatch env (clickEdit i) w) = Throw "Invalid time value"
                  /\ fields (form (DOM w'))
                     = fieldsOf t (f_dueDate (fields (form (DOM w))))
                  /\ formHeading_text (form (DOM w')) = formHeading_text (form (DOM w))
                  /\ submitLabel_text (form (DOM w')) = submitLabel_text (form (DOM w))
                  /\ cancelEditBtn_hidden (form (DOM w'))
                     = cancelEditBtn_hidden (form (DOM w))
                  /\ formPanel_editing (form (DOM w')) = formPanel_editing (form (DOM w))
                  /\ activeElement (DOM w') = activeElement (DOM w)
              end
       | None =>
           (forall t, In t (tasks (state w)) -> id t <> i)
           /\ fst (dispatch env (clickEdit i) w) = Normal tt
           /\ state w' = state w
           /\ form (DOM w') = form (DOM w)
           /\ toastContainer (DOM w')
              = (toastContainer (DOM w)
                 ++ [toastOf "Task not found in local state." "error"])%list
       end.
Proof.
  intros env i w. cbv zeta.
  cbn [dispatch clickEdit handleTaskListClick completeBtn editBtn].
  destruct (handleEdit_keeps env i w) as (_ & Kl & Kt & _).
  split; [apply handleEdit_sent|]. split; [exact Kt|]. split; [exact Kl|].
  pose proof (handleEdit_completion env i w) as C.
  destruct (find _ _) as [t|] eqn:F.
  - rewrite (handleEdit_found env i t w F).
    destruct (find_some _ _ F) as [Hin Hid]. apply Z.eqb_eq in Hid.
    split; [exact Hid|]. split; [exact Hin|]. subst i.
    destruct (localInput env t) as [due|] eqn:L; cbn [present] in C.
    + destruct (populateForm_completes env t due w L)
        as (P1 & P2 & P3 & P4 & P5 & P6 & P7 & P8 & P9).
      repeat split; assumption.
    + destruct (populateForm_throws env t w L)
        as (P1 & P2 & P3 & P4 & P5 & P6 & P7 & P8 & P9).
      repeat split; assumption.
  - rewrite (handleEdit_missing env i w F).
    split.
    { intros t Hin Hid. pose proof (find_none _ _ F t Hin) as N. cbn beta in N.
      apply Z.eqb_neq in N. contradiction. }
    split; [exact C|].
    destruct w; repeat split.
Qed.

Lemma begin_edit_witness :
  fst (dispatch dateless_env (clickEdit 7) dateless_page) = Throw "Invalid time value"
  /\ editingId (state (exec (dispatch dateless_env (clickEdit 7)) dateless_page))
     = Some 7%Z
  /\ fields (form (DOM (exec (dispatch dateless_env (clickEdit 7)) dateless_page)))
     = {| f_title := "C"; f_description := "c"; f_priority := "high";
          f_dueDate := "2030-01-01T10:00" |}
  /\ formHeading_text
       (form (DOM (exec (dispatch dateless_env (clickEdit 7)) dateless_page)))
     = "Add New Task".
Proof.
  pose proof (begin_edit dateless_env 7 dateless_page) as B.
  cbv zeta in B. destruct B as (_ & _ & _ & B).
  change (find (fun t => (id t =? 7)%Z) (tasks (state dateless_page)))
    with (Some task7) in B.
  destruct B as (_ & _ & He & _ & _ & B).
  change (localInput dateless_env task7) with (@None string) in B.
  destruct B as (Ht & Hf & Hh & _).
  split; [exact Ht|]. split; [exact He|]. split; [exact Hf|]. exact Hh.
Defined.

(** X12. Beginning an edit and cancelling it, whatever the id and whether or
    not the task was found, leaves the controller in Create mode with the
    form controls at their defaults, the hidden id field blank and the
    validation mark cleared; no request is sent and the state is otherwise
    as before. *)
Theorem edit_then_cancel :
  forall env i w,
    let w' := run env [clickEdit i; CancelEditClick] w in
    editingId (state w') = None
    /\ fields (form (DOM w')) = defaults (form (DOM w))
    /\ taskId_value (form (DOM w')) = ""
    /\ title_invalid (form (DOM w')) = false
    /\ formModeConsistent w'
    /\ sent w' = sent w
    /\ state w' = set_editingId None (state w)
    /\ listArea (DOM w') = listArea (DOM w).
Proof.
  intros env i w. cbv zeta.
  cbn [run dispatch clickEdit handleTaskListClick completeBtn editBtn].
  destruct (find (fun t => (id t =? i)%Z) (tasks (state w))) as [t|] eqn:F.
  - rewrite (handleEdit_found env i t w F).
    destruct w as [st d snt net]. unfold populateForm. js_step.
    destruct (due_date t) as [s|];
      [destruct (truthy_str s); [destruct (toLocalInput env s)|]|];
      js_step; dom_simpl; repeat split.
  - rewrite (handleEdit_missing env i w F).
    destruct w as [st d snt net]. js_step. dom_simpl. repeat split.
Qed.

(** ** The requests of one event *)

Lemma submitRequest_method env w :
  (req_method (submitRequest env w) =? "GET") = false.
Proof.
  unfold submitRequest.
  destruct (editingId (state w)) as [i|]; [destruct (i =? 0)%Z|]; reflexivity.
Qed.

Lemma handleFormSubmit_traffic env w :
  trim (f_title (fields (form (DOM w)))) <> "" ->
  exists s rest,
    sent (exec (handleFormSubmit env) w) = (sent w ++ s :: rest)%list
    /\ request s = submitRequest env w
    /\ (rest = [] \/ exists g, rest = [g] /\ isGet g = true).
Proof.
  intros V. rewrite (handleFormSubmit_cases env w V). cbv zeta.
  unfold submitRequest.
  destruct w as [st d snt net].
  destruct (fetchResult _) as [b|e].
  - js_after_load. destruct Frame as (Fs & _).
    eexists. eexists. split; [js_run; rewrite Fs, <- app_assoc; reflexivity|].
    split; [reflexivity|]. right. eexists. split; reflexivity.
  - eexists. eexists. split; [js_run; reflexivity|].
    split; [reflexivity|]. left. reflexivity.
Qed.

Lemma handleComplete_traffic env i w :
  exists s rest,
    sent (exec (handleComplete env i) w) = (sent w ++ s :: rest)%list
    /\ request s = completeRequest env i
    /\ (rest = [] \/ exists g, rest = [g] /\ isGet g = true).
Proof.
  rewrite handleComplete_cases. cbv zeta.
  destruct w as [st d snt net].
  destruct (fetchResult _) as [b|e].
  - js_after_load. destruct Frame as (Fs & _).
    eexists. eexists. split; [rewrite Fs, <- app_assoc; reflexivity|].
    split; [reflexivity|]. right. eexists. split; reflexivity.
  - eexists. eexists. split; [js_run; reflexivity|].
    split; [reflexivity|]. left. reflexivity.
Qed.

Lemma confirmDelete_traffic env i w :
  pendingDeleteId (state w) = Some i -> i <> 0%Z ->
  exists s rest,
    sent (exec (confirmDelete env) w) = (sent w ++ s :: rest)%list
    /\ request s = deleteRequest env i
    /\ (rest = [] \/ exists g, rest = [g] /\ isGet g = true).
Proof.
  intros Hp Hi. rewrite (confirmDelete_cases env i w Hp Hi). cbv zeta.
  destruct w as [st d snt net].
  destruct (fetchResult _) as [b|e].
  - js_after_load. destruct Frame as (Fs & _).
    eexists. eexists. split; [rewrite Fs, <- app_assoc; reflexivity|].
    split; [reflexivity|]. right. eexists. split; reflexivity.
  - eexists. eexists. split; [js_run; reflexivity|].
    split; [reflexivity|]. left. reflexivity.
Qed.

Lemma traffic_of_mutation s rest :
  isGet s = false ->
  rest = [] \/ (exists g, rest = [g] /\ isGet g = true) ->
  traffic (s :: rest).
Proof.
  intros Hs [->|(g & -> & Hg)]; unfold traffic.
  - right. right. left. now exists s.
  - right. right. right. now exists s, g.
Qed.

Lemma traffic_silent w w' :
  sent w' = sent w ->
  exists news, sent w' = (sent w ++ news)%list /\ traffic news.
Proof. intros H. exists []. rewrite app_nil_r. split; [exact H | now left]. Qed.

Lemma loadTasks_traffic env w :
  exists news, sent (exec (loadTasks env) w) = (sent w ++ news)%list /\ traffic news.
Proof.
  destruct (loadTasks_frame env w) as (Fs & _).
  eexists. split; [exact Fs|]. right. left. eexists. split; reflexivity.
Qed.

(** X13. Whatever the event and whatever the network answers, a handler
    only appends to the log of requests, and what it appends is nothing, one
    list request, or one mutation request followed by at most one list
    request: no event causes two mutations or two reloads, nothing is sent
    after a list request, and never more than two requests leave. *)
Theorem request_budget :
  forall env ev w,
    exists news,
      sent (exec (dispatch env ev) w) = (sent w ++ news)%list
      /\ traffic news
      /\ (List.length news <= 2)%nat
      /\ (List.length (filter isGet news) <= 1)%nat
      /\ (List.length (filter (fun s => negb (isGet s)) news) <= 1)%nat.
Proof.
  intros env ev w.
  assert (T : exists news,
             sent (exec (dispatch env ev) w) = (sent w ++ news)%list /\ traffic news).
  { destruct ev as [| | |e|pill|v| | | |onOverlay|fld v|key]; cbn [dispatch].
    - apply loadTasks_traffic.
    - destruct (string_dec (trim (f_title (fields (form (DOM w))))) "") as [B|V].
      + apply traffic_silent. rewrite (handleFormSubmit_blank env w B).
        rewrite (readForm_blank env w B). reflexivity.
      + destruct (handleFormSubmit_traffic env w V) as (s & rest & Hs & Hr & Hg).
        exists (s :: rest). split; [exact Hs|].
        apply traffic_of_mutation; [|exact Hg].
        unfold isGet. rewrite Hr. apply submitRequest_method.
    - apply traffic_silent. destruct w; reflexivity.
    - unfold handleTaskListClick.
      destruct (completeBtn e) as [c|].
      { destruct (handleComplete_traffic env c w) as (s & rest & Hs & Hr & Hg).
        exists (s :: rest). split; [exact Hs|].
        apply traffic_of_mutation; [|exact Hg].
        unfold isGet. rewrite Hr. reflexivity. }
      apply traffic_silent.
      destruct (editBtn e) as [i|]; [apply handleEdit_sent|].
      destruct (deleteBtn e); destruct w; reflexivity.
    - apply traffic_silent, handleStatusPillClick_sent.
    - apply traffic_silent. destruct w; reflexivity.
    - apply loadTasks_traffic.
    - apply traffic_silent. destruct w; reflexivity.
    - destruct (pendingDeleteId (state w)) as [i|] eqn:Hp.
      2:{ apply traffic_silent. now rewrite confirmDelete_idle by auto. }
      destruct (Z.eq_dec i 0) as [->|Hi].
      { apply traffic_silent. now rewrite confirmDelete_idle by auto. }
      destruct (confirmDelete_traffic env i w Hp Hi) as (s & rest & Hs & Hr & Hg).
      exists (s :: rest). split; [exact Hs|].
      apply traffic_of_mutation; [|exact Hg].
      unfold isGet. rewrite Hr. reflexivity.
    - apply traffic_silent. destruct w, onOverlay; reflexivity.
    - apply traffic_silent. destruct w, fld; reflexivity.
    - apply traffic_silent. destruct w as [st d snt net]. js_step.
      destruct ((key =? "Escape") && negb (confirmModal_hidden d)); reflexivity. }
  destruct T as (news & Hs & Ht). exists news.
  split; [exact Hs|]. split; [exact Ht|].
  destruct Ht as [->|[(g & -> & Hg)|[(s & -> & Hm)|(s & g & -> & Hm & Hg)]]];
    cbn [List.length filter]; rewrite ?Hg, ?Hm; cbn [negb List.length];
    repeat split; auto.
Qed.

(** ** Saving an edit *)

Lemma populateForm_world env t w :
  editingId (state (exec (populateForm env t) w)) = Some (id t)
  /\ f_title (fields (form (DOM (exec (populateForm env t) w)))) = title t
  /\ f_description (fields (form (DOM (exec (populateForm env t) w))))
     = match description t with Some s => s | None => "" end
  /\ f_priority (fields (form (DOM (exec (populateForm env t) w)))) = priority t
  /\ (due_date t = None ->
      f_dueDate (fields (form (DOM (exec (populateForm env t) w)))) = "")
  /\ sent (exec (populateForm env t) w) = sent w.
Proof.
  destruct w as [st d snt net]. unfold populateForm. js_step.
  destruct (due_date t) as [s|];
    [destruct (truthy_str s); [destruct (toLocalInput env s)|]|];
    js_step; dom_simpl; repeat split; discriminate.
Qed.

(** X14. Opening a task of the snapshot for editing and saving it without
    touching a control sends, as the first request of the submit, a [PUT] to
    that task's URL; the body carries the task's title trimmed, its
    priority, its description trimmed ([null] when the task has none or a
    blank one), and no due date when the task has none.  The task needs a
    non-zero id and a title that is not blank. *)
Theorem edit_then_submit :
  forall env i t w,
    find (fun t => (id t =? i)%Z) (tasks (state w)) = Some t ->
    i <> 0%Z ->
    trim (title t) <> "" ->
    exists s rest p,
      sent (run env [clickEdit i; Submit] w) = (sent w ++ s :: rest)%list
      /\ req_method (request s) = "PUT"
      /\ req_url (request s) = API.task env i
      /\ req_body (request s) = Some p
      /\ payload_title p = trim (title t)
      /\ payload_priority p = priority t
      /\ payload_description p
         = match description t with
           | Some s => if trim s =? "" then None else Some (trim s)
           | None => None
           end
      /\ (due_date t = None -> payload_due_date p = None).
Proof.
  intros env i t w F Hi Ht.
  cbn [run dispatch clickEdit handleTaskListClick completeBtn editBtn].
  rewrite (handleEdit_found env i t w F).
  destruct (find_some _ _ F) as [_ Hid]. apply Z.eqb_eq in Hid.
  destruct (populateForm_world env t w) as (He & Hf & Hd & Hp & Hdue & Hs).
  assert (V : trim (f_title (fields (form (DOM (exec (populateForm env t) w))))) <> "").
  { rewrite Hf. exact Ht. }
  destruct (handleFormSubmit_traffic env _ V) as (s & rest & Hsent & Hr & _).
  exists s, rest, (formPayload env (DOM (exec (populateForm env t) w))).
  rewrite Hsent, Hs. split; [reflexivity|].
  rewrite Hr. unfold submitRequest. rewrite He, Hid.
  apply Z.eqb_neq in Hi. rewrite Hi.
  unfold formPayload. cbv zeta. rewrite Hf, Hd, Hp.
  cbn [updateRequest req_method req_url req_body payload_title payload_priority
       payload_description payload_due_date].
  repeat split.
  - unfold truthy_str. destruct (description t) as [x|].
    + destruct (trim x =? ""); reflexivity.
    + reflexivity.
  - intros N. rewrite (Hdue N). reflexivity.
Qed.

Lemma edit_then_submit_witness :
  exists s rest p,
    sent (run sample_env [clickEdit 1; Submit] (loaded [unavailable]))
    = (sent (loaded [unavailable]) ++ s :: rest)%list
    /\ req_method (request s) = "PUT"
    /\ req_body (request s) = Some p
    /\ payload_title p = trim (title task1).
Proof.
  assert (F : find (fun t => (id t =? 1)%Z) (tasks (state (loaded [unavailable])))
              = Some task1) by (vm_compute; reflexivity).
  assert (Hi : 1%Z <> 0%Z) by discriminate.
  assert (Ht : trim (title task1) <> "") by (vm_compute; discriminate).
  destruct (edit_then_submit sample_env 1 task1 (loaded [unavailable]) F Hi Ht)
    as (s & rest & p & Hs & Hm & _ & Hb & Hp & _).
  exists s, rest, p. repeat split; assumption.
Defined.

(** ** The number 0 as an id *)

(** X15. The handlers test ids for truthiness, so the number 0 is read as no
    id at all: with [editingId] at 0 a valid submit sends a create request
    (a [POST] to the collection), not an update, and with [pendingDeleteId]
    at 0 the confirm button does nothing: no request, the state and the
    modal as they were. *)
Theorem zero_id_is_read_as_absent :
  forall env w,
    (editingId (state w) = Some 0%Z ->
     trim (f_title (fields (form (DOM w)))) <> "" ->
     exists s rest,
       sent (exec (dispatch env Submit) w) = (sent w ++ s :: rest)%list
       /\ request s = createRequest env (formPayload env (DOM w)))
    /\ (pendingDeleteId (state w) = Some 0%Z ->
        exec (dispatch env ModalConfirmClick) w = w).
Proof.
  intros env w. split.
  - intros He V. cbn [dispatch].
    destruct (handleFormSubmit_traffic env w V) as (s & rest & Hs & Hr & _).
    exists s, rest. split; [exact Hs|].
    rewrite Hr. unfold submitRequest. rewrite He. reflexivity.
  - intros Hp. cbn [dispatch]. apply confirmDelete_idle. now right.
Qed.

(** ** The payload of the form *)





Lemma zero_id_is_read_as_absent_witness :
  editingId (state editing_zero) = Some 0%Z
  /\ exists s rest,
       sent (exec (dispatch sample_env Submit) editing_zero)
       = (sent editing_zero ++ s :: rest)%list
       /\ req_method (request s) = "POST".
Proof.
  split; [vm_compute; reflexivity|].
  assert (He : editingId (state editing_zero) = Some 0%Z) by (vm_compute; reflexivity).
  assert (V : trim (f_title (fields (form (DOM editing_zero)))) <> "")
    by (vm_compute; discriminate).
  destruct (zero_id_is_read_as_absent sample_env editing_zero) as (Hz & _).
  destruct (Hz He V) as (s & rest & Hs & Hr).
  exists s, rest. split; [exact Hs|]. rewrite Hr. reflexivity.
Defined.

(** ** The snapshot *)

Lemma loadTasks_snapshot env w : snapshotFrom w (exec (loadTasks env) w).
Proof.
  destruct (loadTasks_frame env w) as (Fs & _).
  pose proof (loadTasks_outcome env w) as O. cbv zeta in O.
  unfold snapshotFrom. destruct (fetchResult (next w)) as [b|e] eqn:F.
  - right. destruct O as (Ot & _). eexists. eexists. exists b.
    split; [exact Fs|]. split; [apply le_n|]. split; [reflexivity|].
    split; [exact F | exact Ot].
  - left. now destruct O as (Ot & _).
Qed.

Lemma snapshotFrom_after s w X L :
  tasks (state X) = tasks (state w) ->
  network X = network w ->
  sent X = (sent w ++ [s])%list ->
  snapshotFrom X L -> snapshotFrom w L.
Proof.
  intros Ht Hn Hs [E|(pre & g & b & Hp & Hl & Hg & Hf & Hb)].
  - left. now rewrite E.
  - right. exists pre, g, b. rewrite Hn in Hf.
    split; [exact Hp|]. split; [|now repeat split].
    rewrite Hs, length_app in Hl. cbn [List.length] in Hl.
    apply Nat.le_trans with (2 := Hl). apply Nat.le_add_r.
Qed.

Lemma handleComplete_snapshot env i w : snapshotFrom w (exec (handleComplete env i) w).
Proof.
  rewrite handleComplete_cases. cbv zeta.
  destruct (fetchResult (next w)) as [b|e].
  - eapply snapshotFrom_after; [| | |apply loadTasks_snapshot];
      destruct w; reflexivity.
  - left. destruct w; reflexivity.
Qed.

Lemma confirmDelete_snapshot env w : snapshotFrom w (exec (confirmDelete env) w).
Proof.
  destruct (pendingDeleteId (state w)) as [i|] eqn:Hp.
  2:{ left. now rewrite confirmDelete_idle by auto. }
  destruct (Z.eq_dec i 0) as [->|Hi].
  { left. now rewrite confirmDelete_idle by auto. }
  rewrite (confirmDelete_cases env i w Hp Hi). cbv zeta.
  destruct (fetchResult (next w)) as [b|e].
  - eapply snapshotFrom_after; [| | |apply loadTasks_snapshot];
      destruct w; reflexivity.
  - left. destruct w; reflexivity.
Qed.

Lemma setSubmitting_snapshot w L b :
  snapshotFrom w L -> snapshotFrom w (exec (setSubmitting b) L).
Proof. destruct L as [lst ld lsnt lnet]. intros H. exact H. Qed.

Lemma handleFormSubmit_snapshot env w : snapshotFrom w (exec (handleFormSubmit env) w).
Proof.
  destruct (string_dec (trim (f_title (fields (form (DOM w))))) "") as [B|V].
  - left. rewrite (handleFormSubmit_blank env w B), (readForm_blank env w B).
    destruct w; reflexivity.
  - rewrite (handleFormSubmit_cases env w V). cbv zeta.
    destruct (fetchResult (next w)) as [b|e].
    + apply setSubmitting_snapshot.
      eapply snapshotFrom_after; [| | |apply loadTasks_snapshot];
        destruct w; reflexivity.
    + left. destruct w; reflexivity.
Qed.

(** X17. The client never edits its snapshot of the tasks: whatever the
    event and whatever the network answers, afterwards [state.tasks] is what
    it was, or it is the task list carried by a successful answer to a list
    request that the event sent, and that request is the last one sent. *)
Theorem snapshot_only_from_list_response :
  forall env ev w, snapshotFrom w (exec (dispatch env ev) w).
Proof.
  intros env ev w.
  destruct ev as [| | |e|pill|v| | | |onOverlay|fld v|key]; cbn [dispatch].
  - apply loadTasks_snapshot.
  - apply handleFormSubmit_snapshot.
  - left. destruct w; reflexivity.
  - unfold handleTaskListClick.
    destruct (completeBtn e) as [c|]; [apply handleComplete_snapshot|].
    left. destruct (editBtn e) as [c|].
    { now destruct (handleEdit_keeps env c w) as (_ & _ & Kt & _). }
    destruct (deleteBtn e); destruct w; reflexivity.
  - left. now destruct (handleStatusPillClick_keeps env pill w) as (_ & _ & _ & _ & Kt & _).
  - left. destruct w; reflexivity.
  - apply loadTasks_snapshot.
  - left. destruct w; reflexivity.
  - apply confirmDelete_snapshot.
  - left. destruct w, onOverlay; reflexivity.
  - left. destruct w, fld; reflexivity.
  - left. destruct w as [st d snt net]. js_step.
    destruct ((key =? "Escape") && negb (confirmModal_hidden d)); reflexivity.
Qed.

(** ** The validation mark *)

Lemma readForm_validation env w :
  validationConsistent (snd (readForm env w))
  /\ (title_invalid (form (DOM (snd (readForm env w)))) = true ->
      trim (f_title (fields (form (DOM w)))) = "").
Proof.
  destruct (string_dec (trim (f_title (fields (form (DOM w))))) "") as [B|V].
  - rewrite (readForm_blank env w B). destruct w; split; [reflexivity | intros _; exact B].
  - rewrite (readForm_valid env w V). destruct w; split; [reflexivity | discriminate].
Qed.

Lemma handleFormSubmit_validation env w :
  trim (f_title (fields (form (DOM w)))) <> "" ->
  title_invalid (form (DOM (exec (handleFormSubmit env) w))) = false
  /\ titleError_hidden (form (DOM (exec (handleFormSubmit env) w))) = true.
Proof.
  intros V. rewrite (handleFormSubmit_cases env w V). cbv zeta.
  destruct w as [st d snt net].
  destruct (fetchResult _) as [b|e].
  - js_after_load_keeping K. destruct K as (_ & (_ & Ff) & _).
    js_run. dom_simpl. rewrite Ff. dom_simpl. split; reflexivity.
  - js_run. dom_simpl. split; reflexivity.
Qed.

Lemma handleEdit_validation env i w :
  title_invalid (form (DOM (exec (handleEdit env i) w))) = title_invalid (form (DOM w))
  /\ titleError_hidden (form (DOM (exec (handleEdit env i) w)))
     = titleError_hidden (form (DOM w)).
Proof. destruct w as [st d snt net]. js_edit; split; reflexivity. Qed.

(** X18. The validation mark of the title.  Whatever the event and whatever
    the network answers: the message is shown exactly while the field is
    marked, if that was so before; the field is marked afterwards only if it
    was marked before or the event is a submit with a blank title; and a
    submit with a title that is not blank, a click on Cancel edit and typing
    into the title leave it unmarked. *)
Theorem validation_mark :
  forall env ev w,
    (validationConsistent w -> validationConsistent (exec (dispatch env ev) w))
    /\ (title_invalid (form (DOM (exec (dispatch env ev) w))) = true ->
        title_invalid (form (DOM w)) = true
        \/ (ev = Submit /\ trim (f_title (fields (form (DOM w)))) = ""))
    /\ ((ev = Submit /\ trim (f_title (fields (form (DOM w)))) <> "")
        \/ ev = CancelEditClick \/ (exists v, ev = Input FTitle v) ->
        title_invalid (form (DOM (exec (dispatch env ev) w))) = false).
Proof.
  intros env ev w. unfold validationConsistent.
  destruct ev as [| | |e|pill|v| | | |onOverlay|fld v|key]; cbn [dispatch].
  - destruct (loadTasks_keeps env w) as (_ & (_ & Kf) & _). rewrite Kf.
    split; [auto|]. split; [auto|]. intros [[E _]|[E|[v E]]]; discriminate E.
  - destruct (string_dec (trim (f_title (fields (form (DOM w))))) "") as [B|V].
    + rewrite (handleFormSubmit_blank env w B), (readForm_blank env w B).
      split; [destruct w; reflexivity|]. split; [auto|].
      intros [[_ V]|[E|[v E]]]; [now elim V | discriminate E | discriminate E].
    + destruct (handleFormSubmit_validation env w V) as (Hi & Hh). rewrite Hi, Hh.
      split; [reflexivity|]. split; [discriminate | reflexivity].
  - split; [destruct w; reflexivity|]. split; [destruct w; discriminate|].
    destruct w; reflexivity.
  - assert (K : title_invalid (form (DOM (exec (handleTaskListClick env e) w)))
                = title_invalid (form (DOM w))
                /\ titleError_hidden (form (DOM (exec (handleTaskListClick env e) w)))
                   = titleError_hidden (form (DOM w))).
    { unfold handleTaskListClick. destruct (completeBtn e) as [c|].
      { destruct (handleComplete_keeps env c w) as (_ & (_ & Kf) & _).
        rewrite Kf. split; reflexivity. }
      destruct (editBtn e) as [c|]; [apply handleEdit_validation|].
      destruct (deleteBtn e); destruct w; split; reflexivity. }
    destruct K as (Ki & Kh). rewrite Ki, Kh.
    split; [auto|]. split; [auto|]. intros [[E _]|[E|[v E]]]; discriminate E.
  - destruct (handleStatusPillClick_keeps env pill w) as ((_ & Kf) & _). rewrite Kf.
    split; [auto|]. split; [auto|]. intros [[E _]|[E|[v E]]]; discriminate E.
  - split; [destruct w; auto|]. split; [destruct w; auto|].
    intros [[E _]|[E|[x E]]]; discriminate E.
  - destruct (loadTasks_keeps env w) as (_ & (_ & Kf) & _). rewrite Kf.
    split; [auto|]. split; [auto|]. intros [[E _]|[E|[v E]]]; discriminate E.
  - split; [destruct w; auto|]. split; [destruct w; auto|].
    intros [[E _]|[E|[x E]]]; discriminate E.
  - destruct (confirmDelete_keeps env w) as (_ & (_ & Kf) & _). rewrite Kf.
    split; [auto|]. split; [auto|]. intros [[E _]|[E|[v E]]]; discriminate E.
  - split; [destruct w, onOverlay; auto|]. split; [destruct w, onOverlay; auto|].
    intros [[E _]|[E|[x E]]]; discriminate E.
  - destruct fld.
    + split; [destruct w; reflexivity|]. split; [destruct w; discriminate|].
      destruct w; reflexivity.
    + split; [destruct w; auto|]. split; [destruct w; auto|].
      intros [[E _]|[E|[x E]]]; discriminate E.
    + split; [destruct w; auto|]. split; [destruct w; auto|].
      intros [[E _]|[E|[x E]]]; discriminate E.
    + split; [destruct w; auto|]. split; [destruct w; auto|].
      intros [[E _]|[E|[x E]]]; discriminate E.
  - assert (K : form (DOM (exec (dispatch env (KeyDown key)) w)) = form (DOM w)).
    { destruct w as [st d snt net]. cbn [dispatch]. js_step.
      destruct ((key =? "Escape") && negb (confirmModal_hidden d)); reflexivity. }
    cbn [dispatch] in K. rewrite K.
    split; [auto|]. split; [auto|]. intros [[E _]|[E|[v E]]]; discriminate E.
Qed.

(** ** [escHtml] loses nothing *)

Lemma escChar_cases a :
  (a = "&"%char /\ escChar a = "&amp;")
  \/ (a = "<"%char /\ escChar a = "&lt;")
  \/ (a = ">"%char /\ escChar a = "&gt;")
  \/ (a = "034"%char /\ escChar a = "&quot;")
  \/ (a = "'"%char /\ escChar a = "&#39;")
  \/ (a <> "&"%char /\ Ascii.eqb a "&" = false /\ markup_char a = false
      /\ escChar a = String a "").
Proof.
  unfold escChar, markup_char.
  destruct (Ascii.eqb a "&") eqn:E1; [apply Ascii.eqb_eq in E1; auto|].
  destruct (Ascii.eqb a "<") eqn:E2; [apply Ascii.eqb_eq in E2; auto|].
  destruct (Ascii.eqb a ">") eqn:E3; [apply Ascii.eqb_eq in E3; auto 6|].
  destruct (Ascii.eqb a "034") eqn:E4; [apply Ascii.eqb_eq in E4; auto 6|].
  destruct (Ascii.eqb a "'") eqn:E5; [apply Ascii.eqb_eq in E5; auto 7|].
  apply Ascii.eqb_neq in E1. do 5 right. repeat split; auto.
Qed.

Lemma escChar_cancel a b x y :
  escChar a ++ x = escChar b ++ y -> a = b /\ x = y.
Proof.
  destruct (escChar_cases a) as [[-> ->]|[[-> ->]|[[-> ->]|[[-> ->]|[[-> ->]|(Na & _ & _ & ->)]]]]];
  destruct (escChar_cases b) as [[-> ->]|[[-> ->]|[[-> ->]|[[-> ->]|[[-> ->]|(Nb & _ & _ & ->)]]]]];
    cbn [append]; intros H;
    try discriminate H;
    try (injection H as H; split; [reflexivity | exact H]);
    try (injection H as E H; now elim Nb);
    try (injection H as E H; now elim Na).
  injection H as -> ->. split; reflexivity.
Qed.

Lemma escape_injective s t : escape s = escape t -> s = t.
Proof.
  revert t. induction s as [|a s IH]; intros [|b t] H.
  - reflexivity.
  - symmetry in H. now apply escape_nonempty in H.
  - now apply escape_nonempty in H.
  - cbn [escape] in H. apply escChar_cancel in H. destruct H as [-> H].
    now rewrite (IH t H).
Qed.

Lemma escape_app s t : escape (s ++ t) = escape s ++ escape t.
Proof.
  induction s as [|a s IH]; cbn [append escape]; [reflexivity|].
  now rewrite IH, append_assoc.
Qed.

Lemma length_app_string s t :
  String.length (s ++ t) = (String.length s + String.length t)%nat.
Proof. induction s as [|a s IH]; cbn [append String.length Nat.add]; auto. Qed.

Lemma escape_length s :
  (String.length s <= String.length (escape s) <= 6 * String.length s)%nat.
Proof.
  induction s as [|a s IH]; [cbn; lia|].
  cbn [escape]. rewrite length_app_string. cbn [String.length].
  destruct (escChar_cases a) as [[_ ->]|[[_ ->]|[[_ ->]|[[_ ->]|[[_ ->]|(_ & _ & _ & ->)]]]]];
    cbn [String.length]; lia.
Qed.

Lemma escape_plain s : escape s = s <-> plainText s = true.
Proof.
  induction s as [|a s IH]; [split; reflexivity|].
  cbn [escape plainText]. split.
  - intros H.
    assert (L : String.length (escChar a ++ escape s) = String.length (String a s))
      by now rewrite H.
    rewrite length_app_string in L. cbn [String.length] in L.
    pose proof (escape_length s) as B.
    destruct (escChar_cases a) as [[_ E]|[[_ E]|[[_ E]|[[_ E]|[[_ E]|(_ & N & M & E)]]]]];
      rewrite E in L, H; cbn [String.length] in L; try lia.
    rewrite N, M. cbn [negb andb]. apply IH.
    cbn [append] in H. now injection H.
  - intros H. apply andb_true_iff in H. destruct H as [H Hs].
    apply andb_true_iff in H. destruct H as [N M].
    apply negb_true_iff in N, M.
    destruct (escChar_cases a) as [[-> _]|[[-> _]|[[-> _]|[[-> _]|[[-> _]|(_ & _ & _ & E)]]]]];
      try discriminate N; try discriminate M.
    rewrite E. cbn [append]. f_equal. now apply IH.
Qed.

(** X19. [escHtml] is faithful on strings: different texts are escaped to
    different markup, the escape of a concatenation is the concatenation of
    the escapes, a text comes back unchanged exactly when it holds none of
    the five characters the function replaces, and the result is never
    shorter than the text and at most six times as long. *)
Theorem escHtml_faithful :
  (forall s t, escHtml (Some s) = escHtml (Some t) -> s = t)
  /\ (forall s t, escHtml (Some (s ++ t)) = escHtml (Some s) ++ escHtml (Some t))
  /\ (forall s, escHtml (Some s) = s <-> plainText s = true)
  /\ (forall s, (String.length s <= String.length (escHtml (Some s))
                 <= 6 * String.length s)%nat).
Proof.
  split; [|split; [|split]].
  - intros s t. rewrite !escHtml_escape. apply escape_injective.
  - intros s t. rewrite !escHtml_escape. apply escape_app.
  - intros s. rewrite escHtml_escape. apply escape_plain.
  - intros s. rewrite escHtml_escape. apply escape_length.
Qed.

(** ** The list on screen *)

Section View.
Variable env : Env.

Lemma viewConsistent_same w w' :
  listArea (DOM w') = listArea (DOM w) ->
  tasks (state w') = tasks (state w) ->
  activeStatus (state w') = activeStatus (state w) ->
  activePriority (state w') = activePriority (state w) ->
  viewConsistent env w -> viewConsistent env w'.
Proof.
  intros Hl Ht Ha Hp. unfold viewConsistent, displayed.
  rewrite Hl, (filtered_as (state w) (state w') _ Ht Ha Hp). exact (fun H => H).
Qed.

Lemma loadTasks_view w : viewConsistent env (exec (loadTasks env) w).
Proof.
  pose proof (loadTasks_outcome env w) as O. cbv zeta in O.
  destruct (fetchResult (next w)); destruct O as (_ & Od & _); [right | left]; exact Od.
Qed.

Lemma setSubmitting_view b L :
  viewConsistent env L -> viewConsistent env (exec (setSubmitting b) L).
Proof. destruct L as [lst ld lsnt lnet]. exact (fun H => H). Qed.

Lemma handleComplete_view i w :
  viewConsistent env w -> viewConsistent env (exec (handleComplete env i) w).
Proof.
  intros Inv. rewrite handleComplete_cases. cbv zeta.
  destruct (fetchResult (next w)); [apply loadTasks_view|].
  destruct w; exact Inv.
Qed.

Lemma confirmDelete_view w :
  viewConsistent env w -> viewConsistent env (exec (confirmDelete env) w).
Proof.
  intros Inv. destruct (pendingDeleteId (state w)) as [i|] eqn:Hp.
  2:{ now rewrite confirmDelete_idle by auto. }
  destruct (Z.eq_dec i 0) as [->|Hi].
  { now rewrite confirmDelete_idle by auto. }
  rewrite (confirmDelete_cases env i w Hp Hi). cbv zeta.
  destruct (fetchResult (next w)); [apply loadTasks_view|].
  destruct w; exact Inv.
Qed.

Lemma handleFormSubmit_view w :
  viewConsistent env w -> viewConsistent env (exec (handleFormSubmit env) w).
Proof.
  intros Inv.
  destruct (string_dec (trim (f_title (fields (form (DOM w))))) "") as [B|V].
  - rewrite (handleFormSubmit_blank env w B), (readForm_blank env w B).
    destruct w; exact Inv.
  - rewrite (handleFormSubmit_cases env w V). cbv zeta.
    destruct (fetchResult (next w)).
    + apply setSubmitting_view, loadTasks_view.
    + destruct w; exact Inv.
Qed.

Lemma handleStatusPillClick_view pill w :
  viewConsistent env w -> viewConsistent env (exec (handleStatusPillClick env pill) w).
Proof.
  intros Inv. destruct w as [st d snt net]. unfold handleStatusPillClick. js_step.
  destruct pill as [k|]; [|exact Inv].
  destruct (nth_error _ _); [|exact Inv].
  right. reflexivity.
Qed.

Lemma dispatch_view ev w :
  viewConsistent env w -> viewConsistent env (exec (dispatch env ev) w).
Proof.
  intros Inv.
  destruct ev as [| | |e|pill|v| | | |onOverlay|fld v|key]; cbn [dispatch].
  - apply loadTasks_view.
  - now apply handleFormSubmit_view.
  - destruct w; exact Inv.
  - unfold handleTaskListClick.
    destruct (completeBtn e) as [c|]; [now apply handleComplete_view|].
    destruct (editBtn e) as [c|].
    { destruct (handleEdit_keeps env c w) as ((Ka & Kp & _) & Kl & Kt & _).
      now apply (viewConsistent_same w). }
    destruct (deleteBtn e); destruct w; exact Inv.
  - now apply handleStatusPillClick_view.
  - right. destruct w; reflexivity.
  - apply loadTasks_view.
  - destruct w; exact Inv.
  - now apply confirmDelete_view.
  - destruct w, onOverlay; exact Inv.
  - destruct w, fld; exact Inv.
  - destruct w as [st d snt net]. js_step.
    destruct ((key =? "Escape") && negb (confirmModal_hidden d)); exact Inv.
Qed.

End View.

(** X20. The list on screen is never stale: if the list is blank or shows
    the cards of the snapshot's tasks that pass the two filters, the same
    holds after any sequence of events, whatever the network answers. *)
Theorem list_area_reflects_snapshot :
  forall env evs w,
    viewConsistent env w -> viewConsistent env (run env evs w).
Proof.
  intros env evs. induction evs as [|ev evs IH]; intros w Inv; cbn [run].
  - exact Inv.
  - apply IH. now apply dispatch_view.
Qed.

Lemma list_area_reflects_snapshot_witness :
  viewConsistent sample_env
    (run sample_env [DOMContentLoaded; clickComplete 1; FilterPillsClick (Some 2)]
       (page [listing [task1; task5]; ok emptyObject; unavailable])).
Proof.
  apply list_area_reflects_snapshot. left. reflexivity.
Defined.
